(** * argocd-manager: multi-cluster command execution and session recovery

    A shallow embedding of [argocd_manager/manager.py]: name resolution,
    translation of a stored login command into an [argocd] invocation, the
    executor with its production gate, the login-recovery cycle, the guarded
    read and sync operations, and the target-revision mutation.

    Conventions of the embedding.
    - A Python [str] is a Rocq [string]; every character is a code point
      below 256, and [str.lower], [str.isspace] and [str.isdigit] are the
      Python ones restricted to that range.
    - A [dict] is an association list in insertion order with distinct keys.
    - A method of [ArgoCDManager] is a computation in the monad [M]: it
      threads the manager's fields, the operator's pending input lines and
      the trace of observable events, and either returns or raises.  State
      changes made before an exception is raised are kept, as in Python.
    - What lies outside the repository (difflib, shlex, json, the colour
      table, the processes that are launched) is collected in [Host]. *)

From Stdlib Require Import String Ascii List Bool Arith ZArith QArith Lia.
From Stdlib Require Import DecimalString.
Import ListNotations.
Open Scope string_scope.
Open Scope list_scope.
Open Scope Z_scope.
Open Scope nat_scope.

(** String concatenation, kept apart from list concatenation. *)
Infix "+++" := String.append (right associativity, at level 60).

(** ** Python strings *)

Module PyStr.

Definition isspace (c : ascii) : bool :=
  let n := nat_of_ascii c in
  ((9 <=? n) && (n <=? 13)) || ((28 <=? n) && (n <=? 32))
  || (n =? 133) || (n =? 160).

Definition lower_char (c : ascii) : ascii :=
  let n := nat_of_ascii c in
  if ((65 <=? n) && (n <=? 90))
     || ((192 <=? n) && (n <=? 222) && negb (n =? 215))
  then ascii_of_nat (n + 32) else c.

Fixpoint lower (s : string) : string :=
  match s with
  | EmptyString => EmptyString
  | String c s' => String (lower_char c) (lower s')
  end.

Definition is_empty (s : string) : bool :=
  match s with EmptyString => true | _ => false end.

(** Truthiness of a [str]. *)
Definition truthy (s : string) : bool := negb (is_empty s).

Definition startswith (s pre : string) : bool := prefix pre s.

(** [sub in s]. *)
Fixpoint contains (sub s : string) : bool :=
  prefix sub s
  || match s with
     | EmptyString => false
     | String _ s' => contains sub s'
     end.

Fixpoint lstrip_by (p : ascii -> bool) (s : string) : string :=
  match s with
  | EmptyString => EmptyString
  | String c s' => if p c then lstrip_by p s' else s
  end.

Fixpoint rstrip_by (p : ascii -> bool) (s : string) : string :=
  match s with
  | EmptyString => EmptyString
  | String c s' =>
      let r := rstrip_by p s' in
      if p c && is_empty r then EmptyString else String c r
  end.

(** [s.strip()] *)
Definition strip (s : string) : string := rstrip_by isspace (lstrip_by isspace s).

(** [s.rstrip('/')] *)
Definition rstrip_slash (s : string) : string :=
  rstrip_by (fun c => Ascii.eqb c "/"%char) s.

(** [s.split()]: maximal runs of non-space characters. *)
Fixpoint split_aux (cur : string) (s : string) : list string :=
  match s with
  | EmptyString => if is_empty cur then [] else [cur]
  | String c s' =>
      if isspace c
      then (if is_empty cur then split_aux EmptyString s'
            else cur :: split_aux EmptyString s')
      else split_aux (cur +++ String c EmptyString) s'
  end.

Definition split (s : string) : list string := split_aux EmptyString s.

(** [sep.join(l)] *)
Fixpoint join (sep : string) (l : list string) : string :=
  match l with
  | [] => EmptyString
  | [x] => x
  | x :: rest => x +++ sep +++ join sep rest
  end.

(** [s.replace('', new)]: [new] before every character and after the last. *)
Fixpoint interleave (new s : string) : string :=
  match s with
  | EmptyString => new
  | String c s' => new +++ String c (interleave new s')
  end.

(** [s.replace(old, new)] for a non-empty [old]: occurrences are found from
    the left and do not overlap; [skip] counts the characters of a replaced
    occurrence still to be dropped. *)
Fixpoint replace_aux (old new : string) (skip : nat) (s : string) : string :=
  match s with
  | EmptyString => EmptyString
  | String c s' =>
      match skip with
      | S k => replace_aux old new k s'
      | O =>
          if prefix old s
          then new +++ replace_aux old new (String.length old - 1) s'
          else String c (replace_aux old new 0 s')
      end
  end.

Definition replace (old new s : string) : string :=
  if is_empty old then interleave new s else replace_aux old new 0 s.

(** [x in l] for a list of strings. *)
Definition mem (x : string) (l : list string) : bool :=
  existsb (String.eqb x) l.

(** [str(n)] for an [int]. *)
Definition of_Z (z : Z) : string := NilZero.string_of_int (Z.to_int z).

(** [s.isdigit()] *)
Definition isdigit_char (c : ascii) : bool :=
  let n := nat_of_ascii c in
  ((48 <=? n) && (n <=? 57)) || (n =? 178) || (n =? 179) || (n =? 185).

Fixpoint all_chars (p : ascii -> bool) (s : string) : bool :=
  match s with
  | EmptyString => true
  | String c s' => p c && all_chars p s'
  end.

Definition isdigit (s : string) : bool := truthy s && all_chars isdigit_char s.

Definition is_ascii_digit (c : ascii) : bool :=
  let n := nat_of_ascii c in (48 <=? n) && (n <=? 57).

(** [int(s)] on a string of ASCII digits; the other digit characters make
    [int] raise [ValueError]. *)
Fixpoint int_aux (acc : Z) (s : string) : Z :=
  match s with
  | EmptyString => acc
  | String c s' => int_aux (10 * acc + Z.of_nat (nat_of_ascii c - 48))%Z s'
  end.

Definition int (s : string) : option Z :=
  if truthy s && all_chars is_ascii_digit s then Some (int_aux 0 s) else None.

End PyStr.

(** ** Dictionaries with string keys, in insertion order *)

Module Dict.

Section WithValue.
Context {V : Type}.

Fixpoint get (k : string) (d : list (string * V)) : option V :=
  match d with
  | [] => None
  | (k', v) :: d' => if String.eqb k k' then Some v else get k d'
  end.

(** [d[k] = v]: an existing key keeps its position. *)
Fixpoint set (k : string) (v : V) (d : list (string * V)) : list (string * V) :=
  match d with
  | [] => [(k, v)]
  | (k', v') :: d' =>
      if String.eqb k k' then (k, v) :: d' else (k', v') :: set k v d'
  end.

Definition keys (d : list (string * V)) : list string := map fst d.

Definition has (k : string) (d : list (string * V)) : bool :=
  PyStr.mem k (keys d).

End WithValue.

End Dict.

(** ** Decoded JSON documents *)

(** The values [json.loads] produces; [JNull] is Python's [None]. *)
#[warnings="-register-all"]
Inductive json : Type :=
| JNull
| JBool (b : bool)
| JInt (z : Z)
| JFloat (q : Q)
| JStr (s : string)
| JList (l : list json)
| JDict (d : list (string * json)).

(** ** Exceptions, events and the manager's state *)

Inductive exn : Type :=
| CommandExecutionError (msg : string)
| ConfigurationError (msg : string)
| CalledProcessError (returncode : Z) (stdout stderr : string)
| TimeoutExpired
| EOFError
| OtherError (name msg : string).

(** [str(e)] for the clauses [except Exception as e]: the one of the
    executor sees the abort of the production gate, [EOFError] and launch
    errors, the one of the login cycle sees launch errors. *)
Definition exn_str (e : exn) : string :=
  match e with
  | CommandExecutionError msg => msg
  | ConfigurationError msg => msg
  | CalledProcessError rc _ _ =>
      "Command returned non-zero exit status " +++ PyStr.of_Z rc +++ "."
  | TimeoutExpired => "Command timed out"
  | EOFError => "EOF when reading a line"
  | OtherError _ msg => msg
  end.

(** What a run leaves behind, in order: [print(text)];
    [self.logger.debug(text)]; [input(prompt)]; the entry into
    [execute_argocd_command] with its arguments (a record of the call, made
    before anything else happens in it); [subprocess.run(argv, ...)] with
    its timeout; [time.sleep(seconds)]. *)
Inductive event : Type :=
| EvPrint (text : string)
| EvLog (text : string)
| EvInput (prompt : string)
| EvExecute (cluster : string) (args : list string) (timeout : Z)
| EvRun (argv : list string) (timeout : option Z)
| EvSleep (seconds : Z).

(** What a launched process does, as [subprocess.run] reports it. *)
Inductive proc_result : Type :=
| Completed (returncode : Z) (stdout stderr : string)
| TimedOut
| LaunchError (name msg : string).

Record Colors : Type := mkColors {
  HEADER : string;
  OKBLUE : string;
  OKCYAN : string;
  OKGREEN : string;
  WARNING : string;
  FAIL : string;
  ENDC : string;
  BOLD : string
}.

(** The collaborators that are not part of the sources at hand, taken as
    parameters.  [sm_ratio a b] is
    [difflib.SequenceMatcher(None, a, b).ratio()], an exact rational;
    [shlex_split] and [json_loads] answer [None] where Python raises;
    [py_str] is [str()] of a decoded value inside an f-string;
    [subprocess_run] decides, from the events so far (the launch included),
    what the launched process does (a launch without a timeout never
    times out in Python; here the host decides); [colors] is the table of
    [argocd_manager/colors.py]. *)
Record Host : Type := mkHost {
  sm_ratio : string -> string -> Q;
  shlex_split : string -> option (list string);
  json_loads : string -> option json;
  py_str : json -> string;
  subprocess_run : list event -> proc_result;
  colors : Colors
}.

(** The fields of [ArgoCDManager] together with the operator's pending
    input lines and the events observed so far (oldest first). *)
Record World : Type := mkWorld {
  config : list (string * string);
  verbose : bool;
  allow_patch : bool;
  confirmed_production : list string;
  stdin : list string;
  trace : list event
}.

Definition set_trace (t : list event) (w : World) : World :=
  mkWorld (config w) (verbose w) (allow_patch w) (confirmed_production w)
          (stdin w) t.

Definition set_stdin (i : list string) (w : World) : World :=
  mkWorld (config w) (verbose w) (allow_patch w) (confirmed_production w)
          i (trace w).

Definition set_confirmed (c : list string) (w : World) : World :=
  mkWorld (config w) (verbose w) (allow_patch w) c (stdin w) (trace w).

(** ** The state-and-exception monad *)

Inductive outcome (A : Type) : Type :=
| Ret (a : A)
| Raise (e : exn).
Arguments Ret {A} a.
Arguments Raise {A} e.

Definition M (A : Type) : Type := World -> outcome A * World.

Definition ret {A} (a : A) : M A := fun w => (Ret a, w).

Definition raise {A} (e : exn) : M A := fun w => (Raise e, w).

Definition bind {A B} (m : M A) (k : A -> M B) : M B :=
  fun w =>
    match m w with
    | (Ret a, w') => k a w'
    | (Raise e, w') => (Raise e, w')
    end.

(** [try: m except ...: h]: the handler answers [None] for the exceptions
    its clauses do not catch. *)
Definition try_except {A} (m : M A) (h : exn -> option (M A)) : M A :=
  fun w =>
    match m w with
    | (Ret a, w') => (Ret a, w')
    | (Raise e, w') =>
        match h e with
        | Some k => k w'
        | None => (Raise e, w')
        end
    end.

Definition gets {A} (f : World -> A) : M A := fun w => (Ret (f w), w).

Definition emit (e : event) : M unit :=
  fun w => (Ret tt, set_trace (trace w ++ [e]) w).

Definition when (b : bool) (m : M unit) : M unit := if b then m else ret tt.

Declare Scope monad_scope.
Delimit Scope monad_scope with monad.
Notation "x <- c1 ;; c2" := (bind c1 (fun x => c2))
  (at level 61, c1 at next level, right associativity) : monad_scope.
Notation "c1 ;; c2" := (bind c1 (fun _ => c2))
  (at level 61, right associativity) : monad_scope.
Open Scope monad_scope.

Definition print (text : string) : M unit := emit (EvPrint text).

Definition sleep (seconds : Z) : M unit := emit (EvSleep seconds).

(** [input(prompt)]: the next pending line, [EOFError] when there is none. *)
Definition input (prompt : string) : M string :=
  emit (EvInput prompt) ;;
  fun w =>
    match stdin w with
    | [] => (Raise EOFError, w)
    | line :: rest => (Ret line, set_stdin rest w)
    end.

(** [self._confirmed_production.add(name)] *)
Definition confirm_production (name : string) : M unit :=
  fun w =>
    (Ret tt,
     if PyStr.mem name (confirmed_production w) then w
     else set_confirmed (confirmed_production w ++ [name]) w).

Definition Qlt_bool (a b : Q) : bool := negb (Qle_bool b a).

(** ** Python operations on decoded values *)

Module PyVal.

Definition lift {A} (o : outcome A) : M A := fun w => (o, w).

Definition attribute_error {A} (attr : string) : outcome A :=
  Raise (OtherError "AttributeError" ("object has no attribute '" +++ attr +++ "'")).

Definition type_error {A} (msg : string) : outcome A :=
  Raise (OtherError "TypeError" msg).

(** Truthiness. *)
Definition truthy (v : json) : bool :=
  match v with
  | JNull => false
  | JBool b => b
  | JInt z => negb (z =? 0)%Z
  | JFloat q => negb (Qeq_bool q 0)
  | JStr s => PyStr.truthy s
  | JList l => match l with [] => false | _ => true end
  | JDict d => match d with [] => false | _ => true end
  end.

(** [v.get(k, default)] *)
Definition get (v : json) (k : string) (default : json) : outcome json :=
  match v with
  | JDict d =>
      Ret (match Dict.get k d with Some x => x | None => default end)
  | _ => attribute_error "get"
  end.

(** [k in v] for a string [k]. *)
Definition has (k : string) (v : json) : outcome bool :=
  match v with
  | JDict d => Ret (Dict.has k d)
  | JList l =>
      Ret (existsb (fun x => match x with
                             | JStr s => String.eqb s k
                             | _ => false
                             end) l)
  | JStr s => Ret (PyStr.contains k s)
  | _ => type_error "argument is not iterable"
  end.

(** [v[k]] for a string [k]. *)
Definition getitem (v : json) (k : string) : outcome json :=
  match v with
  | JDict d =>
      match Dict.get k d with
      | Some x => Ret x
      | None => Raise (OtherError "KeyError" k)
      end
  | _ => type_error "indices must be integers"
  end.

(** [v.rstrip('/')] *)
Definition rstrip_slash (v : json) : outcome string :=
  match v with
  | JStr s => Ret (PyStr.rstrip_slash s)
  | _ => attribute_error "rstrip"
  end.

Definition hex_digit (n : nat) : ascii :=
  if n <? 10 then ascii_of_nat (48 + n) else ascii_of_nat (87 + n).

(** One character of a string under [json.dumps] (ASCII output). *)
Definition dumps_char (c : ascii) : string :=
  let n := nat_of_ascii c in
  if n =? 34 then String "\"%char (String c EmptyString)
  else if n =? 92 then "\\"
  else if n =? 10 then "\n"
  else if n =? 13 then "\r"
  else if n =? 9 then "\t"
  else if n =? 8 then "\b"
  else if n =? 12 then "\f"
  else if (32 <=? n) && (n <=? 126) then String c EmptyString
  else "\u00" +++ String (hex_digit (n / 16))
                   (String (hex_digit (n mod 16)) EmptyString).

Fixpoint dumps_chars (s : string) : string :=
  match s with
  | EmptyString => EmptyString
  | String c s' => dumps_char c +++ dumps_chars s'
  end.

Definition quote : string := String (ascii_of_nat 34) EmptyString.

(** [json.dumps(s)] for a [str]. *)
Definition dumps_str (s : string) : string := quote +++ dumps_chars s +++ quote.

End PyVal.

(** ** The manager *)

Section Manager.

Variable host : Host.

Let C : Colors := colors host.

(** [subprocess.run(argv, capture_output=True, text=True, check=..., timeout=...)] *)
Definition run_subprocess (argv : list string) (timeout : option Z)
    (check : bool) : M (Z * string * string) :=
  emit (EvRun argv timeout) ;;
  fun w =>
    match subprocess_run host (trace w) with
    | Completed rc out err =>
        if check && negb (rc =? 0)%Z
        then (Raise (CalledProcessError rc out err), w)
        else (Ret (rc, out, err), w)
    | TimedOut => (Raise TimeoutExpired, w)
    | LaunchError name msg => (Raise (OtherError name msg), w)
    end.

(** *** [fuzzy_match] (manager.py, lines 27-37) *)

Fixpoint fuzzy_loop (query : string) (threshold : Q) (choices : list string)
    (best : option string) (best_ratio : Q) : option string :=
  match choices with
  | [] => best
  | c :: rest =>
      let ratio := sm_ratio host (PyStr.lower query) (PyStr.lower c) in
      if Qlt_bool best_ratio ratio && Qle_bool threshold ratio
      then fuzzy_loop query threshold rest (Some c) ratio
      else fuzzy_loop query threshold rest best best_ratio
  end.

Definition fuzzy_match (query : string) (choices : list string)
    (threshold : Q) : option string :=
  if PyStr.mem query choices then Some query
  else fuzzy_loop query threshold choices None 0%Q.

Definition default_threshold : Q := 6 # 10.

(** *** [confirm_action] (lines 40-49) *)

Definition confirm_action (prompt : string) (default : bool)
    (color : option string) : M bool :=
  let choices := if default then "Y/n" else "y/N" in
  let full_prompt :=
    match color with
    | Some c =>
        if PyStr.truthy c
        then c +++ prompt +++ ENDC C +++ " [" +++ choices +++ "]: "
        else prompt +++ " [" +++ choices +++ "]: "
    | None => prompt +++ " [" +++ choices +++ "]: "
    end in
  line <- input full_prompt ;;
  let response := PyStr.lower (PyStr.strip line) in
  if PyStr.is_empty response then ret default
  else ret (PyStr.mem response ["y"; "yes"]).

(** *** [validate_cluster] (lines 132-150) *)

(** [{k.lower(): k for k in self.config.keys()}] *)
Definition lower_map (keys : list string) : list (string * string) :=
  fold_left (fun m k => Dict.set (PyStr.lower k) k m) keys [].

Definition validate_cluster (cluster_name : string) : M string :=
  cfg <- gets config ;;
  if Dict.has cluster_name cfg then ret cluster_name
  else
    match Dict.get (PyStr.lower cluster_name) (lower_map (Dict.keys cfg)) with
    | Some matched =>
        print (WARNING C +++ "Using '" +++ matched
               +++ "' (case-insensitive) instead of '" +++ cluster_name
               +++ "'" +++ ENDC C) ;;
        ret matched
    | None =>
        match fuzzy_match cluster_name (Dict.keys cfg) default_threshold with
        | Some found =>
            if PyStr.truthy found
            then
              print (WARNING C +++ "Using '" +++ found +++ "' instead of '"
                     +++ cluster_name +++ "'" +++ ENDC C) ;;
              ret found
            else
              raise (ConfigurationError
                       ("Cluster '" +++ cluster_name +++ "' not found"))
        | None =>
            raise (ConfigurationError
                     ("Cluster '" +++ cluster_name +++ "' not found"))
        end
    end.

(** *** [execute_argocd_command] (lines 152-220) *)

Definition ALLOWED_GLOBAL_FLAGS : list string :=
  ["--grpc-web"; "--insecure"; "--auth-token"; "--port-forward"; "--plaintext"].

(** The inner [while] (lines 171-182): the tokens after the server URL. *)
Fixpoint forward_flags (parts : list string) : list string :=
  match parts with
  | [] => []
  | part :: rest =>
      if PyStr.mem part ALLOWED_GLOBAL_FLAGS then
        if String.eqb part "--auth-token" then
          match rest with
          | value :: rest' =>
              if negb (PyStr.startswith value "--")
              then part :: value :: forward_flags rest'
              else part :: forward_flags rest
          | [] => [part]
          end
        else part :: forward_flags rest
      else forward_flags rest
  end.

(** The body of [if part == 'login'] (lines 167-183). *)
Definition parse_after_login (rest : list string)
    : option string * list string :=
  match rest with
  | url :: rest' =>
      if negb (PyStr.startswith url "--")
      then (Some url, forward_flags rest')
      else (None, forward_flags rest)
  | [] => (None, [])
  end.

(** The outer [while] (lines 163-184): [(server_url, connection_args)]. *)
Fixpoint parse_login (parts : list string) : option string * list string :=
  match parts with
  | [] => (None, [])
  | part :: rest =>
      if String.eqb part "login" then parse_after_login rest
      else parse_login rest
  end.

(** Lines 155-189: the argv handed to [subprocess.run]. *)
Definition translate (login_cmd : string) (argocd_args : list string)
    : list string :=
  let parts := PyStr.split login_cmd in
  let '(server_url, connection_args) := parse_login parts in
  let cmd := ["argocd"] ++ argocd_args in
  let cmd :=
    match server_url with
    | Some url => if PyStr.truthy url then cmd ++ ["--server"; url] else cmd
    | None => cmd
    end in
  cmd ++ connection_args.

(** [server_url or ''] *)
Definition server_url_or_empty (login_cmd : string) : string :=
  match fst (parse_login (PyStr.split login_cmd)) with
  | Some url => url
  | None => EmptyString
  end.

Definition looks_like_production (cluster_name : string) : bool :=
  PyStr.contains "prod" (PyStr.lower cluster_name).

(** Lines 195-200: the confirmation asked before a production-looking
    cluster is contacted. *)
Definition production_gate (cluster_name : string) : M unit :=
  confirmed <- gets confirmed_production ;;
  if looks_like_production cluster_name
     && negb (PyStr.mem cluster_name confirmed)
  then
    resp <- confirm_action
              ("Cluster '" +++ cluster_name
               +++ "' looks like production. Continue connecting?")
              false (Some (FAIL C)) ;;
    if negb resp
    then raise (CommandExecutionError
                  "User aborted connection to production cluster")
    else confirm_production cluster_name
  else ret tt.

(** Lines 204-220: the [except] clauses of the executor, in order. *)
Definition executor_handler (login_cmd : string) (timeout : Z) (e : exn)
    : option (M string) :=
  match e with
  | CalledProcessError _ out err =>
      let stdout := PyStr.strip out in
      let stderr := PyStr.strip err in
      if PyStr.truthy stdout then Some (ret stdout)
      else
        let err := if PyStr.truthy stderr then stderr else "Unknown error" in
        let err := PyStr.replace (server_url_or_empty login_cmd)
                                 "<server>" err in
        Some (raise (CommandExecutionError err))
  | TimeoutExpired =>
      Some (raise (CommandExecutionError
                     ("Command timed out after "
                      +++ PyStr.of_Z timeout +++ " seconds")))
  | _ => Some (raise (CommandExecutionError (exn_str e)))
  end.

Definition execute_argocd_command (cluster_name : string)
    (argocd_args : list string) (timeout : Z) (quiet : bool) : M string :=
  emit (EvExecute cluster_name argocd_args timeout) ;;
  cluster_name <- validate_cluster cluster_name ;;
  cfg <- gets config ;;
  match Dict.get cluster_name cfg with
  | None => raise (OtherError "KeyError" cluster_name)
  | Some login_cmd =>
      let cmd := translate login_cmd argocd_args in
      emit (EvLog ("Executing: " +++ PyStr.join " " cmd)) ;;
      try_except
        (production_gate cluster_name ;;
         res <- run_subprocess cmd (Some timeout) true ;;
         let '(_, out, _) := res in
         ret out)
        (executor_handler login_cmd timeout)
  end.

(** *** [_handle_oidc_login] (lines 222-281) *)

Definition poll_attempts : nat := 15.
Definition poll_delay : Z := 2%Z.

(** The test of lines 271-272 on a poll failure's message. *)
Definition still_unauthenticated (err : string) : bool :=
  PyStr.contains "Unauthenticated" err
  || PyStr.contains "invalid session" err
  || PyStr.contains "rpc error: code = Unauthenticated" err.

(** The [for attempt in range(poll_attempts)] loop (lines 258-281). *)
Fixpoint poll_loop (cluster_name : string) (quiet : bool)
    (attempts : list nat) : M bool :=
  match attempts with
  | [] =>
      print (WARNING C +++ "Timed out waiting for authentication for '"
             +++ cluster_name +++ "'" +++ ENDC C) ;;
      ret false
  | _ :: rest =>
      v <- gets verbose ;;
      r <- try_except
             (execute_argocd_command cluster_name
                ["proj"; "list"; "--output"; "json"] 5%Z quiet ;;
              when (negb quiet && negb v)
                (print (OKGREEN C +++ "Authentication verified for '"
                        +++ cluster_name +++ "'" +++ ENDC C)) ;;
              when (looks_like_production cluster_name)
                (confirm_production cluster_name) ;;
              ret (Some true))
             (fun e =>
                match e with
                | CommandExecutionError err =>
                    Some (if still_unauthenticated err
                          then sleep poll_delay ;; ret None
                          else
                            when (negb quiet)
                              (print (WARNING C
                                      +++ "Login ran but verification failed: "
                                      +++ err +++ ENDC C)) ;;
                            ret (Some false))
                | _ => None
                end) ;;
      match r with
      | Some b => ret b
      | None => poll_loop cluster_name quiet rest
      end
  end.

Definition _handle_oidc_login (cluster_name : string) (quiet : bool) : M bool :=
  cfg <- gets config ;;
  v <- gets verbose ;;
  match Dict.get cluster_name cfg with
  | None =>
      print (FAIL C +++ "No login command available for " +++ cluster_name
             +++ ENDC C) ;;
      ret false
  | Some login_cmd =>
      if negb (PyStr.truthy login_cmd) then
        print (FAIL C +++ "No login command available for " +++ cluster_name
               +++ ENDC C) ;;
        ret false
      else
        when (negb quiet && negb v)
          (print (WARNING C +++ "Authentication required for '"
                  +++ cluster_name +++ "'." +++ ENDC C) ;;
           print ("Stored login command: " +++ OKCYAN C +++ login_cmd
                  +++ ENDC C)) ;;
        parts <- match shlex_split host login_cmd with
                 | Some parts => ret parts
                 | None => raise (OtherError "ValueError" "No closing quotation")
                 end ;;
        ran <- try_except
                 (when (negb quiet && negb v)
                    (print (OKCYAN C +++ "Auto-running stored login command..."
                            +++ ENDC C)) ;;
                  res <- run_subprocess parts None false ;;
                  let '(_, out, err) := res in
                  when v
                    (when (PyStr.truthy out) (print out) ;;
                     when (PyStr.truthy err) (print err)) ;;
                  ret true)
                 (fun e =>
                    Some (print (FAIL C +++ "Failed to run login command: "
                                 +++ exn_str e +++ ENDC C) ;;
                          ret false)) ;;
        if negb ran then ret false
        else
          when (negb quiet && negb v)
            (print (OKCYAN C +++ "Waiting for authentication to complete..."
                    +++ ENDC C)) ;;
          poll_loop cluster_name quiet (seq 0 poll_attempts)
  end.

(** *** The guarded operations (lines 284-391) *)

(** The substrings looked for in the lowercased failure message (lines 294,
    319, 337, 354 and 386 carry the same tuple). *)
Definition AUTH_PATTERNS : list string :=
  ["unauthenticated"; "invalid session"; "rpc error: code = unauthenticated";
   "invalid_grant"; "invalid refresh token"; "oauth2"].

Definition is_auth_error (low : string) : bool :=
  existsb (fun k => PyStr.contains k low) AUTH_PATTERNS.

(** [json.loads(out) if out else None] *)
Definition loads_or_none (out : string) : M json :=
  if PyStr.truthy out then
    match json_loads host out with
    | Some v => ret v
    | None => raise (OtherError "JSONDecodeError" "Expecting value")
    end
  else ret JNull.

(** In the loops below the body answers [None] for [continue] and [Some v]
    for [return v]; a loop that runs out returns Python's [None]. *)

Fixpoint list_projects_loop (cluster_name : string) (attempts : list nat)
    : M json :=
  match attempts with
  | [] => ret JNull
  | attempt :: rest =>
      r <- try_except
             (out <- execute_argocd_command cluster_name
                       ["proj"; "list"; "--output"; "json"] 30%Z false ;;
              v <- loads_or_none out ;;
              ret (Some v))
             (fun e =>
                match e with
                | CommandExecutionError err =>
                    Some (
                      let low := PyStr.lower err in
                      again <- (if is_auth_error low then
                                  if attempt =? 0
                                  then _handle_oidc_login cluster_name false
                                  else ret false
                                else ret false) ;;
                      if again then ret None
                      else
                        print (FAIL C +++ "Failed: " +++ err +++ ENDC C) ;;
                        ret (Some JNull))
                | _ => None
                end) ;;
      match r with
      | Some v => ret v
      | None => list_projects_loop cluster_name rest
      end
  end.

Definition list_projects (cluster_name : string) : M json :=
  list_projects_loop cluster_name (seq 0 2).

Definition list_applications_cmd (project_name : option string) : list string :=
  let cmd := ["app"; "list"; "--output"; "json"] in
  match project_name with
  | Some p => if PyStr.truthy p then cmd ++ ["--project"; p] else cmd
  | None => cmd
  end.

Fixpoint list_applications_loop (cluster_name : string) (cmd : list string)
    (attempts : list nat) : M json :=
  match attempts with
  | [] => ret JNull
  | attempt :: rest =>
      r <- try_except
             (out <- execute_argocd_command cluster_name cmd 30%Z false ;;
              v <- loads_or_none out ;;
              ret (Some v))
             (fun e =>
                match e with
                | CommandExecutionError err =>
                    Some (
                      let low := PyStr.lower err in
                      again <- (if is_auth_error low then
                                  if attempt =? 0
                                  then _handle_oidc_login cluster_name false
                                  else ret false
                                else ret false) ;;
                      if again then ret None
                      else
                        print (FAIL C +++ "Failed: " +++ err +++ ENDC C) ;;
                        ret (Some JNull))
                | _ => None
                end) ;;
      match r with
      | Some v => ret v
      | None => list_applications_loop cluster_name cmd rest
      end
  end.

Definition list_applications (cluster_name : string)
    (project_name : option string) : M json :=
  list_applications_loop cluster_name (list_applications_cmd project_name)
    (seq 0 2).

Fixpoint _get_application_status_loop (cluster_name app_name : string)
    (quiet : bool) (attempts : list nat) : M json :=
  match attempts with
  | [] => ret JNull
  | attempt :: rest =>
      r <- try_except
             (out <- execute_argocd_command cluster_name
                       ["app"; "get"; app_name; "--output"; "json"] 30%Z quiet ;;
              v <- loads_or_none out ;;
              ret (Some v))
             (fun e =>
                match e with
                | CommandExecutionError err =>
                    Some (
                      let low := PyStr.lower err in
                      again <- (if is_auth_error low then
                                  if attempt =? 0
                                  then _handle_oidc_login cluster_name quiet
                                  else ret false
                                else ret false) ;;
                      if again then ret None
                      else
                        print (FAIL C +++ "Failed: " +++ err +++ ENDC C) ;;
                        ret (Some JNull))
                | _ => None
                end) ;;
      match r with
      | Some v => ret v
      | None => _get_application_status_loop cluster_name app_name quiet rest
      end
  end.

Definition _get_application_status (cluster_name app_name : string)
    (quiet : bool) : M json :=
  _get_application_status_loop cluster_name app_name quiet (seq 0 2).

Definition get_application_status (cluster_name app_name : string) : M json :=
  _get_application_status cluster_name app_name false.

(** The diff is a [str] or [None]. *)
Fixpoint _get_application_diff_loop (cluster_name app_name : string)
    (quiet : bool) (attempts : list nat) : M (option string) :=
  match attempts with
  | [] => ret None
  | attempt :: rest =>
      r <- try_except
             (out <- execute_argocd_command cluster_name
                       ["app"; "diff"; app_name] 30%Z quiet ;;
              ret (Some (Some out)))
             (fun e =>
                match e with
                | CommandExecutionError err =>
                    Some (
                      let low := PyStr.lower err in
                      again <- (if is_auth_error low then
                                  if attempt =? 0
                                  then _handle_oidc_login cluster_name quiet
                                  else ret false
                                else ret false) ;;
                      if again then ret None
                      else
                        when (negb quiet)
                          (print (FAIL C +++ "Failed: " +++ err +++ ENDC C)) ;;
                        ret (Some None))
                | _ => None
                end) ;;
      match r with
      | Some v => ret v
      | None => _get_application_diff_loop cluster_name app_name quiet rest
      end
  end.

Definition _get_application_diff (cluster_name app_name : string)
    (quiet : bool) : M (option string) :=
  _get_application_diff_loop cluster_name app_name quiet (seq 0 2).

Definition get_application_diff (cluster_name app_name : string)
    : M (option string) :=
  _get_application_diff cluster_name app_name false.

Definition sync_cmd (app_name : string) (prune : bool) : list string :=
  ["app"; "sync"; app_name] ++ (if prune then ["--prune"] else []).

(** The result is a [bool], or [None] when the loop runs out. *)
Fixpoint sync_application_loop (cluster_name app_name : string)
    (cmd : list string) (attempts : list nat) : M (option bool) :=
  match attempts with
  | [] => ret None
  | attempt :: rest =>
      r <- try_except
             (out <- execute_argocd_command cluster_name cmd 300%Z false ;;
              print (OKGREEN C +++ "Synced " +++ app_name +++ ENDC C) ;;
              v <- gets verbose ;;
              when (v && PyStr.truthy out) (print out) ;;
              ret (Some (Some true)))
             (fun e =>
                match e with
                | CommandExecutionError msg =>
                    Some (
                      let err := PyStr.lower msg in
                      again <- (if (attempt =? 0) && is_auth_error err
                                then _handle_oidc_login cluster_name false
                                else ret false) ;;
                      if again then ret None
                      else
                        print (FAIL C +++ "Failed to sync: " +++ msg
                               +++ ENDC C) ;;
                        ret (Some (Some false)))
                | _ => None
                end) ;;
      match r with
      | Some v => ret v
      | None => sync_application_loop cluster_name app_name cmd rest
      end
  end.

Definition sync_application (cluster_name app_name : string)
    (dry_run prune : bool) : M (option bool) :=
  if dry_run then
    print (OKCYAN C +++ "DRY RUN: Would sync " +++ app_name +++ ENDC C) ;;
    diff <- get_application_diff cluster_name app_name ;;
    match diff with
    | Some d => when (PyStr.truthy d) (print d)
    | None => ret tt
    end ;;
    ret (Some true)
  else
    go <- confirm_action ("Sync '" +++ app_name +++ "'?") true None ;;
    if negb go then
      print "Cancelled" ;;
      ret (Some false)
    else
      sync_application_loop cluster_name app_name (sync_cmd app_name prune)
        (seq 0 2).

(** *** [set_application_target_revision] (lines 407-521) *)

Import PyVal.

(** [l[i] = x]; [None] where Python raises [IndexError]. *)
Fixpoint setitem {A} (i : nat) (x : A) (l : list A) : option (list A) :=
  match l, i with
  | [], _ => None
  | _ :: rest, O => Some (x :: rest)
  | y :: rest, S j => option_map (cons y) (setitem j x rest)
  end.

(** How an f-string shows a decoded value. *)
Definition fmt (v : json) : string :=
  match v with
  | JStr s => s
  | JNull => "None"
  | JBool true => "True"
  | JBool false => "False"
  | JInt z => PyStr.of_Z z
  | _ => py_str host v
  end.

(** [a or b] with [b] evaluated only when [a] is falsy. *)
Definition or_else (a : json) (b : M json) : M json :=
  if truthy a then ret a else b.

(** Lines 423-427. *)
Definition sources_of (spec : json) : M (list json) :=
  has_sources <- lift (has "sources" spec) ;;
  multi <- (if has_sources then
              v <- lift (getitem spec "sources") ;;
              ret (match v with JList l => Some l | _ => None end)
            else ret None) ;;
  match multi with
  | Some l => ret l
  | None =>
      has_source <- lift (has "source" spec) ;;
      if has_source then
        v <- lift (getitem spec "source") ;;
        ret (match v with JDict _ => [v] | _ => [] end)
      else ret []
  end.

(** [s.get('repoURL') or s.get('helm', {}).get('repo')] *)
Definition repo_url_of (s : json) : M json :=
  url <- lift (get s "repoURL" JNull) ;;
  or_else url
    (helm <- lift (get s "helm" (JDict [])) ;;
     lift (get helm "repo" JNull)).

(** The loop of lines 432-436, from index [i] on. *)
Fixpoint match_repo (repo : string) (sources : list json) (i : Z)
    : M (option Z) :=
  match sources with
  | [] => ret None
  | s :: rest =>
      repourl <- repo_url_of s ;;
      if truthy repourl then
        stripped <- lift (rstrip_slash repourl) ;;
        if String.eqb stripped (PyStr.rstrip_slash repo) then ret (Some i)
        else match_repo repo rest (i + 1)%Z
      else match_repo repo rest (i + 1)%Z
  end.

(** The listing of lines 441-445, from index [i] on. *)
Fixpoint print_sources (sources : list json) (i : Z) : M unit :=
  match sources with
  | [] => ret tt
  | s :: rest =>
      url <- repo_url_of s ;;
      repourl <- or_else url (ret (JStr "<no-repo>")) ;;
      rev <- lift (get s "targetRevision" JNull) ;;
      tgt <- or_else rev
               (ref <- lift (get s "ref" JNull) ;;
                or_else ref (ret (JStr "<none>"))) ;;
      ch <- lift (get s "chart" JNull) ;;
      chart <- or_else ch
                 (path <- lift (get s "path" JNull) ;;
                  or_else path (ret (JStr "<no-chart>"))) ;;
      print ("  [" +++ PyStr.of_Z i +++ "] repo: " +++ fmt repourl
             +++ " | chart/path: " +++ fmt chart
             +++ " | targetRevision: " +++ fmt tgt) ;;
      print_sources rest (i + 1)%Z
  end.

(** The [while True] of lines 448-462.  Every turn consumes one pending
    input line, so the pending lines bound the number of turns; [Some i] is
    the selection, [None] stands for [return False]. *)
Fixpoint choose_source (fuel : nat) (cluster_name : string) (n_sources : nat)
    : M (option Z) :=
  match fuel with
  | O => raise EOFError
  | S fuel' =>
      r <- try_except
             (line <- input ("Select source index to update for cluster '"
                             +++ cluster_name
                             +++ "' (enter number, or 's' to skip): ") ;;
              ret (Some (PyStr.strip line)))
             (fun e =>
                match e with
                | EOFError =>
                    Some (print (String (ascii_of_nat 10)
                                   "No input available; skipping") ;;
                          ret None)
                | _ => None
                end) ;;
      match r with
      | None => ret None
      | Some choice =>
          if negb (PyStr.truthy choice)
             || PyStr.mem (PyStr.lower choice) ["s"; "skip"; "n"; "no"]
          then print "Skipping" ;; ret None
          else
            picked <- (if PyStr.isdigit choice then
                         match PyStr.int choice with
                         | None =>
                             raise (OtherError "ValueError"
                                      "invalid literal for int()")
                         | Some ci =>
                             ret (if (0 <=? ci)%Z
                                     && (ci <? Z.of_nat n_sources)%Z
                                  then Some ci else None)
                         end
                       else ret None) ;;
            match picked with
            | Some ci => ret (Some ci)
            | None =>
                print ("Invalid selection. Please enter a valid index or "
                       +++ quote +++ "s" +++ quote +++ " to skip.") ;;
                choose_source fuel' cluster_name n_sources
            end
      end
  end.

(** Lines 465-470. *)
Definition set_cmd (app_name revision : string) (repo : option string)
    (resolved_index : option Z) : list string :=
  ["app"; "set"; app_name; "--revision"; revision]
  ++ match repo with
     | Some r => if PyStr.truthy r then ["--repo"; r] else []
     | None => []
     end
  ++ match resolved_index with
     | Some i => ["--source-position"; PyStr.of_Z (i + 1)]
     | None => []
     end.

(** Lines 494-502: [patch_cmd] for a namespace that is a [str]. *)
Definition patch_cmd (kube_ns app_name revision : string)
    (resolved_index : option Z) : list string :=
  match resolved_index with
  | Some i =>
      let patch_str :=
        "[{" +++ dumps_str "op" +++ ": " +++ dumps_str "replace" +++ ", "
        +++ dumps_str "path" +++ ": "
        +++ dumps_str ("/spec/sources/" +++ PyStr.of_Z i +++ "/targetRevision")
        +++ ", " +++ dumps_str "value" +++ ": " +++ dumps_str revision
        +++ "}]" in
      ["kubectl"; "-n"; kube_ns; "patch"; "applications.argoproj.io";
       app_name; "--type=json"; "-p"; patch_str]
  | None =>
      let patch_str :=
        "{" +++ dumps_str "spec" +++ ": {" +++ dumps_str "source" +++ ": {"
        +++ dumps_str "targetRevision" +++ ": " +++ dumps_str revision
        +++ "}}}" in
      ["kubectl"; "-n"; kube_ns; "patch"; "applications.argoproj.io";
       app_name; "--type"; "merge"; "-p"; patch_str]
  end.

(** [subprocess.run(patch_cmd, ..., check=True)] followed by the print of
    its output (lines 504-507 and 515-518). *)
Definition run_patch (argv : list string) : M bool :=
  res <- run_subprocess argv None true ;;
  let '(_, out, _) := res in
  when (PyStr.truthy out) (print out) ;;
  ret true.

(** Lines 489-521. *)
Definition patch_fallback (app_status : json) (app_name revision : string)
    (resolved_index : option Z) : M bool :=
  metadata <- lift (get app_status "metadata" (JDict [])) ;;
  ns <- lift (get metadata "namespace" JNull) ;;
  kube_ns <- or_else ns (ret (JStr "argocd")) ;;
  try_except
    (ns_str <- match kube_ns with
               | JStr s => ret s
               | _ => lift (type_error "expected str, bytes or os.PathLike object")
               end ;;
     run_patch (patch_cmd ns_str app_name revision resolved_index))
    (fun e =>
       match e with
       | CalledProcessError _ out err =>
           Some (
             try_except
               (ns_str <- match kube_ns with
                          | JStr s => ret s
                          | _ => lift (type_error "expected str")
                          end ;;
                match setitem 3 "applications"
                        (patch_cmd ns_str app_name revision resolved_index) with
                | Some retry_cmd => run_patch retry_cmd
                | None => raise (OtherError "IndexError"
                                   "list assignment index out of range")
                end)
               (fun e' =>
                  match e' with
                  | CalledProcessError _ _ _ =>
                      Some (print (FAIL C +++ "kubectl patch failed: "
                                   +++ (if PyStr.truthy err then err else out)
                                   +++ ENDC C) ;;
                            ret false)
                  | _ => None
                  end))
       | _ => None
       end).

(** Lines 414-462: the application document and the index of the source
    to change; [None] stands for [return False]. *)
Definition resolve_target (cluster_name app_name : string)
    (repo : option string) (source_index : option Z)
    : M (option (string * json * option Z)) :=
  cluster_name <- validate_cluster cluster_name ;;
  app_status <- get_application_status cluster_name app_name ;;
  if negb (truthy app_status) then
    print (FAIL C +++ "Unable to fetch application status for " +++ app_name
           +++ ENDC C) ;;
    ret None
  else
    spec <- lift (get app_status "spec" (JDict [])) ;;
    sources <- sources_of spec ;;
    resolved_index <-
      match repo, source_index with
      | Some r, None =>
          if PyStr.truthy r && (1 <? length sources)
          then match_repo r sources 0%Z
          else ret source_index
      | _, _ => ret source_index
      end ;;
    match resolved_index with
    | None =>
        if 1 <? length sources then
          print (String (ascii_of_nat 10) (BOLD C)
                 +++ "Application has multiple sources. Choose which source to update for '"
                 +++ app_name +++ "' on '" +++ cluster_name +++ "':"
                 +++ ENDC C) ;;
          print_sources sources 0%Z ;;
          pending <- gets stdin ;;
          choice <- choose_source (S (length pending)) cluster_name
                      (length sources) ;;
          match choice with
          | Some ci => ret (Some (cluster_name, app_status, Some ci))
          | None => ret None
          end
        else ret (Some (cluster_name, app_status, None))
    | Some i => ret (Some (cluster_name, app_status, Some i))
    end.

(** Lines 464-521: the dry run, the primary command and the fallback. *)
Definition apply_target (cluster_name app_name revision : string)
    (repo : option string) (app_status : json) (resolved_index : option Z)
    (dry_run : bool) : M bool :=
  let cmd := set_cmd app_name revision repo resolved_index in
  if dry_run then
    print ("DRY RUN: argocd " +++ PyStr.join " " cmd
           +++ " --server <server-from-config>") ;;
    ret true
  else
    primary <-
      try_except
        (out <- execute_argocd_command cluster_name cmd 30%Z false ;;
         v <- gets verbose ;;
         when (v && PyStr.truthy out) (print out) ;;
         ret (Some true))
        (fun e =>
           match e with
           | CommandExecutionError err =>
               Some (
                 print (FAIL C +++ "argocd app set failed: " +++ err
                        +++ "." +++ ENDC C) ;;
                 allowed <- gets allow_patch ;;
                 if negb allowed then
                   print (WARNING C
                          +++ "kubectl patch fallback is disabled. To enable, run with --allow-patch."
                          +++ ENDC C) ;;
                   ret (Some false)
                 else ret None)
           | _ => None
           end) ;;
    match primary with
    | Some b => ret b
    | None => patch_fallback app_status app_name revision resolved_index
    end.

Definition set_application_target_revision
    (cluster_name app_name revision : string) (repo : option string)
    (source_index : option Z) (dry_run : bool) : M bool :=
  target <- resolve_target cluster_name app_name repo source_index ;;
  match target with
  | None => ret false
  | Some (cluster_name, app_status, resolved_index) =>
      apply_target cluster_name app_name revision repo app_status
        resolved_index dry_run
  end.

End Manager.

(** ** A host for running the model on concrete inputs *)

Module Demo.

Fixpoint common_prefix (a b : string) : nat :=
  match a, b with
  | String x a', String y b' =>
      if Ascii.eqb x y then S (common_prefix a' b') else 0
  | _, _ => 0
  end.

(** Twice the length of the common prefix over the total length: what
    [SequenceMatcher.ratio] gives when the only matching block of the two
    strings is a common prefix. *)
Definition prefix_ratio (a b : string) : Q :=
  match (String.length a + String.length b)%nat with
  | O => 1%Q
  | S n => Z.of_nat (2 * common_prefix a b)%nat # Pos.of_succ_nat n
  end.

(** The colour table after [Colors.disable()]. *)
Definition no_colors : Colors :=
  mkColors EmptyString EmptyString EmptyString EmptyString EmptyString
           EmptyString EmptyString EmptyString.

(** Login commands without quoting, documents given by a table, and
    processes that behave as [proc] says. *)
Definition host_of (documents : list (string * json))
    (proc : list event -> proc_result) : Host :=
  mkHost prefix_ratio
         (fun s => Some (PyStr.split s))
         (fun s => Dict.get s documents)
         (fun _ => "<value>")
         proc
         no_colors.

Definition world_of (cfg : list (string * string)) (lines : list string)
    : World :=
  mkWorld cfg false false [] lines [].

End Demo.

(** ** Vocabulary of the statements *)

(** The entry of [lower_map] under a lowercased name is the last key that
    lowercases to it. *)
Definition last_with_lower (lk : string) (keys : list string)
    (start : option string) : option string :=
  fold_left (fun acc k => if String.eqb lk (PyStr.lower k) then Some k else acc)
            keys start.

(** A candidate replaces the best one so far: its similarity to the query
    beats the best ratio and reaches the threshold (line 34). *)
Definition accepts (host : Host) (query : string) (threshold best_ratio : Q)
    (c : string) : Prop :=
  (best_ratio < sm_ratio host (PyStr.lower query) (PyStr.lower c))%Q
  /\ (threshold <= sm_ratio host (PyStr.lower query) (PyStr.lower c))%Q.

(** The error of line 150. *)
Definition not_found (query : string) : exn :=
  ConfigurationError ("Cluster '" +++ query +++ "' not found").


(** Counting the events of a kind in a trace. *)
Definition count (p : event -> bool) (tr : list event) : nat :=
  length (filter p tr).

Definition is_run (e : event) : bool :=
  match e with EvRun _ _ => true | _ => false end.

Definition is_input (e : event) : bool :=
  match e with EvInput _ => true | _ => false end.

Definition is_sleep (e : event) : bool :=
  match e with EvSleep _ => true | _ => false end.

(** A call of the executor with the given timeout. *)
Definition is_execute_with (timeout : Z) (e : event) : bool :=
  match e with EvExecute _ _ t => (t =? timeout)%Z | _ => false end.

(** The world after one more event. *)
Definition after (e : event) (w : World) : World :=
  set_trace (trace w ++ [e]) w.

(** The operator's answer to a prompt whose default is to decline counts as
    an acceptance (lines 46-49). *)
Definition says_yes (line : string) : bool :=
  let response := PyStr.lower (PyStr.strip line) in
  negb (PyStr.is_empty response) && PyStr.mem response ["y"; "yes"].

(** The prompt of line 196. *)
Definition production_prompt (host : Host) (cluster_name : string) : string :=
  let prompt := "Cluster '" +++ cluster_name
                +++ "' looks like production. Continue connecting?" in
  if PyStr.truthy (FAIL (colors host))
  then FAIL (colors host) +++ prompt +++ ENDC (colors host) +++ " [y/N]: "
  else prompt +++ " [y/N]: ".

Definition user_aborted : exn :=
  CommandExecutionError "User aborted connection to production cluster".

(** The message of line 214, before the redaction of line 215. *)
Definition failure_text (stderr : string) : string :=
  if PyStr.truthy (PyStr.strip stderr) then PyStr.strip stderr
  else "Unknown error".

(** A relation between the world before and the world after is kept by a
    computation. *)
Definition stable {A} (R : World -> World -> Prop) (m : M A) : Prop :=
  forall w, R w (snd (m w)).

(** The settings of the manager that no operation changes. *)
Definition same_settings (w w' : World) : Prop :=
  config w' = config w /\ verbose w' = verbose w
  /\ allow_patch w' = allow_patch w.

(** A confirmed production cluster stays confirmed. *)
Definition keeps_confirmed (name : string) (w w' : World) : Prop :=
  PyStr.mem name (confirmed_production w) = true ->
  PyStr.mem name (confirmed_production w') = true.

(** The trace only grows, by events of an allowed kind. *)
Definition extends_by (allowed : event -> bool) (w w' : World) : Prop :=
  exists delta, trace w' = trace w ++ delta
                /\ forallb allowed delta = true.

(** What the executor answers once the process has been launched. *)
Definition process_outcome (login_cmd : string) (timeout : Z)
    (res : proc_result) : outcome string :=
  match res with
  | Completed rc out err =>
      if (rc =? 0)%Z then Ret out
      else if PyStr.truthy (PyStr.strip out) then Ret (PyStr.strip out)
      else Raise (CommandExecutionError
                    (PyStr.replace (server_url_or_empty login_cmd) "<server>"
                       (failure_text err)))
  | TimedOut =>
      Raise (CommandExecutionError
               ("Command timed out after " +++ PyStr.of_Z timeout
                +++ " seconds"))
  | LaunchError _ msg => Raise (CommandExecutionError msg)
  end.


(** A print or a log record. *)
Definition is_note (e : event) : bool :=
  match e with EvPrint _ | EvLog _ => true | _ => false end.

(** The operations of the manager, and a run as a sequence of them. *)
Inductive call : Type :=
| CallExecute (cluster : string) (args : list string) (timeout : Z)
    (quiet : bool)
| CallLogin (cluster : string) (quiet : bool)
| CallListProjects (cluster : string)
| CallListApplications (cluster : string) (project : option string)
| CallGetApplicationStatus (cluster app : string)
| CallGetApplicationDiff (cluster app : string)
| CallSyncApplication (cluster app : string) (dry_run prune : bool)
| CallSetTargetRevision (cluster app revision : string)
    (repo : option string) (source_index : option Z) (dry_run : bool).

Definition perform (host : Host) (c : call) (w : World) : World :=
  match c with
  | CallExecute cluster args timeout quiet =>
      snd (execute_argocd_command host cluster args timeout quiet w)
  | CallLogin cluster quiet => snd (_handle_oidc_login host cluster quiet w)
  | CallListProjects cluster => snd (list_projects host cluster w)
  | CallListApplications cluster project =>
      snd (list_applications host cluster project w)
  | CallGetApplicationStatus cluster app =>
      snd (get_application_status host cluster app w)
  | CallGetApplicationDiff cluster app =>
      snd (get_application_diff host cluster app w)
  | CallSyncApplication cluster app dry_run prune =>
      snd (sync_application host cluster app dry_run prune w)
  | CallSetTargetRevision cluster app revision repo source_index dry_run =>
      snd (set_application_target_revision host cluster app revision repo
             source_index dry_run w)
  end.

Definition run_calls (host : Host) (calls : list call) (w : World) : World :=
  fold_left (fun w c => perform host c w) calls w.

(** The gate lets the call through: the cluster does not look like
    production, or was confirmed before, or the operator says yes now. *)
Definition gate_passes (name : string) (w : World) : Prop :=
  looks_like_production name = false
  \/ PyStr.mem name (confirmed_production w) = true
  \/ exists line rest, stdin w = line :: rest /\ says_yes line = true.

(** The poll of line 261. *)
Definition poll_cmd : list string := ["proj"; "list"; "--output"; "json"].

Definition is_delay (e : event) : bool :=
  match e with EvSleep s => (s =? poll_delay)%Z | _ => false end.

Definition no_execute (e : event) : bool :=
  match e with EvExecute _ _ _ => false | _ => true end.

Definition no_sleep (e : event) : bool :=
  match e with EvSleep _ => false | _ => true end.

(** The world after a poll that succeeded (lines 262-266), where [v] is the
    verbosity read when the attempt started. *)
Definition poll_verified (host : Host) (cluster_name : string) (quiet v : bool)
    (w : World) : World :=
  snd ((when (negb quiet && negb v)
          (print (OKGREEN (colors host) +++ "Authentication verified for '"
                  +++ cluster_name +++ "'" +++ ENDC (colors host))) ;;
        when (looks_like_production cluster_name)
          (confirm_production cluster_name)) w).

(** The world after a poll that failed for another reason (lines 276-277). *)
Definition poll_rejected (host : Host) (quiet : bool) (err : string)
    (w : World) : World :=
  if quiet then w
  else after (EvPrint (WARNING (colors host)
                       +++ "Login ran but verification failed: " +++ err
                       +++ ENDC (colors host))) w.

(** The notice of line 280. *)
Definition timeout_notice (host : Host) (cluster_name : string) : event :=
  EvPrint (WARNING (colors host) +++ "Timed out waiting for authentication for '"
           +++ cluster_name +++ "'" +++ ENDC (colors host)).

(** The world after several more events. *)
Definition after_all (es : list event) (w : World) : World :=
  fold_left (fun w e => after e w) es w.

(** What the login-recovery cycle prints before it launches the login
    command (lines 232-241) and between the login and the first poll
    (lines 244-255). *)
Definition login_notice (host : Host) (cluster_name login_cmd : string)
    (quiet v : bool) : list event :=
  if negb quiet && negb v then
    [EvPrint (WARNING (colors host) +++ "Authentication required for '"
              +++ cluster_name +++ "'." +++ ENDC (colors host));
     EvPrint ("Stored login command: " +++ OKCYAN (colors host) +++ login_cmd
              +++ ENDC (colors host))]
  else [].

Definition login_announce (host : Host) (quiet v : bool) : list event :=
  if negb quiet && negb v then
    [EvPrint (OKCYAN (colors host) +++ "Auto-running stored login command..."
              +++ ENDC (colors host))]
  else [].

Definition login_output (host : Host) (quiet v : bool) (out err : string)
    : list event :=
  (if v then
     (if PyStr.truthy out then [EvPrint out] else [])
     ++ (if PyStr.truthy err then [EvPrint err] else [])
   else [])
  ++ (if negb quiet && negb v then
        [EvPrint (OKCYAN (colors host)
                  +++ "Waiting for authentication to complete..."
                  +++ ENDC (colors host))]
      else []).

Definition login_failed_notice (host : Host) (msg : string) : event :=
  EvPrint (FAIL (colors host) +++ "Failed to run login command: " +++ msg
           +++ ENDC (colors host)).

Definition no_login_notice (host : Host) (cluster_name : string) : event :=
  EvPrint (FAIL (colors host) +++ "No login command available for "
           +++ cluster_name +++ ENDC (colors host)).

(** The loop that the five guarded operations share (lines 286-298,
    312-323, 330-341, 348-359 and 377-391): [finish] is what the operation
    does with the output, [report] what it prints on failure, [failure] what
    it then returns, [exhausted] what it returns when the loop runs out. *)
Fixpoint guarded {A} (host : Host) (cluster_name : string) (cmd : list string)
    (timeout : Z) (quiet : bool) (finish : string -> M A)
    (report : string -> M unit) (failure exhausted : A)
    (attempts : list nat) : M A :=
  match attempts with
  | [] => ret exhausted
  | attempt :: rest =>
      r <- try_except
             (out <- execute_argocd_command host cluster_name cmd timeout
                       quiet ;;
              v <- finish out ;;
              ret (Some v))
             (fun e =>
                match e with
                | CommandExecutionError err =>
                    Some (
                      again <- (if is_auth_error (PyStr.lower err)
                                   && (attempt =? 0)
                                then _handle_oidc_login host cluster_name quiet
                                else ret false) ;;
                      if again then ret None
                      else report err ;; ret (Some failure))
                | _ => None
                end) ;;
      match r with
      | Some v => ret v
      | None =>
          guarded host cluster_name cmd timeout quiet finish report failure
            exhausted rest
      end
  end.

(** The print of a failure, and nothing when the operation is quiet. *)
Definition failed_notice (host : Host) (label : string) (quiet : bool)
    (msg : string) : list event :=
  if quiet then []
  else [EvPrint (FAIL (colors host) +++ label +++ msg +++ ENDC (colors host))].

(** The contract of a guarded operation [op] whose executor call has the
    arguments [cmd] and the timeout [timeout]: the call is issued once or
    twice; twice exactly when the first attempt fails with an authentication
    message and the login-recovery cycle answers true; a first failure of
    another kind, and a failure of the retried call, are reported and
    returned as [failure] with nothing else done. *)
Definition retries_once {A} (host : Host) (cluster_name : string)
    (cmd : list string) (timeout : Z) (quiet : bool) (op : M A)
    (failure : A) (notice : string -> list event) : Prop :=
  forall w,
    let calls tr := count (is_execute_with timeout) tr in
    let first := execute_argocd_command host cluster_name cmd timeout quiet w in
    let login := _handle_oidc_login host cluster_name quiet (snd first) in
    let second := execute_argocd_command host cluster_name cmd timeout quiet
                    (snd login) in
    let r := op w in
    calls (trace w) + 1 <= calls (trace (snd r))
    /\ calls (trace (snd r)) <= calls (trace w) + 2
    /\ (calls (trace (snd r)) = calls (trace w) + 2 <->
        exists msg,
          fst first = Raise (CommandExecutionError msg)
          /\ is_auth_error (PyStr.lower msg) = true
          /\ fst login = Ret true)
    /\ (forall msg,
          fst first = Raise (CommandExecutionError msg) ->
          is_auth_error (PyStr.lower msg) = false ->
          r = (Ret failure, after_all (notice msg) (snd first)))
    /\ (forall msg msg',
          fst first = Raise (CommandExecutionError msg) ->
          is_auth_error (PyStr.lower msg) = true ->
          fst login = Ret true ->
          fst second = Raise (CommandExecutionError msg') ->
          r = (Ret failure, after_all (notice msg') (snd second))).

(** The report of a failure by a guarded operation. *)
Definition report_failed (host : Host) (label : string) (quiet : bool)
    (err : string) : M unit :=
  when (negb quiet)
    (print (FAIL (colors host) +++ label +++ err +++ ENDC (colors host))).

(** What [sync_application] does with the output (lines 380-383). *)
Definition sync_finish (host : Host) (app : string) (out : string)
    : M (option bool) :=
  print (OKGREEN (colors host) +++ "Synced " +++ app +++ ENDC (colors host)) ;;
  v <- gets verbose ;;
  when (v && PyStr.truthy out) (print out) ;;
  ret (Some true).

(** The scenario of the specification: the first call fails as
    unauthenticated, the login command is run, the third poll succeeds, and
    the call is retried once and its result returned. *)
Definition recovering_host : Host :=
  Demo.host_of [("[]", JList [])]
    (fun tr => if count is_run tr <=? 4
               then Completed 1 "" "rpc error: code = Unauthenticated"
               else Completed 0 "[]" "").


(** A call of the executor for [argocd app set ...]. *)
Definition is_set_call (e : event) : bool :=
  match e with
  | EvExecute _ ("app" :: "set" :: _) _ => true
  | _ => false
  end.

(** The print of line 473. *)
Definition dry_run_notice (app_name revision : string) (repo : option string)
    (resolved_index : option Z) : event :=
  EvPrint ("DRY RUN: argocd "
           +++ PyStr.join " " (set_cmd app_name revision repo resolved_index)
           +++ " --server <server-from-config>").

(** The two prints of lines 484-486. *)
Definition fallback_disabled_notice (host : Host) (err : string)
    : list event :=
  [EvPrint (FAIL (colors host) +++ "argocd app set failed: " +++ err +++ "."
            +++ ENDC (colors host));
   EvPrint (WARNING (colors host)
            +++ "kubectl patch fallback is disabled. To enable, run with --allow-patch."
            +++ ENDC (colors host))].

(** A host on which the application document can be read, [argocd app set]
    is refused, and every [kubectl] invocation fails. *)
Definition refusing_host : Host :=
  Demo.host_of
    [("doc",
      JDict [("metadata", JDict [("namespace", JStr "argocd")]);
             ("spec", JDict [("source",
                              JDict [("repoURL", JStr "https://git.example.com/web");
                                     ("targetRevision", JStr "main")])])])]
    (fun tr =>
       match last tr (EvSleep 0) with
       | EvRun ("kubectl" :: _) _ =>
           Completed 1 "" "error: the server doesn't have a resource type"
       | EvRun ("argocd" :: "app" :: "set" :: _) _ =>
           Completed 1 "" "permission denied"
       | _ => Completed 0 "doc" ""
       end).

(** What the retry of the patch would run if only the resource name
    changed. *)
Definition expected_retry (kube_ns app_name revision : string)
    (resolved_index : option Z) : option (list string) :=
  setitem 4 "applications" (patch_cmd kube_ns app_name revision resolved_index).

(** ** Further operations of the manager *)

Section MoreOperations.

Variable host : Host.

Let C : Colors := colors host.

(** *** [get_project_status] (lines 300-306) *)


(** *** [sync_multiple_applications] (lines 393-405) *)

(** Truthiness of what [sync_application] returns. *)
Definition synced (r : option bool) : bool :=
  match r with Some b => b | None => false end.

(** The [for i, app in enumerate(app_names, 1)] loop, from index [i] on. *)
Fixpoint sync_multiple_loop (cluster_name : string) (total : Z)
    (dry_run prune : bool) (app_names : list string) (i success : Z) : M Z :=
  match app_names with
  | [] => ret success
  | app :: rest =>
      print ("[" +++ PyStr.of_Z i +++ "/" +++ PyStr.of_Z total
             +++ "] Processing " +++ app) ;;
      r <- sync_application host cluster_name app dry_run prune ;;
      let success := if synced r then (success + 1)%Z else success in
      sleep 1%Z ;;
      sync_multiple_loop cluster_name total dry_run prune rest (i + 1)%Z success
  end.

Definition sync_multiple_applications (cluster_name : string)
    (app_names : list string) (dry_run prune : bool) : M (Z * Z) :=
  let total := Z.of_nat (length app_names) in
  when dry_run (print (OKCYAN C +++ "DRY RUN MODE" +++ ENDC C)) ;;
  cancelled <- (if negb dry_run
                then
                  go <- confirm_action host
                          ("Sync " +++ PyStr.of_Z total +++ " applications?")
                          false None ;;
                  ret (negb go)
                else ret false) ;;
  if cancelled then
    print "Cancelled" ;;
    ret (0%Z, total)
  else
    success <- sync_multiple_loop cluster_name total dry_run prune app_names
                 1%Z 0%Z ;;
    ret (success, total).

(** The branch of [run] for [app sync-multi] (cli.py, lines 461-466). *)
Definition run_sync_multi (cluster : string) (apps : list string)
    (dry_run prune : bool) : M unit :=
  r <- sync_multiple_applications cluster apps dry_run prune ;;
  let '(s, t) := r in
  if (s =? t)%Z then print ("All " +++ PyStr.of_Z t +++ " synced")
  else print ("Synced " +++ PyStr.of_Z s +++ "/" +++ PyStr.of_Z t).

End MoreOperations.

(** ** Vocabulary of the further statements *)

(** The error of [shlex.split] on a login command with an open quotation
    (line 238). *)
Definition unbalanced_quotes : exn :=
  OtherError "ValueError" "No closing quotation".


(** A call of the executor for [argocd app sync ...]. *)
Definition is_sync_call (e : event) : bool :=
  match e with
  | EvExecute _ ("app" :: "sync" :: _) _ => true
  | _ => false
  end.

(** The operation [op], whose executor call has the arguments [cmd], gives
    up after a single call that fails with [msg]: the login cycle finds no
    login command under the name as it was given, and the failure is
    reported. *)
Definition gives_up {A} (host : Host) (cluster : string) (cmd : list string)
    (timeout : Z) (quiet : bool) (op : M A) (failure : A)
    (notice : string -> list event) (msg : string) (w : World) : Prop :=
  let first := execute_argocd_command host cluster cmd timeout quiet w in
  fst first = Raise (CommandExecutionError msg) ->
  op w = (Ret failure,
          after_all (notice msg)
            (after (no_login_notice host cluster) (snd first))).

(** The error of [int] on a digit character that is not an ASCII digit
    (line 458). *)
Definition invalid_literal : exn :=
  OtherError "ValueError" "invalid literal for int()".

(** The source [s] names the repository [repo]: its [repoURL], or failing
    that its [helm.repo], is a non-empty string equal to [repo] up to
    trailing slashes (lines 433-434). *)
Definition names_repo (repo : string) (s : json) : Prop :=
  exists url,
    (forall w, repo_url_of s w = (Ret (JStr url), w))
    /\ PyStr.truthy url = true
    /\ PyStr.rstrip_slash url = PyStr.rstrip_slash repo.

(** A host on which every document read is an application with two
    sources and every process succeeds. *)
Definition two_sources : json :=
  JDict [("metadata", JDict [("namespace", JStr "argocd")]);
         ("spec",
          JDict [("sources",
                  JList [JDict [("repoURL", JStr "https://git.example.com/charts");
                                ("targetRevision", JStr "1.0.0")];
                         JDict [("repoURL", JStr "https://git.example.com/web");
                                ("targetRevision", JStr "main")]])])].

Definition two_sources_host : Host :=
  Demo.host_of [("doc", two_sources)] (fun _ => Completed 0 "doc" "").

(** ** The configuration file and the connections *)

(** The files that the configuration module touches.  [files] holds the
    text of the paths that exist; [read_error path] is the message of the
    exception that opening or reading [path] raises, when it raises one,
    [write_error path] that of opening it for writing, and
    [missing_error path] that of opening for reading a path that does not
    exist. *)
Record Disk : Type := mkDisk {
  files : list (string * string);
  read_error : string -> option string;
  write_error : string -> option string;
  missing_error : string -> string
}.

(** The manager together with the files. *)
Record Store : Type := mkStore {
  world : World;
  disk : Disk
}.


Definition set_files (f : list (string * string)) (d : Disk) : Disk :=
  mkDisk f (read_error d) (write_error d) (missing_error d).

(** The monad of the computations that also read and write files. *)
Definition MS (A : Type) : Type := Store -> outcome A * Store.

Definition retS {A} (a : A) : MS A := fun s => (Ret a, s).

Definition raiseS {A} (e : exn) : MS A := fun s => (Raise e, s).

Definition bindS {A B} (m : MS A) (k : A -> MS B) : MS B :=
  fun s =>
    match m s with
    | (Ret a, s') => k a s'
    | (Raise e, s') => (Raise e, s')
    end.

Definition try_exceptS {A} (m : MS A) (h : exn -> option (MS A)) : MS A :=
  fun s =>
    match m s with
    | (Ret a, s') => (Ret a, s')
    | (Raise e, s') =>
        match h e with
        | Some k => k s'
        | None => (Raise e, s')
        end
    end.




Declare Scope store_scope.
Delimit Scope store_scope with store.
Notation "x <- c1 ;; c2" := (bindS c1 (fun x => c2))
  (at level 61, c1 at next level, right associativity) : store_scope.
Notation "c1 ;; c2" := (bindS c1 (fun _ => c2))
  (at level 61, right associativity) : store_scope.

(** [os.path.exists(path)] *)
Definition path_exists (path : string) : MS bool :=
  fun s => (Ret (Dict.has path (files (disk s))), s).

(** [with open(path, 'r') as f: f.read()] *)
Definition read_text (path : string) : MS string :=
  fun s =>
    match read_error (disk s) path with
    | Some msg => (Raise (OtherError "OSError" msg), s)
    | None =>
        match Dict.get path (files (disk s)) with
        | Some text => (Ret text, s)
        | None =>
            (Raise (OtherError "FileNotFoundError"
                      (missing_error (disk s) path)), s)
        end
    end.

(** [with open(path, 'w') as f: f.write(text)] *)
Definition write_text (path text : string) : MS unit :=
  fun s =>
    match write_error (disk s) path with
    | Some msg => (Raise (OtherError "OSError" msg), s)
    | None =>
        (Ret tt,
         mkStore (world s)
                 (set_files (Dict.set path text (files (disk s))) (disk s)))
    end.

Definition newline : string := String (ascii_of_nat 10) EmptyString.

(** [json.dumps(config, indent=2)] for a dict of strings. *)
Definition dump_item (item : string * string) : string :=
  "  " +++ PyVal.dumps_str (fst item) +++ ": " +++ PyVal.dumps_str (snd item).

Definition dump_config (config : list (string * string)) : string :=
  match config with
  | [] => "{}"
  | _ =>
      "{" +++ newline
      +++ PyStr.join ("," +++ newline) (map dump_item config)
      +++ newline +++ "}"
  end.

(** A dict of strings as a decoded document. *)
Definition config_document (config : list (string * string)) : json :=
  JDict (map (fun item => (fst item, JStr (snd item))) config).


(** *** [config.py] *)

Definition DEFAULT_CONFIG : list (string * string) :=
  [("paywell-prod",
    "argocd login argocd.k8s.pay-well.sk --sso --skip-test-tls --grpc-web --insecure");
   ("paywell-acc",
    "argocd login argocd.k8s-acc.pay-well.sk --sso --skip-test-tls --grpc-web --insecure")].

Section ConfigFile.

Local Open Scope store_scope.

Variable host : Host.

(** [str(e)] of the [JSONDecodeError] that [json.load] raises on a text. *)
Variable decode_error : string -> string.

(** [os.path.expanduser("~/.argocd_urls.json")] *)
Variable DEFAULT_CONFIG_PATH : string.

Let C : Colors := colors host.

(** [with open(path, 'r') as f: json.load(f)] *)
Definition json_load (path : string) : MS json :=
  text <- read_text path ;;
  match json_loads host text with
  | Some v => retS v
  | None => raiseS (OtherError "JSONDecodeError" (decode_error text))
  end.

(** [load_config] (config.py, lines 17-35).  What it returns is whatever
    document the file holds, provided it is truthy. *)
Definition load_config (path : string) : MS json :=
  try_exceptS
    (present <- path_exists path ;;
     if negb present then
       write_text path (dump_config DEFAULT_CONFIG) ;;
       retS (config_document DEFAULT_CONFIG)
     else
       cfg <- json_load path ;;
       if negb (PyVal.truthy cfg)
       then raiseS (ConfigurationError "Configuration file is empty")
       else retS cfg)
    (fun e =>
       match e with
       | OtherError name msg =>
           if String.eqb name "JSONDecodeError"
           then Some (raiseS (ConfigurationError
                                ("Invalid JSON in config file: " +++ msg)))
           else Some (raiseS (ConfigurationError
                                ("Failed to load config: " +++ exn_str e)))
       | _ => Some (raiseS (ConfigurationError
                              ("Failed to load config: " +++ exn_str e)))
       end).

(** [save_config] (config.py, lines 37-42). *)
Definition save_config (config : list (string * string)) (path : string)
    : MS unit :=
  try_exceptS
    (write_text path (dump_config config))
    (fun e =>
       Some (raiseS (ConfigurationError
                       ("Failed to save config: " +++ exn_str e)))).

(** *** [add_connection] (manager.py, lines 101-110) *)


(** *** [remove_connection] (manager.py, lines 112-129) *)



End ConfigFile.



(** ** The clusters a command line selects ([argocd_manager/cli.py]) *)

Section ClusterSelection.

Variable host : Host.

(** [fnmatch.fnmatch(name, pattern)] *)
Variable fnmatch : string -> string -> bool.

Let C : Colors := colors host.

(** The loop over the patterns in [run] (cli.py, lines 389-396, and the
    same loop at lines 217-224). *)
Fixpoint expand_patterns (available raw_patterns clusters : list string)
    : M (list string) :=
  match raw_patterns with
  | [] => ret clusters
  | p :: rest =>
      let pl := PyStr.lower p in
      let matches :=
        filter (fun c => fnmatch (PyStr.lower c) pl) available in
      match matches with
      | [] =>
          print (WARNING C +++ "Pattern '" +++ p
                 +++ "' did not match any configured clusters" +++ ENDC C) ;;
          expand_patterns available rest clusters
      | _ => expand_patterns available rest (clusters ++ matches)
      end
  end.

(** [[c for c in clusters if not (c in seen or seen.add(c))]] (lines
    399-400). *)
Fixpoint dedup (seen clusters : list string) : list string :=
  match clusters with
  | [] => []
  | c :: rest =>
      if PyStr.mem c seen then dedup seen rest
      else c :: dedup (c :: seen) rest
  end.

(** Lines 387-404 of [run]: the clusters that [app set-target] works on,
    [None] standing for [return]. *)
Definition select_clusters (raw_patterns : list string)
    : M (option (list string)) :=
  cfg <- gets config ;;
  clusters <- expand_patterns (Dict.keys cfg) raw_patterns [] ;;
  let clusters := dedup [] clusters in
  match clusters with
  | [] =>
      print (FAIL C +++ "No clusters to operate on." +++ ENDC C) ;;
      ret None
  | _ => ret (Some clusters)
  end.

End ClusterSelection.

(** The configured name [c] matches one of the patterns, letter case
    apart. *)
Definition selected_by (fnmatch : string -> string -> bool)
    (raw_patterns : list string) (c : string) : Prop :=
  exists p,
    In p raw_patterns /\ fnmatch (PyStr.lower c) (PyStr.lower p) = true.

(** A launch without a timeout: the login command of the recovery cycle
    and the patches of the fallback are launched so, the executor's
    processes are not. *)
Definition is_untimed_run (e : event) : bool :=
  match e with EvRun _ None => true | _ => false end.

(** The similarity that [fuzzy_match] computes (line 33). *)
Definition similarity (host : Host) (query c : string) : Q :=
  sm_ratio host (PyStr.lower query) (PyStr.lower c).

(** *** Vocabulary for what a read leaves in the trace *)

(** An event that contacts nothing: a print, a log record, a prompt or a
    wait. *)
Definition no_launch (e : event) : bool :=
  match e with
  | EvPrint _ | EvLog _ | EvInput _ | EvSleep _ => true
  | _ => false
  end.

(** What reading the application [app_name] may add to the trace, on a
    cluster whose stored login command is [login_cmd]: events that contact
    nothing; the executor calls for the application document (timeout 30)
    and for the poll of the login-recovery cycle (timeout 5), with the
    processes they launch; and the launch, without a timeout, of the stored
    login command itself. *)
Definition read_event (host : Host) (login_cmd app_name : string)
    (e : event) : Prop :=
  match e with
  | EvExecute _ args t =>
      (args = ["app"; "get"; app_name; "--output"; "json"] /\ t = 30%Z)
      \/ (args = poll_cmd /\ t = 5%Z)
  | EvRun argv (Some t) =>
      (argv = translate login_cmd ["app"; "get"; app_name; "--output"; "json"]
       /\ t = 30%Z)
      \/ (argv = translate login_cmd poll_cmd /\ t = 5%Z)
  | EvRun argv None => shlex_split host login_cmd = Some argv
  | _ => True
  end.

(** The configuration is kept and the trace grows by such events only. *)
Definition reads_only (host : Host) (login_cmd app_name : string)
    (w w' : World) : Prop :=
  config w' = config w
  /\ exists delta,
       trace w' = trace w ++ delta
       /\ Forall (read_event host login_cmd app_name) delta.

(** Every value that a computation returns satisfies [Q]. *)
Definition yields {A} (Q : A -> Prop) (m : M A) : Prop :=
  forall w a, fst (m w) = Ret a -> Q a.

(** A process that the executor launches for [argocd app set]. *)
Definition is_set_launch (e : event) : bool :=
  match e with
  | EvRun ("argocd" :: "app" :: "set" :: _) (Some _) => true
  | _ => false
  end.
(** * Properties *)

(** ** Strings and tokens *)

Lemma mem_In (x : string) (l : list string) :
  PyStr.mem x l = true <-> In x l.
Proof.
  unfold PyStr.mem. rewrite existsb_exists. split.
  - intros [y [Hy E]]. apply String.eqb_eq in E. now subst.
  - intros H. exists x. split; [assumption | apply String.eqb_refl].
Qed.

Lemma mem_false_not_In (x : string) (l : list string) :
  PyStr.mem x l = false <-> ~ In x l.
Proof.
  rewrite <- mem_In. destruct (PyStr.mem x l); split; congruence.
Qed.

Lemma append_char_truthy (s : string) (c : ascii) :
  PyStr.truthy (s +++ String c EmptyString) = true.
Proof. destruct s; reflexivity. Qed.

Lemma split_aux_truthy (s cur t : string) :
  In t (PyStr.split_aux cur s) -> PyStr.truthy t = true.
Proof.
  revert cur. induction s as [|c s IH]; intros cur H; simpl in H.
  - destruct cur; simpl in H; [contradiction|].
    destruct H as [<-|[]]. reflexivity.
  - destruct (PyStr.isspace c).
    + destruct cur; simpl in H.
      * eapply IH; eassumption.
      * destruct H as [<-|H]; [reflexivity | eapply IH; eassumption].
    + apply IH in H. assumption.
Qed.

(** The tokens of [str.split()] are never empty. *)
Lemma split_truthy (s t : string) :
  In t (PyStr.split s) -> PyStr.truthy t = true.
Proof. apply split_aux_truthy. Qed.

Lemma append_assoc (a b c : string) : (a +++ b) +++ c = a +++ (b +++ c).
Proof. induction a as [|x a IH]; simpl; [reflexivity | now rewrite IH]. Qed.

Lemma length_append (a b : string) :
  String.length (a +++ b) = String.length a + String.length b.
Proof. induction a as [|x a IH]; simpl; [reflexivity | now rewrite IH]. Qed.

Lemma interleave_length (new s : string) :
  String.length (PyStr.interleave new s)
  = String.length s + (String.length s + 1) * String.length new.
Proof.
  induction s as [|c s IH]; simpl.
  - lia.
  - rewrite length_append. simpl. rewrite IH. lia.
Qed.

Lemma replace_empty (new s : string) :
  PyStr.replace EmptyString new s = PyStr.interleave new s.
Proof. reflexivity. Qed.

Lemma rstrip_by_last (p : ascii -> bool) (s : string) (c : ascii) :
  p c = false ->
  PyStr.rstrip_by p (s +++ String c EmptyString) = s +++ String c EmptyString.
Proof.
  intros Hc. induction s as [|x s IH]; simpl.
  - rewrite Hc. reflexivity.
  - rewrite IH.
    pose proof (append_char_truthy s c) as Ht. unfold PyStr.truthy in Ht.
    apply negb_true_iff in Ht. rewrite Ht, andb_false_r. reflexivity.
Qed.

Lemma interleave_ends (new s : string) (c : ascii) :
  exists body,
    PyStr.interleave (new +++ String c EmptyString) s
    = body +++ String c EmptyString.
Proof.
  induction s as [|x s [body IH]]; simpl.
  - exists new. reflexivity.
  - exists ((new +++ String c EmptyString) +++ String x body).
    rewrite IH. rewrite !append_assoc. reflexivity.
Qed.

(** The placeholder-riddled text starts and ends with a bracket, so
    stripping leaves it alone. *)
Lemma strip_interleave_server (s : string) :
  PyStr.strip (PyStr.interleave "<server>" s) = PyStr.interleave "<server>" s.
Proof.
  unfold PyStr.strip.
  assert (Hl : PyStr.lstrip_by PyStr.isspace (PyStr.interleave "<server>" s)
               = PyStr.interleave "<server>" s)
    by (destruct s; reflexivity).
  rewrite Hl.
  destruct (interleave_ends "<server" s ">"%char) as [body E].
  change ("<server" +++ String ">"%char EmptyString) with "<server>" in E.
  rewrite E. apply rstrip_by_last. reflexivity.
Qed.

(** ** CommandTranslator *)



Lemma allowed_flags_start_with_dashes (t : string) :
  In t ALLOWED_GLOBAL_FLAGS -> PyStr.startswith t "--" = true.
Proof.
  unfold ALLOWED_GLOBAL_FLAGS. simpl.
  intros [<-|[<-|[<-|[<-|[<-|[]]]]]]; reflexivity.
Qed.






Lemma parse_login_no_login (parts : list string) :
  ~ In "login" parts -> parse_login parts = (None, []).
Proof.
  induction parts as [|p parts IH]; intros Hnot; simpl.
  - reflexivity.
  - destruct (String.eqb p "login") eqn:E.
    + apply String.eqb_eq in E. subst. exfalso. apply Hnot. now left.
    + apply IH. intros H. apply Hnot. now right.
Qed.

(** What [parse_login] returns comes from the tokens: the URL is a token
    that does not look like a flag, the flags are a scan of a suffix. *)
Lemma parse_login_sound (parts : list string) :
  (forall url, fst (parse_login parts) = Some url ->
     In url parts /\ PyStr.startswith url "--" = false)
  /\ exists suffix, snd (parse_login parts) = forward_flags suffix
                    /\ forall t, In t suffix -> In t parts.
Proof.
  induction parts as [|p parts [IHu [suffix [IHs IHi]]]]; simpl.
  - split; [discriminate|]. exists []. split; [reflexivity | contradiction].
  - destruct (String.eqb p "login").
    + unfold parse_after_login. destruct parts as [|url rest].
      * split; [discriminate|]. exists []. split; [reflexivity|contradiction].
      * destruct (PyStr.startswith url "--") eqn:Hu; simpl.
        -- split; [discriminate|]. exists (url :: rest).
           split; [reflexivity | intros t Ht; now right].
        -- split.
           ++ intros u E. inversion E; subst. split; [right; now left | assumption].
           ++ exists rest. split; [reflexivity | intros t Ht; right; now right].
    + split.
      * intros url E. destruct (IHu url E). split; [now right | assumption].
      * exists suffix. split; [assumption | intros t Ht; right; auto].
Qed.

Lemma translate_shape (login_cmd : string) (argocd_args : list string) :
  translate login_cmd argocd_args
    = ["argocd"] ++ argocd_args
      ++ match fst (parse_login (PyStr.split login_cmd)) with
         | Some url => ["--server"; url]
         | None => []
         end
      ++ snd (parse_login (PyStr.split login_cmd)).
Proof.
  unfold translate.
  pose proof (parse_login_sound (PyStr.split login_cmd)) as [Hu _].
  destruct (parse_login (PyStr.split login_cmd)) as [[url|] flags]; simpl in *.
  - destruct (Hu url eq_refl) as [Hin _].
    rewrite (split_truthy _ _ Hin).
    change (("argocd" :: argocd_args ++ ["--server"; url]) ++ flags)
      with ("argocd" :: ((argocd_args ++ ["--server"; url]) ++ flags)).
    rewrite <- app_assoc. reflexivity.
  - reflexivity.
Qed.



(** The scenario of the specification: the single-sign-on marker is
    dropped, the transport flag is kept. *)
Example translate_drops_sso :
  translate "login svc.example.com --sso --grpc-web" ["app"; "list"]
  = ["argocd"; "app"; "list"; "--server"; "svc.example.com"; "--grpc-web"].
Proof. reflexivity. Qed.


(** A login command without the [login] token yields neither URL nor flags. *)
Lemma translate_without_login (login_cmd : string) (argocd_args : list string) :
  ~ In "login" (PyStr.split login_cmd) ->
  parse_login (PyStr.split login_cmd) = (None, [])
  /\ translate login_cmd argocd_args = "argocd" :: argocd_args.
Proof.
  intros Hnot. pose proof (parse_login_no_login _ Hnot) as E.
  split; [assumption|].
  rewrite translate_shape, E. simpl. rewrite app_nil_r. reflexivity.
Qed.

(** ** NameResolver *)

Lemma dict_get_set {V} (k k' : string) (v : V) (d : list (string * V)) :
  Dict.get k (Dict.set k' v d)
    = if String.eqb k k' then Some v else Dict.get k d.
Proof.
  induction d as [|[k0 v0] d IH]; simpl.
  - reflexivity.
  - destruct (String.eqb_spec k' k0); simpl.
    + subst k0. destruct (String.eqb_spec k k'); reflexivity.
    + destruct (String.eqb_spec k k0).
      * subst k0. destruct (String.eqb_spec k k'); congruence.
      * apply IH.
Qed.

Lemma lower_map_fold (lk : string) (keys : list string)
    (m : list (string * string)) :
  Dict.get lk (fold_left (fun m k => Dict.set (PyStr.lower k) k m) keys m)
    = last_with_lower lk keys (Dict.get lk m).
Proof.
  revert m. induction keys as [|k keys IH]; intros m; simpl.
  - reflexivity.
  - rewrite IH, dict_get_set. reflexivity.
Qed.


Lemma last_with_lower_sound (lk : string) (keys : list string) :
  forall start found,
    last_with_lower lk keys start = Some found ->
    start = Some found \/ (In found keys /\ PyStr.lower found = lk).
Proof.
  induction keys as [|k keys IH]; intros start found H; simpl in H.
  - now left.
  - apply IH in H. destruct H as [H|[H1 H2]].
    + destruct (String.eqb lk (PyStr.lower k)) eqn:E.
      * inversion H; subst. apply String.eqb_eq in E.
        right. split; [now left | auto].
      * now left.
    + right. split; [now right | assumption].
Qed.


Section NameResolver.

Variable host : Host.
Variable query : string.

Let similarity (c : string) : Q :=
  sm_ratio host (PyStr.lower query) (PyStr.lower c).

Lemma accepts_bool (threshold best_ratio : Q) (c : string) :
  Qlt_bool best_ratio (similarity c) && Qle_bool threshold (similarity c) = true
  <-> accepts host query threshold best_ratio c.
Proof.
  unfold accepts, Qlt_bool, similarity.
  rewrite andb_true_iff, negb_true_iff, Qle_bool_iff.
  split; intros [H1 H2]; split; try assumption.
  - apply Qnot_le_lt. intros H. apply Qle_bool_iff in H. congruence.
  - destruct (Qle_bool _ best_ratio) eqn:E; [|reflexivity].
    apply Qle_bool_iff in E. exfalso. eapply Qlt_not_le; eassumption.
Qed.

Lemma fuzzy_loop_cons (threshold : Q) (c : string) (rest : list string)
    (best : option string) (best_ratio : Q) :
  fuzzy_loop host query threshold (c :: rest) best best_ratio
    = if Qlt_bool best_ratio (similarity c)
         && Qle_bool threshold (similarity c)
      then fuzzy_loop host query threshold rest (Some c) (similarity c)
      else fuzzy_loop host query threshold rest best best_ratio.
Proof. reflexivity. Qed.

(** Nothing is accepted: the loop returns what it started with. *)
Lemma fuzzy_loop_none_accepted (threshold : Q) (choices : list string) :
  forall best best_ratio,
    (forall c, In c choices -> ~ accepts host query threshold best_ratio c) ->
    fuzzy_loop host query threshold choices best best_ratio = best.
Proof.
  induction choices as [|c rest IH]; intros best br Hno.
  - reflexivity.
  - rewrite fuzzy_loop_cons.
    destruct (Qlt_bool br (similarity c) && Qle_bool threshold (similarity c))
      eqn:E.
    + apply accepts_bool in E. exfalso. apply (Hno c); [now left | assumption].
    + apply IH. intros c' Hc'. apply Hno. now right.
Qed.

(** The loop returns the first candidate of maximal similarity among those
    that reach the threshold and beat the starting ratio. *)
Lemma fuzzy_loop_sound (threshold : Q) (choices : list string) :
  forall best best_ratio found,
    fuzzy_loop host query threshold choices best best_ratio = Some found ->
    (best = Some found
     /\ forall c, In c choices -> ~ accepts host query threshold best_ratio c)
    \/ (exists before after,
          choices = before ++ found :: after
          /\ accepts host query threshold best_ratio found
          /\ (forall c, In c before -> (similarity c < similarity found)%Q)
          /\ (forall c, In c after -> (similarity c <= similarity found)%Q)).
Proof.
  induction choices as [|c rest IH]; intros best br found H.
  - left. split; [assumption | contradiction].
  - rewrite fuzzy_loop_cons in H.
    destruct (Qlt_bool br (similarity c) && Qle_bool threshold (similarity c))
      eqn:E.
    + apply accepts_bool in E. destruct E as [E1 E2].
      apply IH in H. right.
      destruct H as [[Hb Hno]|[before [after [Hs [[A1 A2] [Hbef Haft]]]]]].
      * inversion Hb; subst found. exists [], rest.
        split; [reflexivity|]. split; [split; assumption|].
        split; [contradiction|].
        intros c' Hc'. specialize (Hno c' Hc').
        destruct (Qlt_le_dec (similarity c) (similarity c')) as [Hlt|Hle];
          [|assumption].
        exfalso. apply Hno. split; [assumption|].
        eapply Qle_trans; [exact E2 | apply Qlt_le_weak; assumption].
      * exists (c :: before), after. subst rest.
        split; [reflexivity|].
        split; [split; [eapply Qlt_trans; eassumption | assumption]|].
        split; [|assumption].
        intros c' [<-|Hc']; [assumption | auto].
    + apply IH in H.
      destruct H as [[Hb Hno]|[before [after [Hs [[A1 A2] [Hbef Haft]]]]]].
      * left. split; [assumption|].
        intros c' [Ec|Hc']; [subst c'|auto].
        intros Hacc. apply accepts_bool in Hacc. congruence.
      * right. exists (c :: before), after. subst rest.
        split; [reflexivity|]. split; [split; assumption|].
        split; [|assumption].
        intros c' [Ec|Hc']; [subst c'|auto].
        rename c into c'.
        destruct (Qlt_le_dec br (similarity c')) as [Hlt|Hle].
        -- destruct (Qlt_le_dec (similarity c') threshold) as [Hlt'|Hle'].
           ++ eapply Qlt_le_trans; eassumption.
           ++ exfalso.
              assert (Hacc : accepts host query threshold br c') by (split; assumption).
              apply accepts_bool in Hacc. congruence.
        -- eapply Qle_lt_trans; eassumption.
Qed.



End NameResolver.

(** [validate_cluster] step by step; its only effect is a warning. *)
Lemma validate_cluster_eq (host : Host) (query : string) (w : World) :
  validate_cluster host query w =
    if PyStr.mem query (Dict.keys (config w)) then (Ret query, w)
    else
      match last_with_lower (PyStr.lower query) (Dict.keys (config w)) None with
      | Some matched =>
          (Ret matched,
           set_trace (trace w ++
                      [EvPrint (WARNING (colors host) +++ "Using '" +++ matched
                                +++ "' (case-insensitive) instead of '"
                                +++ query +++ "'" +++ ENDC (colors host))]) w)
      | None =>
          match fuzzy_match host query (Dict.keys (config w))
                  default_threshold with
          | Some found =>
              if PyStr.truthy found then
                (Ret found,
                 set_trace (trace w ++
                            [EvPrint (WARNING (colors host) +++ "Using '"
                                      +++ found +++ "' instead of '" +++ query
                                      +++ "'" +++ ENDC (colors host))]) w)
              else (Raise (not_found query), w)
          | None => (Raise (not_found query), w)
          end
      end.
Proof.
  unfold validate_cluster, bind, gets, Dict.has.
  destruct (PyStr.mem query (Dict.keys (config w))); [reflexivity|].
  unfold lower_map. rewrite lower_map_fold. cbn [Dict.get].
  destruct (last_with_lower _ _ None); [reflexivity|].
  destruct (fuzzy_match host query _ default_threshold) as [found|];
    [|reflexivity].
  destruct (PyStr.truthy found); reflexivity.
Qed.




(** ** Executor *)

(** The string operations stay folded while the monadic code is unfolded. *)
Arguments PyStr.mem : simpl never.
Arguments PyStr.lower : simpl never.
Arguments PyStr.strip : simpl never.
Arguments PyStr.truthy : simpl never.
Arguments PyStr.is_empty : simpl never.
Arguments PyStr.contains : simpl never.
Arguments PyStr.replace : simpl never.
Arguments PyStr.split : simpl never.
Arguments PyStr.join : simpl never.
Arguments PyStr.of_Z : simpl never.
Arguments PyStr.startswith : simpl never.
Arguments String.append : simpl never.
Arguments translate : simpl never.
Arguments looks_like_production : simpl never.

Lemma count_app (p : event -> bool) (l1 l2 : list event) :
  count p (l1 ++ l2) = count p l1 + count p l2.
Proof. unfold count. rewrite filter_app, length_app. reflexivity. Qed.

Lemma count_snoc (p : event -> bool) (l : list event) (e : event) :
  count p (l ++ [e]) = count p l + (if p e then 1 else 0).
Proof. rewrite count_app. unfold count. simpl. destruct (p e); reflexivity. Qed.

Lemma count_none (p : event -> bool) (l : list event) :
  forallb (fun e => negb (p e)) l = true -> count p l = 0.
Proof.
  unfold count. induction l as [|e l IH]; simpl; [reflexivity|].
  intros H. apply andb_true_iff in H. destruct H as [H1 H2].
  apply negb_true_iff in H1. rewrite H1. auto.
Qed.

(** The production gate, case by case. *)
Lemma production_gate_eq (host : Host) (name : string) (w : World) :
  production_gate host name w =
    if looks_like_production name
       && negb (PyStr.mem name (confirmed_production w))
    then
      let w1 := after (EvInput (production_prompt host name)) w in
      match stdin w with
      | [] => (Raise EOFError, w1)
      | line :: rest =>
          if says_yes line
          then (Ret tt,
                set_confirmed (confirmed_production w ++ [name])
                  (set_stdin rest w1))
          else (Raise user_aborted, set_stdin rest w1)
      end
    else (Ret tt, w).
Proof.
  unfold production_gate, bind, gets.
  destruct (looks_like_production name
            && negb (PyStr.mem name (confirmed_production w))) eqn:G;
    [|reflexivity].
  apply andb_true_iff in G. destruct G as [_ G]. apply negb_true_iff in G.
  destruct w as [cfg vb ap conf inp tr].
  unfold production_prompt, says_yes, confirm_action, input, bind, emit, after,
    ret, raise, confirm_production.
  cbn in *.
  destruct (PyStr.truthy (FAIL (colors host)));
    (destruct inp as [|line rest]; [reflexivity|]); cbn;
    destruct (PyStr.is_empty (PyStr.lower (PyStr.strip line)));
    cbn; try reflexivity;
    destruct (PyStr.mem (PyStr.lower (PyStr.strip line)) ["y"; "yes"]);
    cbn; rewrite ?G; reflexivity.
Qed.

(** The executor, stage by stage: the call is recorded, the name resolved,
    the command logged, the gate passed, the process launched. *)
Lemma execute_eq (host : Host) (cluster : string) (args : list string)
    (timeout : Z) (quiet : bool) (w : World) :
  execute_argocd_command host cluster args timeout quiet w =
    match validate_cluster host cluster
            (after (EvExecute cluster args timeout) w) with
    | (Raise e, w1) => (Raise e, w1)
    | (Ret name, w1) =>
        match Dict.get name (config w1) with
        | None => (Raise (OtherError "KeyError" name), w1)
        | Some login_cmd =>
            let cmd := translate login_cmd args in
            let w2 := after (EvLog ("Executing: " +++ PyStr.join " " cmd)) w1 in
            match production_gate host name w2 with
            | (Raise e, w3) => (Raise (CommandExecutionError (exn_str e)), w3)
            | (Ret _, w3) =>
                let w4 := after (EvRun cmd (Some timeout)) w3 in
                (process_outcome login_cmd timeout
                   (subprocess_run host (trace w4)), w4)
            end
        end
    end.
Proof.
  unfold execute_argocd_command.
  unfold bind at 1. unfold emit at 1. fold (after (EvExecute cluster args timeout) w).
  unfold bind at 1.
  destruct (validate_cluster host cluster _) as [[name|e] w1]; [|reflexivity].
  unfold bind at 1. unfold gets at 1.
  destruct (Dict.get name (config w1)) as [login_cmd|]; [|reflexivity].
  unfold bind at 1. unfold emit at 1.
  fold (after (EvLog ("Executing: " +++ PyStr.join " " (translate login_cmd args))) w1).
  cbv zeta. unfold try_except. unfold bind at 1.
  rewrite production_gate_eq.
  set (w2 := after (EvLog _) w1).
  destruct (looks_like_production name
            && negb (PyStr.mem name (confirmed_production w2))).
  - cbv zeta. destruct (stdin w2) as [|line rest]; [reflexivity|].
    destruct (says_yes line); [|reflexivity].
    unfold bind, run_subprocess, emit, bind, after, process_outcome.
    cbn [trace set_trace set_stdin set_confirmed].
    match goal with
    | |- context [subprocess_run host ?t] =>
        destruct (subprocess_run host t) as [rc out err| |n m]
    end; cbn; try reflexivity.
    destruct (rc =? 0)%Z; cbn; [reflexivity|].
    unfold failure_text. destruct (PyStr.truthy (PyStr.strip out)); reflexivity.
  - unfold bind, run_subprocess, emit, bind, after, process_outcome.
    cbn [trace set_trace set_stdin set_confirmed].
    match goal with
    | |- context [subprocess_run host ?t] =>
        destruct (subprocess_run host t) as [rc out err| |n m]
    end; cbn; try reflexivity.
    destruct (rc =? 0)%Z; cbn; [reflexivity|].
    unfold failure_text. destruct (PyStr.truthy (PyStr.strip out)); reflexivity.
Qed.

Lemma dict_get_in_keys {V} (k : string) (d : list (string * V)) :
  In k (Dict.keys d) -> exists v, Dict.get k d = Some v.
Proof.
  induction d as [|[k0 v0] d IH]; simpl; [contradiction|].
  intros [E|H].
  - subst k0. rewrite String.eqb_refl. eauto.
  - destruct (String.eqb k k0); [eauto | auto].
Qed.

(** Name resolution changes nothing but the trace, by at most a warning,
    and answers a configured name. *)
Lemma validate_cluster_frame (host : Host) (query : string) (w : World) :
  (snd (validate_cluster host query w) = w
   \/ exists text, snd (validate_cluster host query w) = after (EvPrint text) w)
  /\ forall name, fst (validate_cluster host query w) = Ret name ->
       In name (Dict.keys (config w)).
Proof.
  rewrite validate_cluster_eq.
  destruct (PyStr.mem query (Dict.keys (config w))) eqn:Hmem.
  { split; [now left|]. intros name E. inversion E; subst.
    now apply mem_In. }
  destruct (last_with_lower _ _ None) as [matched|] eqn:Hci.
  { split; [right; eexists; reflexivity|].
    intros name E. inversion E; subst.
    apply last_with_lower_sound in Hci.
    destruct Hci as [Hci|[Hci _]]; [discriminate | assumption]. }
  unfold fuzzy_match. rewrite Hmem.
  destruct (fuzzy_loop host query default_threshold _ None 0%Q)
    as [found|] eqn:Hloop.
  - destruct (PyStr.truthy found).
    + split; [right; eexists; reflexivity|].
      intros name E. inversion E; subst.
      apply fuzzy_loop_sound in Hloop.
      destruct Hloop as [[Hb _]|[before [after [Hs _]]]]; [discriminate|].
      rewrite Hs. apply in_elt.
    + split; [now left | discriminate].
  - split; [now left | discriminate].
Qed.

Lemma validate_cluster_config (host : Host) (query : string) (w : World) :
  let w1 := snd (validate_cluster host query w) in
  config w1 = config w /\ verbose w1 = verbose w
  /\ allow_patch w1 = allow_patch w
  /\ confirmed_production w1 = confirmed_production w
  /\ stdin w1 = stdin w.
Proof.
  destruct (validate_cluster_frame host query w) as [[E|[text E]] _];
    cbv zeta; rewrite E; repeat split; reflexivity.
Qed.

Lemma last_event_inj (l1 l2 : list event) (e1 e2 : event) :
  l1 ++ [e1] = l2 ++ [e2] -> e1 = e2.
Proof. intros H. apply app_inj_tail in H. apply H. Qed.

(** A trace that ends with a launch: the call went through the gate, and
    its answer is decided by what the process did. *)
Lemma execute_launched (host : Host) (cluster : string) (args : list string)
    (timeout : Z) (quiet : bool) (w : World) (name login_cmd : string) :
  fst (validate_cluster host cluster (after (EvExecute cluster args timeout) w))
    = Ret name ->
  Dict.get name (config w) = Some login_cmd ->
  (exists pre argv t,
     trace (snd (execute_argocd_command host cluster args timeout quiet w))
     = pre ++ [EvRun argv t]) ->
  fst (execute_argocd_command host cluster args timeout quiet w)
    = process_outcome login_cmd timeout
        (subprocess_run host
           (trace (snd (execute_argocd_command host cluster args timeout
                          quiet w))))
  /\ exists pre,
       trace (snd (execute_argocd_command host cluster args timeout quiet w))
       = pre ++ [EvRun (translate login_cmd args) (Some timeout)].
Proof.
  intros Hname Hcmd [pre [argv [t Hlast]]].
  rewrite execute_eq in *.
  pose proof (validate_cluster_config host cluster
                (after (EvExecute cluster args timeout) w)) as [Hcfg _].
  destruct (validate_cluster host cluster _) as [[name'|e] w1];
    simpl in Hname; [|discriminate].
  inversion Hname; subst name'. simpl in Hcfg.
  change (config (after (EvExecute cluster args timeout) w))
    with (config w) in Hcfg.
  rewrite Hcfg, Hcmd in *. cbv zeta in *.
  rewrite production_gate_eq in *.
  set (w2 := after (EvLog _) w1) in *.
  destruct (looks_like_production name
            && negb (PyStr.mem name (confirmed_production w2))).
  - cbv zeta in *. destruct (stdin w2) as [|line rest].
    + simpl in Hlast. apply last_event_inj in Hlast. discriminate.
    + destruct (says_yes line).
      * split; [reflexivity|]. simpl. eexists. reflexivity.
      * simpl in Hlast. apply last_event_inj in Hlast. discriminate.
  - split; [reflexivity|]. simpl. eexists. reflexivity.
Qed.

(** C4, as the code has it.  When the launched process exits non-zero, the
    executor returns its stdout stripped of surrounding whitespace when
    that is not empty; otherwise it raises [CommandExecutionError], and
    when a server URL was parsed the message is the stripped stderr (or
    "Unknown error" when that is empty) with the occurrences of the URL
    replaced by the placeholder. *)
Theorem executor_nonzero_exit (host : Host) (cluster : string)
    (args : list string) (timeout : Z) (quiet : bool) (w : World)
    (name login_cmd : string) (rc : Z) (out err : string) :
  let result := execute_argocd_command host cluster args timeout quiet w in
  fst (validate_cluster host cluster (after (EvExecute cluster args timeout) w))
    = Ret name ->
  Dict.get name (config w) = Some login_cmd ->
  (exists pre argv t, trace (snd result) = pre ++ [EvRun argv t]) ->
  subprocess_run host (trace (snd result)) = Completed rc out err ->
  rc <> 0%Z ->
  (PyStr.strip out <> EmptyString -> fst result = Ret (PyStr.strip out))
  /\ (PyStr.strip out = EmptyString ->
      (exists msg, fst result = Raise (CommandExecutionError msg))
      /\ forall url,
           fst (parse_login (PyStr.split login_cmd)) = Some url ->
           fst result
           = Raise (CommandExecutionError
                      (PyStr.replace url "<server>" (failure_text err)))).
Proof.
  intros result Hname Hcmd Hlast Hproc Hrc. subst result.
  destruct (execute_launched host cluster args timeout quiet w name login_cmd
              Hname Hcmd Hlast) as [Hres _].
  rewrite Hres, Hproc. unfold process_outcome.
  apply Z.eqb_neq in Hrc. rewrite Hrc.
  split.
  - intros Hout. destruct (PyStr.strip out); [congruence | reflexivity].
  - intros Hout. rewrite Hout.
    change (PyStr.truthy EmptyString) with false. cbv iota.
    split; [eexists; reflexivity|].
    intros url Hurl. unfold server_url_or_empty. rewrite Hurl. reflexivity.
Qed.

Lemma executor_nonzero_exit_witness :
  fst (execute_argocd_command
         (Demo.host_of [] (fun _ => Completed 1 "3 changes " ""))
         "c1" ["app"; "diff"; "web"] 30 false
         (Demo.world_of [("c1", "argocd login svc.example.com --grpc-web")] []))
  = Ret "3 changes".
Proof.
  refine (proj1 (executor_nonzero_exit
                   (Demo.host_of [] (fun _ => Completed 1 "3 changes " ""))
                   "c1" ["app"; "diff"; "web"] 30 false
                   (Demo.world_of
                      [("c1", "argocd login svc.example.com --grpc-web")] [])
                   "c1" "argocd login svc.example.com --grpc-web"
                   1 "3 changes " "" _ _ _ _ _) _).
  - reflexivity.
  - reflexivity.
  - exists [EvExecute "c1" ["app"; "diff"; "web"] 30;
            EvLog "Executing: argocd app diff web --server svc.example.com --grpc-web"],
           ["argocd"; "app"; "diff"; "web"; "--server"; "svc.example.com";
            "--grpc-web"], (Some 30%Z).
    reflexivity.
  - reflexivity.
  - discriminate.
  - discriminate.
Defined.

(** A stdout that is not empty but holds only white space is not returned:
    the call fails with the text of stderr.  And with nothing on stdout and
    nothing on stderr the message is not the empty stderr but a fixed text. *)
Lemma executor_blank_stdout_fails :
  let w := Demo.world_of [("c1", "argocd login svc.example.com")] [] in
  let run out err :=
    execute_argocd_command (Demo.host_of [] (fun _ => Completed 1 out err))
      "c1" ["app"; "diff"; "web"] 30 false w in
  subprocess_run (Demo.host_of [] (fun _ => Completed 1 " " "boom"))
    (trace (snd (run " " "boom"))) = Completed 1 " " "boom"
  /\ " " <> EmptyString
  /\ fst (run " " "boom") = Raise (CommandExecutionError "boom")
  /\ fst (run " " "boom") <> Ret " "
  /\ fst (parse_login (PyStr.split "argocd login svc.example.com"))
     = Some "svc.example.com"
  /\ fst (run EmptyString EmptyString)
     = Raise (CommandExecutionError "Unknown error")
  /\ fst (run EmptyString EmptyString)
     <> Raise (CommandExecutionError
                 (PyStr.replace "svc.example.com" "<server>" EmptyString)).
Proof. repeat split; try reflexivity; discriminate. Qed.

(** The text that carries a placeholder at every character boundary differs
    from stderr, stripped or not. *)
Lemma interleave_server_differs (err : string) :
  let msg := PyStr.interleave "<server>" (failure_text err) in
  msg <> failure_text err /\ msg <> err.
Proof.
  cbv zeta.
  assert (Hlen : forall s, PyStr.interleave "<server>" s <> s).
  { intros s E. apply (f_equal String.length) in E.
    rewrite interleave_length in E. simpl in E. lia. }
  split; [apply Hlen|].
  remember (PyStr.interleave "<server>" (failure_text err)) as msg eqn:Hm.
  intros E.
  assert (Hfix : failure_text msg = msg).
  { unfold failure_text. rewrite Hm, strip_interleave_server.
    destruct (PyStr.interleave "<server>" (failure_text err)) eqn:Hi.
    - exfalso. apply (f_equal String.length) in Hi.
      rewrite interleave_length in Hi. simpl in Hi. lia.
    - reflexivity. }
  assert (H : failure_text err = msg) by (rewrite <- E; exact Hfix).
  apply (Hlen msg). rewrite <- H at 1. symmetry. exact Hm.
Qed.

(** C10, as the code has it.  When no server URL was parsed and the launched
    process exits non-zero without usable stdout, the message of the raised
    [CommandExecutionError] is the stripped stderr (or "Unknown error" when
    that is empty) with the placeholder before each of its characters and
    after the last; it is never the text of stderr itself. *)
Theorem executor_redaction_without_url (host : Host) (cluster : string)
    (args : list string) (timeout : Z) (quiet : bool) (w : World)
    (name login_cmd : string) (rc : Z) (out err : string) :
  let result := execute_argocd_command host cluster args timeout quiet w in
  let msg := PyStr.interleave "<server>" (failure_text err) in
  fst (validate_cluster host cluster (after (EvExecute cluster args timeout) w))
    = Ret name ->
  Dict.get name (config w) = Some login_cmd ->
  fst (parse_login (PyStr.split login_cmd)) = None ->
  (exists pre argv t, trace (snd result) = pre ++ [EvRun argv t]) ->
  subprocess_run host (trace (snd result)) = Completed rc out err ->
  rc <> 0%Z ->
  PyStr.strip out = EmptyString ->
  fst result = Raise (CommandExecutionError msg)
  /\ msg <> err
  /\ msg <> failure_text err.
Proof.
  intros result msg Hname Hcmd Hurl Hlast Hproc Hrc Hout. subst result msg.
  destruct (execute_launched host cluster args timeout quiet w name login_cmd
              Hname Hcmd Hlast) as [Hres _].
  rewrite Hres, Hproc. unfold process_outcome.
  apply Z.eqb_neq in Hrc. rewrite Hrc, Hout.
  change (PyStr.truthy EmptyString) with false. cbv iota.
  unfold server_url_or_empty. rewrite Hurl, replace_empty.
  destruct (interleave_server_differs err) as [H1 H2].
  repeat split; assumption.
Qed.

Lemma executor_redaction_without_url_witness :
  fst (execute_argocd_command
         (Demo.host_of [] (fun _ => Completed 1 "" "no"))
         "c1" ["app"; "list"] 30 false
         (Demo.world_of [("c1", "argocd --grpc-web")] []))
  = Raise (CommandExecutionError "<server>n<server>o<server>").
Proof.
  refine (proj1 (executor_redaction_without_url
                   (Demo.host_of [] (fun _ => Completed 1 "" "no"))
                   "c1" ["app"; "list"] 30 false
                   (Demo.world_of [("c1", "argocd --grpc-web")] [])
                   "c1" "argocd --grpc-web" 1 "" "no" _ _ _ _ _ _ _)).
  - reflexivity.
  - reflexivity.
  - reflexivity.
  - exists [EvExecute "c1" ["app"; "list"] 30;
            EvLog "Executing: argocd app list"],
           ["argocd"; "app"; "list"], (Some 30%Z).
    reflexivity.
  - reflexivity.
  - discriminate.
  - reflexivity.
Defined.

(** With a trailing newline in stderr, and with an empty stderr, the message
    is not stderr with the placeholder at each of its character boundaries:
    the newline is stripped first, and an empty stderr is replaced by
    "Unknown error". *)
Lemma executor_redaction_not_raw_stderr :
  let w := Demo.world_of [("c1", "argocd --grpc-web")] [] in
  let run err :=
    fst (execute_argocd_command
           (Demo.host_of [] (fun _ => Completed 1 "" err))
           "c1" ["app"; "list"] 30 false w) in
  fst (parse_login (PyStr.split "argocd --grpc-web")) = None
  /\ run (String "n" (String "o" (String (ascii_of_nat 10) EmptyString)))
     = Raise (CommandExecutionError "<server>n<server>o<server>")
  /\ run (String "n" (String "o" (String (ascii_of_nat 10) EmptyString)))
     <> Raise (CommandExecutionError
                 (PyStr.interleave "<server>"
                    (String "n" (String "o"
                       (String (ascii_of_nat 10) EmptyString)))))
  /\ run EmptyString
     <> Raise (CommandExecutionError
                 (PyStr.interleave "<server>" EmptyString)).
Proof.
  repeat split; try reflexivity; vm_compute; discriminate.
Qed.

(** ** Relations kept by every operation *)

Section Stability.

Variable host : Host.
Variable R : World -> World -> Prop.
Variable silent : event -> bool.

Hypothesis R_refl : forall w, R w w.
Hypothesis R_trans : forall a b c, R a b -> R b c -> R a c.
Hypothesis R_emit : forall w e, silent e = true -> R w (after e w).
Hypothesis R_stdin : forall w i, R w (set_stdin i w).
Hypothesis R_confirm :
  forall w n, R w (set_confirmed (confirmed_production w ++ [n]) w).
Hypothesis silent_print : forall t, silent (EvPrint t) = true.
Hypothesis silent_log : forall t, silent (EvLog t) = true.
Hypothesis silent_input : forall p, silent (EvInput p) = true.
Hypothesis silent_run : forall a t, silent (EvRun a t) = true.

Lemma stable_ret {A} (a : A) : stable R (ret a).
Proof. intros w. apply R_refl. Qed.

Lemma stable_raise {A} (e : exn) : stable R (@raise A e).
Proof. intros w. apply R_refl. Qed.

Lemma stable_gets {A} (f : World -> A) : stable R (gets f).
Proof. intros w. apply R_refl. Qed.

Lemma stable_lift {A} (o : outcome A) : stable R (PyVal.lift o).
Proof. intros w. apply R_refl. Qed.

Lemma stable_bind {A B} (m : M A) (k : A -> M B) :
  stable R m -> (forall a, stable R (k a)) -> stable R (bind m k).
Proof.
  intros Hm Hk w. unfold bind. specialize (Hm w).
  destruct (m w) as [[a|e] w1]; simpl in *.
  - eapply R_trans; [exact Hm | apply Hk].
  - exact Hm.
Qed.

Lemma stable_try_except {A} (m : M A) (h : exn -> option (M A)) :
  stable R m -> (forall e k, h e = Some k -> stable R k) ->
  stable R (try_except m h).
Proof.
  intros Hm Hh w. unfold try_except. specialize (Hm w).
  destruct (m w) as [[a|e] w1]; simpl in *.
  - exact Hm.
  - destruct (h e) as [k|] eqn:E; simpl.
    + eapply R_trans; [exact Hm | eapply Hh; eassumption].
    + exact Hm.
Qed.

Lemma stable_emit (e : event) : silent e = true -> stable R (emit e).
Proof. intros He w. apply R_emit. assumption. Qed.

Lemma stable_when (b : bool) (m : M unit) :
  stable R m -> stable R (when b m).
Proof. intros Hm. destruct b; [assumption | apply stable_ret]. Qed.

Lemma stable_print (t : string) : stable R (print t).
Proof. apply stable_emit, silent_print. Qed.

Lemma stable_input (p : string) : stable R (input p).
Proof.
  apply stable_bind; [apply stable_emit, silent_input|].
  intros _ w. destruct (stdin w); simpl; [apply R_refl | apply R_stdin].
Qed.

Lemma stable_confirm_production (n : string) :
  stable R (confirm_production n).
Proof.
  intros w. unfold confirm_production. simpl.
  destruct (PyStr.mem n (confirmed_production w));
    [apply R_refl | apply R_confirm].
Qed.

Lemma stable_run_subprocess (argv : list string) (t : option Z) (check : bool) :
  stable R (run_subprocess host argv t check).
Proof.
  apply stable_bind; [apply stable_emit, silent_run|].
  intros _ w. destruct (subprocess_run host (trace w)); simpl;
    try apply R_refl.
  destruct (check && negb (returncode =? 0)%Z); apply R_refl.
Qed.

(** One step of a stability proof: follow the shape of the computation. *)
Ltac stable_step :=
  match goal with
  | |- stable _ (bind _ _) => apply stable_bind; [|intros ?]
  | |- stable _ (ret _) => apply stable_ret
  | |- stable _ (raise _) => apply stable_raise
  | |- stable _ (gets _) => apply stable_gets
  | |- stable _ (PyVal.lift _) => apply stable_lift
  | |- stable _ (when _ _) => apply stable_when
  | |- stable _ (print _) => apply stable_print
  | |- stable _ (input _) => apply stable_input
  | |- stable _ (confirm_production _) => apply stable_confirm_production
  | |- stable _ (run_subprocess _ _ _ _) => apply stable_run_subprocess
  | |- stable _ (emit (EvLog _)) => apply stable_emit, silent_log
  | |- stable _ (try_except _ _) =>
      apply stable_try_except; [|intros ? ? ?]
  | H : Some _ = Some _ |- _ => inversion H; subst; clear H
  | H : None = Some _ |- _ => discriminate H
  | H : match ?e with _ => _ end = Some _ |- _ => destruct e
  | H : (if ?b then _ else _) = Some _ |- _ => destruct b
  | |- stable _ (match ?x with _ => _ end) => destruct x
  | |- stable _ (if ?b then _ else _) => destruct b
  | |- stable _ (let '(_, _) := ?x in _) => destruct x
  end.

Ltac stable_auto := repeat stable_step.

Lemma stable_confirm_action (prompt : string) (default : bool)
    (color : option string) :
  stable R (confirm_action host prompt default color).
Proof. unfold confirm_action. stable_auto. Qed.

Lemma stable_validate_cluster (query : string) :
  stable R (validate_cluster host query).
Proof. unfold validate_cluster. stable_auto. Qed.

Lemma stable_production_gate (name : string) :
  stable R (production_gate host name).
Proof.
  unfold production_gate. stable_auto; apply stable_confirm_action.
Qed.

(** After the record of the call, the executor keeps the relation. *)
Lemma stable_execute_body (cluster : string) (args : list string)
    (timeout : Z) (quiet : bool) (w : World) :
  R (after (EvExecute cluster args timeout) w)
    (snd (execute_argocd_command host cluster args timeout quiet w)).
Proof.
  unfold execute_argocd_command. unfold bind at 1. unfold emit at 1.
  fold (after (EvExecute cluster args timeout) w).
  generalize (after (EvExecute cluster args timeout) w). clear w.
  change (stable R
            (cluster_name <- validate_cluster host cluster ;;
             cfg <- gets config ;;
             match Dict.get cluster_name cfg with
             | None => raise (OtherError "KeyError" cluster_name)
             | Some login_cmd =>
                 emit (EvLog ("Executing: "
                              +++ PyStr.join " " (translate login_cmd args))) ;;
                 try_except
                   (production_gate host cluster_name ;;
                    res <- run_subprocess host (translate login_cmd args)
                             (Some timeout) true ;;
                    let '(_, out, _) := res in
                    ret out)
                   (executor_handler login_cmd timeout)
             end)).
  apply stable_bind; [apply stable_validate_cluster|]. intros name.
  apply stable_bind; [apply stable_gets|]. intros cfg.
  destruct (Dict.get name cfg) as [login_cmd|]; [|stable_auto].
  apply stable_bind; [apply stable_emit, silent_log|]. intros _.
  apply stable_try_except.
  - stable_step; [apply stable_production_gate|]. stable_auto.
  - intros e k H. unfold executor_handler in H. stable_auto.
Qed.

Lemma stable_execute (cluster : string) (args : list string) (timeout : Z)
    (quiet : bool) :
  silent (EvExecute cluster args timeout) = true ->
  stable R (execute_argocd_command host cluster args timeout quiet).
Proof.
  intros Hs w. eapply R_trans; [apply R_emit, Hs|].
  apply stable_execute_body.
Qed.

Section Polling.

Hypothesis silent_poll : forall c, silent (EvExecute c poll_cmd 5%Z) = true.
Hypothesis silent_sleep : forall s, silent (EvSleep s) = true.

Lemma stable_sleep (s : Z) : stable R (sleep s).
Proof. apply stable_emit, silent_sleep. Qed.

Lemma stable_poll_loop (cluster : string) (quiet : bool)
    (attempts : list nat) :
  stable R (poll_loop host cluster quiet attempts).
Proof.
  induction attempts as [|n rest IH]; simpl.
  - stable_auto.
  - apply stable_bind; [apply stable_gets|]. intros v.
    apply stable_bind.
    + apply stable_try_except.
      * apply stable_bind; [apply stable_execute, silent_poll|]. intros _.
        stable_auto.
      * intros e k H. destruct e; try discriminate H.
        inversion H; subst; clear H.
        destruct (still_unauthenticated msg).
        -- apply stable_bind; [apply stable_sleep | intros _; apply stable_ret].
        -- stable_auto.
    + intros [b|]; [apply stable_ret | exact IH].
Qed.

Lemma stable_login (cluster : string) (quiet : bool) :
  stable R (_handle_oidc_login host cluster quiet).
Proof.
  unfold _handle_oidc_login.
  apply stable_bind; [apply stable_gets|]. intros cfg.
  apply stable_bind; [apply stable_gets|]. intros v.
  destruct (Dict.get cluster cfg) as [login_cmd|]; [|stable_auto].
  destruct (negb (PyStr.truthy login_cmd)); [stable_auto|].
  apply stable_bind; [stable_auto|]. intros _.
  apply stable_bind; [stable_auto|]. intros parts.
  apply stable_bind; [stable_auto|]. intros ran.
  destruct (negb ran); [stable_auto|].
  apply stable_bind; [stable_auto|]. intros _.
  apply stable_poll_loop.
Qed.

Section Operations.

Lemma stable_loads_or_none (out : string) : stable R (loads_or_none host out).
Proof. unfold loads_or_none. stable_auto. Qed.

(** The retry decision of a guarded loop. *)
Ltac stable_guard IH :=
  apply stable_bind;
  [ apply stable_try_except;
    [ apply stable_bind; [apply stable_execute; assumption|]; intros ?;
      stable_auto; try apply stable_loads_or_none
    | intros e k H; destruct e; try discriminate H;
      inversion H; subst; clear H;
      apply stable_bind;
      [ repeat match goal with
               | |- stable _ (if ?b then _ else _) => destruct b
               end;
        first [apply stable_login | apply stable_ret]
      | intros again; destruct again; stable_auto ] ]
  | intros r; destruct r; [apply stable_ret | exact IH] ].

Lemma stable_list_projects (cluster : string) :
  silent (EvExecute cluster ["proj"; "list"; "--output"; "json"] 30%Z) = true ->
  stable R (list_projects host cluster).
Proof.
  intros Hs. unfold list_projects. generalize (seq 0 2).
  intros attempts. induction attempts as [|n rest IH]; simpl;
    [apply stable_ret | stable_guard IH].
Qed.

Lemma stable_list_applications (cluster : string) (project : option string) :
  silent (EvExecute cluster (list_applications_cmd project) 30%Z) = true ->
  stable R (list_applications host cluster project).
Proof.
  intros Hs. unfold list_applications. generalize (seq 0 2).
  intros attempts. induction attempts as [|n rest IH]; simpl;
    [apply stable_ret | stable_guard IH].
Qed.

Lemma stable_get_application_status (cluster app : string) :
  silent (EvExecute cluster ["app"; "get"; app; "--output"; "json"] 30%Z)
    = true ->
  stable R (get_application_status host cluster app).
Proof.
  intros Hs. unfold get_application_status, _get_application_status. generalize (seq 0 2).
  intros attempts. induction attempts as [|n rest IH]; simpl;
    [apply stable_ret | stable_guard IH].
Qed.

Lemma stable_get_application_diff (cluster app : string) :
  silent (EvExecute cluster ["app"; "diff"; app] 30%Z) = true ->
  stable R (get_application_diff host cluster app).
Proof.
  intros Hs. unfold get_application_diff, _get_application_diff. generalize (seq 0 2).
  intros attempts. induction attempts as [|n rest IH]; simpl;
    [apply stable_ret | stable_guard IH].
Qed.

Lemma stable_sync_application (cluster app : string) (dry_run prune : bool) :
  silent (EvExecute cluster ["app"; "diff"; app] 30%Z) = true ->
  silent (EvExecute cluster (sync_cmd app prune) 300%Z) = true ->
  stable R (sync_application host cluster app dry_run prune).
Proof.
  intros Hdiff Hsync. unfold sync_application. destruct dry_run.
  - apply stable_bind; [apply stable_print|]. intros _.
    apply stable_bind; [apply stable_get_application_diff, Hdiff|].
    intros diff.
    stable_auto.
  - apply stable_bind; [apply stable_confirm_action|]. intros go.
    destruct (negb go); [stable_auto|].
    generalize (seq 0 2). revert Hsync. generalize (sync_cmd app prune).
    intros cmd Hsync attempts.
    induction attempts as [|n rest IH]; simpl;
      [apply stable_ret | stable_guard IH].
Qed.

Lemma stable_or_else (a : json) (b : M json) :
  stable R b -> stable R (or_else a b).
Proof. intros Hb. unfold or_else. destruct (PyVal.truthy a); [apply stable_ret | exact Hb]. Qed.

Lemma stable_repo_url_of (s : json) : stable R (repo_url_of s).
Proof.
  unfold repo_url_of. apply stable_bind; [apply stable_lift|]. intros url.
  apply stable_or_else. stable_auto.
Qed.

Lemma stable_sources_of (spec : json) : stable R (sources_of spec).
Proof. unfold sources_of. stable_auto. Qed.

Lemma stable_match_repo (repo : string) (sources : list json) :
  forall i, stable R (match_repo repo sources i).
Proof.
  induction sources as [|s rest IH]; intros i; simpl.
  - apply stable_ret.
  - apply stable_bind; [apply stable_repo_url_of|]. intros repourl.
    destruct (PyVal.truthy repourl); [|apply IH].
    apply stable_bind; [apply stable_lift|]. intros stripped.
    destruct (String.eqb stripped (PyStr.rstrip_slash repo));
      [apply stable_ret | apply IH].
Qed.

Lemma stable_print_sources (sources : list json) :
  forall i, stable R (print_sources host sources i).
Proof.
  induction sources as [|s rest IH]; intros i; simpl.
  - apply stable_ret.
  - apply stable_bind; [apply stable_repo_url_of|]. intros url.
    apply stable_bind; [apply stable_or_else, stable_ret|]. intros repourl.
    apply stable_bind; [apply stable_lift|]. intros rev.
    apply stable_bind.
    { apply stable_or_else. apply stable_bind; [apply stable_lift|].
      intros ref. apply stable_or_else, stable_ret. }
    intros tgt.
    apply stable_bind; [apply stable_lift|]. intros ch.
    apply stable_bind.
    { apply stable_or_else. apply stable_bind; [apply stable_lift|].
      intros path. apply stable_or_else, stable_ret. }
    intros chart.
    apply stable_bind; [apply stable_print | intros _; apply IH].
Qed.

Lemma stable_choose_source (cluster : string) (n : nat) :
  forall fuel, stable R (choose_source fuel cluster n).
Proof.
  induction fuel as [|fuel IH]; simpl.
  - apply stable_raise.
  - apply stable_bind; [stable_auto|]. intros r.
    destruct r as [choice|]; [|apply stable_ret].
    destruct (negb (PyStr.truthy choice)
              || PyStr.mem (PyStr.lower choice) ["s"; "skip"; "n"; "no"]);
      [stable_auto|].
    apply stable_bind; [stable_auto|]. intros picked.
    destruct picked; [apply stable_ret|].
    apply stable_bind; [apply stable_print | intros _; exact IH].
Qed.

Lemma stable_resolve_target (cluster app : string) (repo : option string)
    (source_index : option Z) :
  (forall c, silent (EvExecute c ["app"; "get"; app; "--output"; "json"] 30%Z)
             = true) ->
  stable R (resolve_target host cluster app repo source_index).
Proof.
  intros Hs. unfold resolve_target.
  apply stable_bind; [apply stable_validate_cluster|]. intros name.
  apply stable_bind; [apply stable_get_application_status, Hs|].
  intros status.
  destruct (negb (PyVal.truthy status)); [stable_auto|].
  apply stable_bind; [apply stable_lift|]. intros spec.
  apply stable_bind; [apply stable_sources_of|]. intros sources.
  apply stable_bind.
  { destruct repo as [r|]; [|apply stable_ret].
    destruct source_index; [apply stable_ret|].
    destruct (PyStr.truthy r && (1 <? length sources));
      [apply stable_match_repo | apply stable_ret]. }
  intros resolved. destruct resolved; [apply stable_ret|].
  destruct (1 <? length sources); [|apply stable_ret].
  apply stable_bind; [apply stable_print|]. intros _.
  apply stable_bind; [apply stable_print_sources|]. intros _.
  apply stable_bind; [apply stable_gets|]. intros pending.
  apply stable_bind; [apply stable_choose_source|]. intros choice.
  destruct choice; apply stable_ret.
Qed.

Lemma stable_run_patch (argv : list string) : stable R (run_patch host argv).
Proof. unfold run_patch. stable_auto. Qed.

Lemma stable_patch_fallback (status : json) (app revision : string)
    (idx : option Z) :
  stable R (patch_fallback host status app revision idx).
Proof.
  unfold patch_fallback.
  apply stable_bind; [apply stable_lift|]. intros metadata.
  apply stable_bind; [apply stable_lift|]. intros ns.
  apply stable_bind; [apply stable_or_else, stable_ret|]. intros kube_ns.
  apply stable_try_except.
  - apply stable_bind; [stable_auto|]. intros s. apply stable_run_patch.
  - intros e k H. destruct e; try discriminate H.
    inversion H; subst; clear H.
    apply stable_try_except.
    + apply stable_bind; [stable_auto|]. intros s.
      match goal with
      | |- stable _ (match ?x with _ => _ end) => destruct x
      end; [apply stable_run_patch | apply stable_raise].
    + intros e' k' H'. stable_auto.
Qed.

Lemma stable_apply_target (cluster app revision : string)
    (repo : option string) (status : json) (idx : option Z) (dry_run : bool) :
  silent (EvExecute cluster (set_cmd app revision repo idx) 30%Z) = true ->
  stable R (apply_target host cluster app revision repo status idx dry_run).
Proof.
  intros Hs. unfold apply_target. destruct dry_run; [stable_auto|].
  apply stable_bind.
  - apply stable_try_except.
    + apply stable_bind; [apply stable_execute, Hs|].
      intros out. stable_auto.
    + intros e k H. stable_auto.
  - intros primary. destruct primary;
      [apply stable_ret | apply stable_patch_fallback].
Qed.

Lemma stable_set_application_target_revision (cluster app revision : string)
    (repo : option string) (source_index : option Z) (dry_run : bool) :
  (forall c, silent (EvExecute c ["app"; "get"; app; "--output"; "json"] 30%Z)
             = true) ->
  (forall c idx,
     silent (EvExecute c (set_cmd app revision repo idx) 30%Z) = true) ->
  stable R (set_application_target_revision host cluster app revision repo
              source_index dry_run).
Proof.
  intros Hget Hset. unfold set_application_target_revision.
  apply stable_bind; [apply stable_resolve_target, Hget|]. intros target.
  destruct target as [[[name status] idx]|];
    [apply stable_apply_target, Hset | apply stable_ret].
Qed.

End Operations.

End Polling.

End Stability.

(** *** Instances of stability *)

Lemma mem_app_l (x : string) (l1 l2 : list string) :
  PyStr.mem x l1 = true -> PyStr.mem x (l1 ++ l2) = true.
Proof. rewrite !mem_In. intros H. apply in_or_app. now left. Qed.

(** Every operation keeps a confirmed cluster confirmed. *)
Lemma perform_keeps_confirmed (host : Host) (name : string) (c : call)
    (w : World) :
  keeps_confirmed name w (perform host c w).
Proof.
  assert (Hrefl : forall w, keeps_confirmed name w w) by (intros ? H; exact H).
  assert (Htrans : forall a b c, keeps_confirmed name a b ->
                     keeps_confirmed name b c -> keeps_confirmed name a c)
    by (intros a b c' H1 H2 H; auto).
  assert (Hemit : forall w e, (fun _ : event => true) e = true ->
                    keeps_confirmed name w (after e w))
    by (intros ? ? _ H; exact H).
  assert (Hstdin : forall w i, keeps_confirmed name w (set_stdin i w))
    by (intros ? ? H; exact H).
  assert (Hconf : forall w n,
             keeps_confirmed name w
               (set_confirmed (confirmed_production w ++ [n]) w))
    by (intros ? ? H; simpl; apply mem_app_l; exact H).
  destruct c; simpl.
  - eapply stable_execute; eauto.
  - eapply stable_login; eauto.
  - eapply stable_list_projects; eauto.
  - eapply stable_list_applications; eauto.
  - eapply stable_get_application_status; eauto.
  - eapply stable_get_application_diff; eauto.
  - eapply stable_sync_application; eauto.
  - eapply stable_set_application_target_revision; eauto.
Qed.

Lemma run_calls_keeps_confirmed (host : Host) (name : string)
    (calls : list call) :
  forall w, keeps_confirmed name w (run_calls host calls w).
Proof.
  unfold run_calls. induction calls as [|c calls IH]; intros w H; simpl.
  - exact H.
  - apply IH. apply perform_keeps_confirmed. exact H.
Qed.

Lemma count_notes (p : event -> bool) (l : list event) :
  (forall e, is_note e = true -> p e = false) ->
  forallb is_note l = true -> count p l = 0.
Proof.
  intros Hp Hl. apply count_none.
  rewrite forallb_forall in *. intros e He.
  rewrite (Hp e (Hl e He)). reflexivity.
Qed.

(** Once the name is resolved, the executor logs the command, passes the
    gate and launches the process; up to the log record only notes were
    added to the trace. *)
Lemma execute_resolved (host : Host) (cluster : string) (args : list string)
    (timeout : Z) (quiet : bool) (w : World) (name : string) :
  fst (validate_cluster host cluster (after (EvExecute cluster args timeout) w))
    = Ret name ->
  exists login_cmd w2 notes,
    Dict.get name (config w) = Some login_cmd
    /\ trace w2 = trace w ++ EvExecute cluster args timeout :: notes
    /\ forallb is_note notes = true
    /\ config w2 = config w
    /\ confirmed_production w2 = confirmed_production w
    /\ stdin w2 = stdin w
    /\ execute_argocd_command host cluster args timeout quiet w =
         match production_gate host name w2 with
         | (Raise e, w3) => (Raise (CommandExecutionError (exn_str e)), w3)
         | (Ret _, w3) =>
             let w4 := after (EvRun (translate login_cmd args) (Some timeout))
                         w3 in
             (process_outcome login_cmd timeout
                (subprocess_run host (trace w4)), w4)
         end.
Proof.
  intros Hname. rewrite execute_eq.
  set (w0 := after (EvExecute cluster args timeout) w) in *.
  destruct (validate_cluster_frame host cluster w0) as [Hw1 Hkey].
  destruct (validate_cluster_config host cluster w0)
    as [Hcfg [_ [_ [Hconf Hin]]]].
  destruct (validate_cluster host cluster w0) as [[name'|e] w1];
    simpl in *; [|discriminate].
  inversion Hname; subst name'.
  destruct (dict_get_in_keys name (config w) (Hkey name eq_refl))
    as [login_cmd Hcmd].
  rewrite Hcfg. change (config w0) with (config w). rewrite Hcmd.
  exists login_cmd.
  exists (after (EvLog ("Executing: "
                        +++ PyStr.join " " (translate login_cmd args))) w1).
  destruct Hw1 as [E|[text E]]; subst w1.
  - exists [EvLog ("Executing: " +++ PyStr.join " " (translate login_cmd args))].
    repeat split; try reflexivity. simpl. rewrite <- app_assoc. reflexivity.
  - exists [EvPrint text;
            EvLog ("Executing: " +++ PyStr.join " " (translate login_cmd args))].
    repeat split; try reflexivity. simpl. rewrite <- !app_assoc. reflexivity.
Qed.

Lemma process_outcome_not_configuration (login_cmd : string) (timeout : Z)
    (res : proc_result) (msg : string) :
  process_outcome login_cmd timeout res <> Raise (ConfigurationError msg).
Proof.
  destruct res as [rc out err| |n m]; simpl; try discriminate.
  destruct (rc =? 0)%Z; [discriminate|].
  destruct (PyStr.truthy (PyStr.strip out)); discriminate.
Qed.

Lemma notes_have_no_run (notes : list event) (argv : list string)
    (t : option Z) :
  forallb is_note notes = true -> ~ In (EvRun argv t) notes.
Proof.
  intros Hn Hin. rewrite forallb_forall in Hn. specialize (Hn _ Hin).
  discriminate.
Qed.

(** C9.  When the stored login command has no [login] token, the parser
    yields no server URL and no flags, the call does not fail with a
    configuration error, the only process it can launch has the controller
    binary followed by the subcommand arguments as argv, and it does launch
    it whenever the production gate lets the call through. *)
Theorem execute_without_login_token (host : Host) (cluster : string)
    (args : list string) (timeout : Z) (quiet : bool) (w : World)
    (name login_cmd : string) :
  let result := execute_argocd_command host cluster args timeout quiet w in
  fst (validate_cluster host cluster (after (EvExecute cluster args timeout) w))
    = Ret name ->
  Dict.get name (config w) = Some login_cmd ->
  ~ In "login" (PyStr.split login_cmd) ->
  parse_login (PyStr.split login_cmd) = (None, [])
  /\ (forall msg, fst result <> Raise (ConfigurationError msg))
  /\ (forall argv t,
        In (EvRun argv t) (trace (snd result)) ->
        In (EvRun argv t) (trace w)
        \/ (argv = "argocd" :: args /\ t = Some timeout))
  /\ (gate_passes name w ->
      exists pre,
        trace (snd result) = pre ++ [EvRun ("argocd" :: args) (Some timeout)]).
Proof.
  intros result Hname Hcmd Hnot. subst result.
  destruct (translate_without_login login_cmd args Hnot) as [Hparse Htr].
  split; [assumption|].
  destruct (execute_resolved host cluster args timeout quiet w name Hname)
    as [login_cmd' [w2 [notes [Hcmd' [Htrace [Hnotes [_ [Hconf [Hin Heq]]]]]]]]].
  rewrite Hcmd in Hcmd'. inversion Hcmd'; subst login_cmd'. clear Hcmd'.
  rewrite Heq, production_gate_eq, Htr, Hconf, Hin. clear Heq.
  destruct (looks_like_production name
            && negb (PyStr.mem name (confirmed_production w))) eqn:G.
  - cbv zeta. destruct (stdin w) as [|line rest] eqn:Hstdin.
    + simpl. split; [discriminate|]. split.
      * intros argv t H. rewrite Htrace in H.
        apply in_app_or in H. destruct H as [H|[H|[]]]; [|discriminate].
        apply in_app_or in H. destruct H as [H|[H|H]];
          [now left | discriminate |].
        exfalso. eapply notes_have_no_run; eassumption.
      * intros [Hg|[Hg|[l [r [Hg _]]]]].
        -- rewrite Hg in G. discriminate.
        -- rewrite Hg in G. rewrite andb_false_r in G. discriminate.
        -- congruence.
    + destruct (says_yes line) eqn:Hyes.
      * simpl. split; [intros msg; apply process_outcome_not_configuration|].
        split.
        -- intros argv t H. rewrite Htrace in H.
           apply in_app_or in H. destruct H as [H|[H|[]]].
           ++ apply in_app_or in H. destruct H as [H|[H|[]]]; [|discriminate].
              apply in_app_or in H. destruct H as [H|[H|H]];
                [now left | discriminate |].
              exfalso. eapply notes_have_no_run; eassumption.
           ++ inversion H; subst. right. split; reflexivity.
        -- intros _. eexists. reflexivity.
      * simpl. split; [discriminate|]. split.
        -- intros argv t H. rewrite Htrace in H.
           apply in_app_or in H. destruct H as [H|[H|[]]]; [|discriminate].
           apply in_app_or in H. destruct H as [H|[H|H]];
             [now left | discriminate |].
           exfalso. eapply notes_have_no_run; eassumption.
        -- intros [Hg|[Hg|[l [r [Hg Hy]]]]].
           ++ rewrite Hg in G. discriminate.
           ++ rewrite Hg in G. rewrite andb_false_r in G. discriminate.
           ++ rewrite Hstdin in Hg. inversion Hg; subst. congruence.
  - simpl. split; [intros msg; apply process_outcome_not_configuration|].
    split.
    + intros argv t H. rewrite Htrace in H.
      apply in_app_or in H. destruct H as [H|[H|[]]].
      * apply in_app_or in H. destruct H as [H|[H|H]];
          [now left | discriminate |].
        exfalso. eapply notes_have_no_run; eassumption.
      * inversion H; subst. right. split; reflexivity.
    + intros _. eexists. reflexivity.
Qed.

Lemma execute_without_login_token_witness :
  exists pre,
    trace (snd (execute_argocd_command
                  (Demo.host_of [] (fun _ => Completed 0 "[]" ""))
                  "c1" ["app"; "list"] 30 false
                  (Demo.world_of [("c1", "argocd --grpc-web svc")] [])))
    = pre ++ [EvRun ["argocd"; "app"; "list"] (Some 30%Z)].
Proof.
  refine (proj2 (proj2 (proj2
            (execute_without_login_token
               (Demo.host_of [] (fun _ => Completed 0 "[]" ""))
               "c1" ["app"; "list"] 30 false
               (Demo.world_of [("c1", "argocd --grpc-web svc")] [])
               "c1" "argocd --grpc-web svc" _ _ _))) _).
  - reflexivity.
  - reflexivity.
  - vm_compute. intros [H|[H|[H|[]]]]; discriminate H.
  - left. reflexivity.
Defined.

(** A call against a confirmed cluster does not prompt. *)
Lemma execute_confirmed_no_prompt (host : Host) (cluster : string)
    (args : list string) (timeout : Z) (quiet : bool) (w : World)
    (name : string) :
  fst (validate_cluster host cluster (after (EvExecute cluster args timeout) w))
    = Ret name ->
  PyStr.mem name (confirmed_production w) = true ->
  count is_input
    (trace (snd (execute_argocd_command host cluster args timeout quiet w)))
  = count is_input (trace w).
Proof.
  intros Hname Hmem.
  destruct (execute_resolved host cluster args timeout quiet w name Hname)
    as [login_cmd [w2 [notes [_ [Htrace [Hnotes [_ [Hconf [_ Heq]]]]]]]]].
  rewrite Heq, production_gate_eq, Hconf, Hmem, andb_false_r. simpl.
  rewrite Htrace, count_snoc, count_app. simpl.
  change (count is_input (EvExecute cluster args timeout :: notes))
    with (count is_input notes).
  rewrite (count_notes is_input notes); [lia | | assumption].
  intros [] H; simpl in *; congruence.
Qed.

(** C6.  A call against a cluster whose resolved name contains "prod" in
    any case and that is not in the confirmation set prompts the operator
    once, with declining as the default; when the operator declines, the
    call fails and launches no process; when the operator accepts, the name
    joins the confirmation set, and after any further operations of the run
    a call against that cluster does not prompt. *)
Theorem production_confirmation (host : Host) (cluster : string)
    (args : list string) (timeout : Z) (quiet : bool) (w : World)
    (name : string) :
  let result := execute_argocd_command host cluster args timeout quiet w in
  fst (validate_cluster host cluster (after (EvExecute cluster args timeout) w))
    = Ret name ->
  looks_like_production name = true ->
  PyStr.mem name (confirmed_production w) = false ->
  In (EvInput (production_prompt host name)) (trace (snd result))
  /\ count is_input (trace (snd result)) = count is_input (trace w) + 1
  /\ (exists question, production_prompt host name = question +++ " [y/N]: ")
  /\ says_yes EmptyString = false
  /\ (forall line rest,
        stdin w = line :: rest -> says_yes line = false ->
        fst result = Raise user_aborted
        /\ count is_run (trace (snd result)) = count is_run (trace w))
  /\ (stdin w = [] ->
      (exists msg, fst result = Raise (CommandExecutionError msg))
      /\ count is_run (trace (snd result)) = count is_run (trace w))
  /\ (forall line rest,
        stdin w = line :: rest -> says_yes line = true ->
        PyStr.mem name (confirmed_production (snd result)) = true
        /\ forall calls cluster' args' timeout' quiet',
             let later := run_calls host calls (snd result) in
             fst (validate_cluster host cluster'
                    (after (EvExecute cluster' args' timeout') later))
               = Ret name ->
             count is_input
               (trace (snd (execute_argocd_command host cluster' args'
                              timeout' quiet' later)))
             = count is_input (trace later)).
Proof.
  intros result Hname Hprod Hnot. subst result.
  destruct (execute_resolved host cluster args timeout quiet w name Hname)
    as [login_cmd [w2 [notes [_ [Htrace [Hnotes [_ [Hconf [Hin Heq]]]]]]]]].
  assert (Hnotes_input : count is_input notes = 0).
  { apply count_notes; [|assumption]. intros [] H; simpl in *; congruence. }
  assert (Hnotes_run : count is_run notes = 0).
  { apply count_notes; [|assumption]. intros [] H; simpl in *; congruence. }
  assert (Hin2 : count is_input (trace w2) = count is_input (trace w)).
  { rewrite Htrace, count_app.
    change (count is_input (EvExecute cluster args timeout :: notes))
      with (count is_input notes). lia. }
  assert (Hrun2 : count is_run (trace w2) = count is_run (trace w)).
  { rewrite Htrace, count_app.
    change (count is_run (EvExecute cluster args timeout :: notes))
      with (count is_run notes). lia. }
  rewrite Heq, production_gate_eq, Hconf, Hprod, Hnot, Hin. clear Heq.
  simpl andb. cbv iota zeta.
  split.
  { destruct (stdin w) as [|line rest]; [|destruct (says_yes line)]; simpl;
      repeat (apply in_or_app; first [right; simpl; now left | left]). }
  split.
  { destruct (stdin w) as [|line rest]; [|destruct (says_yes line)]; simpl;
      rewrite ?count_snoc; simpl; lia. }
  split.
  { unfold production_prompt. destruct (PyStr.truthy (FAIL (colors host))).
    - eexists. rewrite <- !append_assoc. reflexivity.
    - eexists. reflexivity. }
  split; [reflexivity|].
  split.
  { intros line rest E Hno. rewrite E, Hno. simpl.
    split; [reflexivity|]. rewrite count_snoc. simpl. lia. }
  split.
  { intros E. rewrite E. simpl.
    split; [eexists; reflexivity|]. rewrite count_snoc. simpl. lia. }
  intros line rest E Hyes. rewrite E, Hyes. simpl.
  assert (Hmem : PyStr.mem name (confirmed_production w ++ [name]) = true).
  { apply mem_In, in_or_app. right. now left. }
  split; [exact Hmem|].
  intros calls cluster' args' timeout' quiet'. cbv zeta. intros Hname'.
  apply execute_confirmed_no_prompt with (name := name); [assumption|].
  apply run_calls_keeps_confirmed. exact Hmem.
Qed.

Lemma production_confirmation_witness :
  fst (execute_argocd_command
         (Demo.host_of [] (fun _ => Completed 0 "[]" ""))
         "Prod-East" ["app"; "list"] 30 false
         (Demo.world_of [("Prod-East", "argocd login svc --sso")] ["n"]))
  = Raise user_aborted.
Proof.
  refine (proj1 (proj1 (proj2 (proj2 (proj2 (proj2
            (production_confirmation
               (Demo.host_of [] (fun _ => Completed 0 "[]" ""))
               "Prod-East" ["app"; "list"] 30 false
               (Demo.world_of [("Prod-East", "argocd login svc --sso")] ["n"])
               "Prod-East" _ _ _))))) "n" [] _ _)).
  - reflexivity.
  - reflexivity.
  - reflexivity.
  - reflexivity.
  - reflexivity.
Defined.

(** *** Traces that only grow *)

Lemma extends_by_refl (allowed : event -> bool) (w : World) :
  extends_by allowed w w.
Proof. exists []. split; [now rewrite app_nil_r | reflexivity]. Qed.

Lemma extends_by_trans (allowed : event -> bool) (a b c : World) :
  extends_by allowed a b -> extends_by allowed b c -> extends_by allowed a c.
Proof.
  intros [d1 [E1 F1]] [d2 [E2 F2]]. exists (d1 ++ d2). split.
  - rewrite E2, E1, app_assoc. reflexivity.
  - rewrite forallb_app, F1, F2. reflexivity.
Qed.

Lemma extends_by_emit (allowed : event -> bool) (w : World) (e : event) :
  allowed e = true -> extends_by allowed w (after e w).
Proof.
  intros He. exists [e]. split; [reflexivity|]. simpl. now rewrite He.
Qed.

Lemma extends_by_stdin (allowed : event -> bool) (w : World)
    (i : list string) :
  extends_by allowed w (set_stdin i w).
Proof. exists []. split; [simpl; now rewrite app_nil_r | reflexivity]. Qed.

Lemma extends_by_confirm (allowed : event -> bool) (w : World) (n : string) :
  extends_by allowed w (set_confirmed (confirmed_production w ++ [n]) w).
Proof. exists []. split; [simpl; now rewrite app_nil_r | reflexivity]. Qed.

Lemma count_extends (allowed p : event -> bool) (w w' : World) :
  (forall e, allowed e = true -> p e = false) ->
  extends_by allowed w w' -> count p (trace w') = count p (trace w).
Proof.
  intros Hp [delta [E F]]. rewrite E, count_app.
  rewrite (count_none p delta); [lia|].
  rewrite forallb_forall in *. intros e He.
  rewrite (Hp e (F e He)). reflexivity.
Qed.

(** The executor records its call and then adds no further call record. *)
Lemma execute_trace (host : Host) (cluster : string) (args : list string)
    (timeout : Z) (quiet : bool) (w : World) :
  exists tail,
    trace (snd (execute_argocd_command host cluster args timeout quiet w))
    = trace w ++ EvExecute cluster args timeout :: tail
    /\ forallb no_execute tail = true
    /\ forallb no_sleep tail = true.
Proof.
  pose proof (stable_execute_body host
                (extends_by (fun e => no_execute e && no_sleep e))
                (fun e => no_execute e && no_sleep e)
                (extends_by_refl _) (extends_by_trans _)
                (extends_by_emit _) (extends_by_stdin _)
                (extends_by_confirm _)
                (fun _ => eq_refl) (fun _ => eq_refl) (fun _ => eq_refl)
                (fun _ _ => eq_refl)
                cluster args timeout quiet w) as [tail [E F]].
  exists tail. split.
  - rewrite E. simpl. rewrite <- app_assoc. reflexivity.
  - rewrite forallb_forall in F. split; apply forallb_forall; intros e He;
      specialize (F e He); apply andb_true_iff in F; apply F.
Qed.

Lemma execute_count_calls (host : Host) (cluster : string)
    (args : list string) (timeout : Z) (quiet : bool) (w : World) (T : Z) :
  count (is_execute_with T)
    (trace (snd (execute_argocd_command host cluster args timeout quiet w)))
  = count (is_execute_with T) (trace w)
    + (if (timeout =? T)%Z then 1 else 0).
Proof.
  destruct (execute_trace host cluster args timeout quiet w)
    as [tail [E [F _]]].
  rewrite E, count_app. f_equal.
  unfold count. simpl filter.
  assert (Hnone : filter (is_execute_with T) tail = []).
  { clear E. induction tail as [|e tail IH]; [reflexivity|].
    simpl in F. apply andb_true_iff in F. destruct F as [F1 F2].
    simpl. destruct e; simpl in *; try discriminate; auto. }
  rewrite Hnone. destruct (timeout =? T)%Z; reflexivity.
Qed.

Lemma execute_count_delays (host : Host) (cluster : string)
    (args : list string) (timeout : Z) (quiet : bool) (w : World) :
  count is_delay
    (trace (snd (execute_argocd_command host cluster args timeout quiet w)))
  = count is_delay (trace w).
Proof.
  destruct (execute_trace host cluster args timeout quiet w)
    as [tail [E [_ F]]].
  rewrite E, count_app.
  change (count is_delay (EvExecute cluster args timeout :: tail))
    with (count is_delay tail).
  rewrite (count_none is_delay tail); [lia|].
  rewrite forallb_forall in *. intros e He. specialize (F e He).
  destruct e; simpl in *; congruence.
Qed.

(** *** Settings that no operation changes *)

Lemma execute_same_settings (host : Host) (cluster : string)
    (args : list string) (timeout : Z) (quiet : bool) (w : World) :
  same_settings w
    (snd (execute_argocd_command host cluster args timeout quiet w)).
Proof.
  apply (stable_execute host same_settings (fun _ => true)).
  - intros ?. repeat split.
  - intros a b c [A1 [A2 A3]] [B1 [B2 B3]]. repeat split; congruence.
  - intros ? ? _. repeat split.
  - intros ? ?. repeat split.
  - intros ? ?. repeat split.
  - reflexivity.
  - reflexivity.
  - reflexivity.
  - reflexivity.
  - reflexivity.
Qed.

(** ** SessionGuard: the login-recovery cycle *)

Lemma after_all_trace (es : list event) (w : World) :
  trace (after_all es w) = trace w ++ es
  /\ config (after_all es w) = config w
  /\ verbose (after_all es w) = verbose w
  /\ allow_patch (after_all es w) = allow_patch w
  /\ confirmed_production (after_all es w) = confirmed_production w
  /\ stdin (after_all es w) = stdin w.
Proof.
  revert w. induction es as [|e es IH]; intros w; simpl.
  - rewrite app_nil_r. repeat split.
  - destruct (IH (after e w)) as [H1 [H2 [H3 [H4 [H5 H6]]]]].
    unfold after_all in *. simpl in *. rewrite H1, H2, H3, H4, H5, H6.
    rewrite <- app_assoc. repeat split.
Qed.

(** One attempt of the poll loop. *)
Lemma poll_loop_cons (host : Host) (cluster : string) (quiet : bool)
    (n : nat) (rest : list nat) (w : World) :
  poll_loop host cluster quiet (n :: rest) w =
    match execute_argocd_command host cluster poll_cmd 5 quiet w with
    | (Ret _, w1) => (Ret true, poll_verified host cluster quiet (verbose w) w1)
    | (Raise (CommandExecutionError err), w1) =>
        if still_unauthenticated err
        then poll_loop host cluster quiet rest (after (EvSleep poll_delay) w1)
        else (Ret false, poll_rejected host quiet err w1)
    | (Raise e, w1) => (Raise e, w1)
    end.
Proof.
  cbn [poll_loop]. unfold bind at 1. unfold gets at 1.
  unfold bind at 1. unfold try_except. unfold bind at 1.
  fold poll_cmd.
  destruct (execute_argocd_command host cluster poll_cmd 5 quiet w)
    as [[out|e] w1].
  - unfold poll_verified, bind, when, ret, print, emit, confirm_production.
    destruct (negb quiet && negb (verbose w));
      destruct (looks_like_production cluster); reflexivity.
  - destruct e; try reflexivity.
    destruct (still_unauthenticated msg); [reflexivity|].
    unfold poll_rejected, bind, when, ret, print, emit, after.
    destruct quiet; reflexivity.
Qed.

Lemma poll_verified_trace (host : Host) (cluster : string) (quiet v : bool)
    (w : World) :
  exists notes,
    trace (poll_verified host cluster quiet v w) = trace w ++ notes
    /\ forallb is_note notes = true.
Proof.
  unfold poll_verified, bind, when, ret, print, emit, confirm_production.
  destruct (negb quiet && negb v); destruct (looks_like_production cluster);
    simpl;
    try (destruct (PyStr.mem cluster _); simpl);
    first [ exists []; split; [now rewrite app_nil_r | reflexivity]
          | eexists [_]; split; reflexivity ].
Qed.

Lemma poll_rejected_trace (host : Host) (quiet : bool) (err : string)
    (w : World) :
  exists notes,
    trace (poll_rejected host quiet err w) = trace w ++ notes
    /\ forallb is_note notes = true.
Proof.
  unfold poll_rejected. destruct quiet.
  - exists []. split; [now rewrite app_nil_r | reflexivity].
  - eexists [_]. split; reflexivity.
Qed.

Lemma count_with_notes (p : event -> bool) (tr notes : list event) :
  (forall e, is_note e = true -> p e = false) ->
  forallb is_note notes = true ->
  count p (tr ++ notes) = count p tr.
Proof.
  intros Hp Hn. rewrite count_app, (count_notes p notes Hp Hn). lia.
Qed.

Lemma polls_ignore_notes (e : event) :
  is_note e = true -> is_execute_with 5 e = false.
Proof. destruct e; simpl; congruence. Qed.

Lemma delays_ignore_notes (e : event) :
  is_note e = true -> is_delay e = false.
Proof. destruct e; simpl; congruence. Qed.

(** The loop polls at most once per attempt. *)
Lemma poll_loop_bound (host : Host) (cluster : string) (quiet : bool)
    (attempts : list nat) :
  forall w,
    count (is_execute_with 5)
      (trace (snd (poll_loop host cluster quiet attempts w)))
    <= count (is_execute_with 5) (trace w) + length attempts.
Proof.
  induction attempts as [|n rest IH]; intros w.
  - simpl. rewrite count_snoc. simpl. lia.
  - rewrite poll_loop_cons.
    pose proof (execute_count_calls host cluster poll_cmd 5 quiet w 5) as Hc.
    destruct (execute_argocd_command host cluster poll_cmd 5 quiet w)
      as [[out|e] w1]; simpl in Hc.
    + destruct (poll_verified_trace host cluster quiet (verbose w) w1)
        as [notes [E F]].
      simpl. rewrite E, (count_with_notes _ _ _ polls_ignore_notes F). lia.
    + destruct e; simpl; try lia.
      destruct (still_unauthenticated msg).
      * specialize (IH (after (EvSleep poll_delay) w1)).
        simpl in IH. rewrite count_snoc in IH. simpl in IH. lia.
      * destruct (poll_rejected_trace host quiet msg w1) as [notes [E F]].
        simpl. rewrite E, (count_with_notes _ _ _ polls_ignore_notes F). lia.
Qed.

(** While every poll fails as unauthenticated, the loop uses all its
    attempts, waits after each, and ends with the timeout notice. *)
Lemma poll_loop_exhausted (host : Host) (cluster : string) (quiet : bool)
    (cfg : list (string * string)) :
  (forall w, config w = cfg ->
     exists err,
       fst (execute_argocd_command host cluster poll_cmd 5 quiet w)
       = Raise (CommandExecutionError err)
       /\ still_unauthenticated err = true) ->
  forall attempts w, config w = cfg ->
    let r := poll_loop host cluster quiet attempts w in
    fst r = Ret false
    /\ count (is_execute_with 5) (trace (snd r))
       = count (is_execute_with 5) (trace w) + length attempts
    /\ count is_delay (trace (snd r))
       = count is_delay (trace w) + length attempts
    /\ exists pre, trace (snd r) = pre ++ [timeout_notice host cluster].
Proof.
  intros Hfail. induction attempts as [|n rest IH]; intros w Hcfg.
  - simpl. rewrite !count_snoc. simpl.
    repeat split; try lia. eexists. reflexivity.
  - cbv zeta. rewrite poll_loop_cons.
    destruct (Hfail w Hcfg) as [err [Herr Hun]].
    pose proof (execute_count_calls host cluster poll_cmd 5 quiet w 5) as Hc.
    pose proof (execute_count_delays host cluster poll_cmd 5 quiet w) as Hd.
    pose proof (execute_same_settings host cluster poll_cmd 5 quiet w)
      as [Hs _].
    destruct (execute_argocd_command host cluster poll_cmd 5 quiet w)
      as [r w1]; simpl in *. subst r. rewrite Hun.
    destruct (IH (after (EvSleep poll_delay) w1)) as [H1 [H2 [H3 H4]]].
    { simpl. congruence. }
    split; [exact H1|]. split; [|split; [|exact H4]].
    + rewrite H2. simpl. rewrite count_snoc. simpl. lia.
    + rewrite H3. simpl. rewrite count_snoc. simpl. lia.
Qed.

(** The same under any condition on the world that a failed poll and the
    wait after it keep: the confirmation of a production cluster, for one. *)
Lemma poll_loop_exhausted_while (host : Host) (cluster : string)
    (quiet : bool) (holds : World -> Prop) :
  (forall w, holds w ->
     exists err,
       fst (execute_argocd_command host cluster poll_cmd 5 quiet w)
       = Raise (CommandExecutionError err)
       /\ still_unauthenticated err = true
       /\ holds (after (EvSleep poll_delay)
                   (snd (execute_argocd_command host cluster poll_cmd 5 quiet
                           w)))) ->
  forall attempts w, holds w ->
    let r := poll_loop host cluster quiet attempts w in
    fst r = Ret false
    /\ count (is_execute_with 5) (trace (snd r))
       = count (is_execute_with 5) (trace w) + length attempts
    /\ count is_delay (trace (snd r))
       = count is_delay (trace w) + length attempts
    /\ exists pre, trace (snd r) = pre ++ [timeout_notice host cluster].
Proof.
  intros Hfail. induction attempts as [|n rest IH]; intros w Hw.
  - simpl. rewrite !count_snoc. simpl.
    repeat split; try lia. eexists. reflexivity.
  - cbv zeta. rewrite poll_loop_cons.
    destruct (Hfail w Hw) as [err [Herr [Hun Hnext]]].
    pose proof (execute_count_calls host cluster poll_cmd 5 quiet w 5) as Hc.
    pose proof (execute_count_delays host cluster poll_cmd 5 quiet w) as Hd.
    destruct (execute_argocd_command host cluster poll_cmd 5 quiet w)
      as [r w1]; simpl in *. subst r. rewrite Hun.
    destruct (IH (after (EvSleep poll_delay) w1) Hnext) as [H1 [H2 [H3 H4]]].
    split; [exact H1|]. split; [|split; [|exact H4]].
    + rewrite H2. simpl. rewrite count_snoc. simpl. lia.
    + rewrite H3. simpl. rewrite count_snoc. simpl. lia.
Qed.

Arguments poll_loop : simpl never.
Arguments execute_argocd_command : simpl never.

(** The login-recovery cycle, stage by stage. *)
Lemma login_eq (host : Host) (cluster : string) (quiet : bool) (w : World) :
  _handle_oidc_login host cluster quiet w =
    match Dict.get cluster (config w) with
    | None => (Ret false, after (no_login_notice host cluster) w)
    | Some login_cmd =>
        if negb (PyStr.truthy login_cmd)
        then (Ret false, after (no_login_notice host cluster) w)
        else
          let w1 := after_all (login_notice host cluster login_cmd quiet
                                 (verbose w)) w in
          match shlex_split host login_cmd with
          | None => (Raise (OtherError "ValueError" "No closing quotation"), w1)
          | Some parts =>
              let w2 := after (EvRun parts None)
                          (after_all (login_announce host quiet (verbose w))
                             w1) in
              match subprocess_run host (trace w2) with
              | Completed rc out err =>
                  poll_loop host cluster quiet (seq 0 poll_attempts)
                    (after_all (login_output host quiet (verbose w) out err) w2)
              | TimedOut =>
                  (Ret false,
                   after (login_failed_notice host (exn_str TimeoutExpired)) w2)
              | LaunchError _ msg =>
                  (Ret false, after (login_failed_notice host msg) w2)
              end
          end
    end.
Proof.
  destruct w as [cfg vb ap conf inp tr].
  unfold _handle_oidc_login, bind, gets. cbn [config verbose].
  destruct (Dict.get cluster cfg) as [login_cmd|]; [|reflexivity].
  destruct (negb (PyStr.truthy login_cmd)); [reflexivity|].
  unfold login_notice, login_announce, login_output, login_failed_notice,
    try_except, run_subprocess, bind, when, ret, raise, print, emit, after,
    after_all.
  destruct (shlex_split host login_cmd) as [parts|];
    destruct quiet, vb; cbn; try reflexivity;
    match goal with
    | |- context [subprocess_run host ?t] =>
        destruct (subprocess_run host t) as [rc out err| |n m]
    end; cbn; try reflexivity;
    destruct (PyStr.truthy out), (PyStr.truthy err); reflexivity.
Qed.

Lemma login_notes (host : Host) (cluster login_cmd : string) (quiet v : bool)
    (out err : string) :
  forallb is_note (login_notice host cluster login_cmd quiet v) = true
  /\ forallb is_note (login_announce host quiet v) = true
  /\ forallb is_note (login_output host quiet v out err) = true.
Proof.
  unfold login_notice, login_announce, login_output.
  destruct quiet, v, (PyStr.truthy out), (PyStr.truthy err); repeat split.
Qed.

(** The poll loop only adds to the trace. *)
Lemma poll_loop_extends (host : Host) (cluster : string) (quiet : bool)
    (attempts : list nat) (w : World) :
  exists rest,
    trace (snd (poll_loop host cluster quiet attempts w)) = trace w ++ rest.
Proof.
  destruct (stable_poll_loop host (extends_by (fun _ => true)) (fun _ => true)
              (extends_by_refl _) (extends_by_trans _) (extends_by_emit _)
              (extends_by_stdin _) (extends_by_confirm _)
              (fun _ => eq_refl) (fun _ => eq_refl) (fun _ => eq_refl)
              (fun _ _ => eq_refl) (fun _ => eq_refl) (fun _ => eq_refl)
              cluster quiet attempts w) as [rest [E _]].
  exists rest. exact E.
Qed.

(** The cycle polls at most fifteen times. *)
Lemma login_poll_bound (host : Host) (cluster : string) (quiet : bool)
    (w : World) :
  count (is_execute_with 5)
    (trace (snd (_handle_oidc_login host cluster quiet w)))
  <= count (is_execute_with 5) (trace w) + poll_attempts.
Proof.
  rewrite login_eq.
  destruct (Dict.get cluster (config w)) as [login_cmd|];
    [|simpl; rewrite count_snoc; simpl; lia].
  destruct (negb (PyStr.truthy login_cmd));
    [simpl; rewrite count_snoc; simpl; lia|].
  cbv zeta.
  destruct (login_notes host cluster login_cmd quiet (verbose w)
              EmptyString EmptyString) as [N1 [N2 _]].
  set (w1 := after_all (login_notice host cluster login_cmd quiet (verbose w)) w).
  assert (H1 : count (is_execute_with 5) (trace w1)
               = count (is_execute_with 5) (trace w)).
  { subst w1. destruct (after_all_trace
                          (login_notice host cluster login_cmd quiet (verbose w))
                          w) as [E _].
    rewrite E. apply count_with_notes; [apply polls_ignore_notes | exact N1]. }
  destruct (shlex_split host login_cmd) as [parts|]; [|simpl; lia].
  set (w2 := after (EvRun parts None)
               (after_all (login_announce host quiet (verbose w)) w1)).
  assert (H2 : count (is_execute_with 5) (trace w2)
               = count (is_execute_with 5) (trace w)).
  { subst w2. simpl. rewrite count_snoc. simpl.
    destruct (after_all_trace (login_announce host quiet (verbose w)) w1)
      as [E _].
    rewrite E, (count_with_notes _ _ _ polls_ignore_notes N2). lia. }
  clearbody w2.
  destruct (subprocess_run host (trace w2)) as [rc out err| |n m].
  - destruct (login_notes host cluster login_cmd quiet (verbose w) out err)
      as [_ [_ N3]].
    pose proof (poll_loop_bound host cluster quiet (seq 0 poll_attempts)
                  (after_all (login_output host quiet (verbose w) out err) w2))
      as Hb.
    rewrite length_seq in Hb.
    destruct (after_all_trace (login_output host quiet (verbose w) out err) w2)
      as [E _].
    rewrite E, (count_with_notes _ _ _ polls_ignore_notes N3) in Hb. lia.
  - simpl. rewrite count_snoc. simpl. lia.
  - simpl. rewrite count_snoc. simpl. lia.
Qed.

(** X27 (manager.py, _handle_oidc_login, lines 242-281).  What the
    polling of the login-recovery cycle does.  The cycle launches the
    stored login command as a process of its own and then polls with the
    executor (a project listing with a timeout of 5 seconds), at most 15
    times; a poll that returns ends the cycle with true; after a failed
    poll it waits 2 seconds and goes on to the next attempt exactly when
    [still_unauthenticated] holds of the failure's message; on any other
    failure it stops at once and answers false; when all 15 polls fail
    that way, under any condition on the world that such a poll and the
    wait keep, it has waited 15 times, prints the timeout notice and
    answers false. *)
Theorem login_recovery_polling (host : Host) (cluster : string)
    (quiet : bool) (w : World) :
  let polls tr := count (is_execute_with 5) tr in
  (forall login_cmd parts,
     Dict.get cluster (config w) = Some login_cmd ->
     PyStr.truthy login_cmd = true ->
     shlex_split host login_cmd = Some parts ->
     let started :=
       after (EvRun parts None)
         (after_all (login_announce host quiet (verbose w))
            (after_all (login_notice host cluster login_cmd quiet (verbose w))
               w)) in
     (exists rest,
        trace (snd (_handle_oidc_login host cluster quiet w))
        = trace started ++ rest)
     /\ polls (trace started) = polls (trace w)
     /\ forall rc out err,
          subprocess_run host (trace started) = Completed rc out err ->
          _handle_oidc_login host cluster quiet w
          = poll_loop host cluster quiet (seq 0 15)
              (after_all (login_output host quiet (verbose w) out err) started))
  /\ (forall n rest w1,
        let attempt := execute_argocd_command host cluster poll_cmd 5 quiet w1 in
        let r := poll_loop host cluster quiet (n :: rest) w1 in
        (forall out, fst attempt = Ret out ->
           fst r = Ret true /\ polls (trace (snd r)) = polls (trace w1) + 1)
        /\ (forall err,
              fst attempt = Raise (CommandExecutionError err) ->
              still_unauthenticated err = true ->
              r = poll_loop host cluster quiet rest
                    (after (EvSleep 2) (snd attempt)))
        /\ (forall err,
              fst attempt = Raise (CommandExecutionError err) ->
              still_unauthenticated err = false ->
              fst r = Ret false
              /\ polls (trace (snd r)) = polls (trace w1) + 1
              /\ count is_delay (trace (snd r)) = count is_delay (trace w1)))
  /\ polls (trace (snd (_handle_oidc_login host cluster quiet w)))
     <= polls (trace w) + 15
  /\ (forall holds : World -> Prop,
        (forall w1, holds w1 ->
           exists err,
             fst (execute_argocd_command host cluster poll_cmd 5 quiet w1)
             = Raise (CommandExecutionError err)
             /\ still_unauthenticated err = true
             /\ holds (after (EvSleep 2)
                         (snd (execute_argocd_command host cluster poll_cmd 5
                                 quiet w1)))) ->
        forall w1, holds w1 ->
        let r := poll_loop host cluster quiet (seq 0 15) w1 in
        fst r = Ret false
        /\ polls (trace (snd r)) = polls (trace w1) + 15
        /\ count is_delay (trace (snd r)) = count is_delay (trace w1) + 15
        /\ exists pre, trace (snd r) = pre ++ [timeout_notice host cluster]).
Proof.
  intros polls. subst polls. cbv beta.
  split.
  { intros login_cmd parts Hget Htruthy Hsplit started.
    pose proof (login_eq host cluster quiet w) as Heq.
    rewrite Hget, Htruthy, Hsplit in Heq. cbn [negb] in Heq. cbv zeta in Heq.
    fold started in Heq.
    destruct (login_notes host cluster login_cmd quiet (verbose w)
                EmptyString EmptyString) as [N1 [N2 _]].
    split; [|split].
    - rewrite Heq.
      destruct (subprocess_run host (trace started)) as [rc out err| |n m].
      + destruct (poll_loop_extends host cluster quiet (seq 0 poll_attempts)
                    (after_all (login_output host quiet (verbose w) out err)
                       started)) as [rest E].
        destruct (after_all_trace
                    (login_output host quiet (verbose w) out err) started)
          as [E' _].
        rewrite E, E', <- app_assoc. eexists. reflexivity.
      + eexists. reflexivity.
      + eexists. reflexivity.
    - subst started. simpl. rewrite count_snoc. simpl.
      destruct (after_all_trace (login_announce host quiet (verbose w))
                  (after_all (login_notice host cluster login_cmd quiet
                                (verbose w)) w)) as [E1 _].
      destruct (after_all_trace
                  (login_notice host cluster login_cmd quiet (verbose w)) w)
        as [E2 _].
      rewrite E1, E2.
      rewrite (count_with_notes _ _ _ polls_ignore_notes N2).
      rewrite (count_with_notes _ _ _ polls_ignore_notes N1). lia.
    - intros rc out err Hrun. rewrite Heq, Hrun. reflexivity. }
  split.
  { intros n rest w1 attempt r. subst attempt r.
    rewrite poll_loop_cons.
    pose proof (execute_count_calls host cluster poll_cmd 5 quiet w1 5) as Hc.
    pose proof (execute_count_delays host cluster poll_cmd 5 quiet w1) as Hd.
    destruct (execute_argocd_command host cluster poll_cmd 5 quiet w1)
      as [r1 w2]. simpl in Hc, Hd. simpl fst. simpl snd.
    split; [|split].
    - intros out E. subst r1. simpl.
      destruct (poll_verified_trace host cluster quiet (verbose w1) w2)
        as [notes [E F]].
      rewrite E, (count_with_notes _ _ _ polls_ignore_notes F).
      split; [reflexivity | lia].
    - intros err E Hun. subst r1. rewrite Hun. reflexivity.
    - intros err E Hun. subst r1. rewrite Hun. simpl.
      destruct (poll_rejected_trace host quiet err w2) as [notes [E F]].
      rewrite E, (count_with_notes _ _ _ polls_ignore_notes F).
      rewrite (count_with_notes _ _ _ delays_ignore_notes F).
      repeat split; lia. }
  split; [apply login_poll_bound|].
  intros holds Hfail w1 Hw1.
  apply (poll_loop_exhausted_while host cluster quiet holds Hfail
           (seq 0 15) w1 Hw1).
Qed.

(** C2, at a failing input.  Every [argocd] process exits 1 with the
    message "oauth2: invalid_grant".  The guarded operations take that
    message for an authentication failure and start the login-recovery
    cycle; the first poll of the cycle fails with the same message, which
    is in the set the claim names, and the cycle does not wait and poll
    again: it stops after that one poll, without a wait, and answers
    false. *)
Theorem poll_stops_on_invalid_grant :
  let host := Demo.host_of [] (fun _ => Completed 1 "" "oauth2: invalid_grant") in
  let w := Demo.world_of [("c1", "argocd login svc --sso")] [] in
  let r := _handle_oidc_login host "c1" true w in
  let op := list_projects host "c1" w in
  fst (execute_argocd_command host "c1" poll_cmd 5 true w)
    = Raise (CommandExecutionError "oauth2: invalid_grant")
  /\ is_auth_error (PyStr.lower "oauth2: invalid_grant") = true
  /\ still_unauthenticated "oauth2: invalid_grant" = false
  /\ fst r = Ret false
  /\ count (is_execute_with 5) (trace (snd r)) = 1
  /\ count is_delay (trace (snd r)) = 0
  /\ fst op = Ret JNull
  /\ In (EvRun ["argocd"; "login"; "svc"; "--sso"] None) (trace (snd op))
  /\ count (is_execute_with 5) (trace (snd op)) = 1
  /\ count is_delay (trace (snd op)) = 0.
Proof.
  vm_compute. repeat split. do 6 right. now left.
Qed.

(** Fifteen polls of a confirmed production cluster that all fail as
    unauthenticated. *)
Lemma login_recovery_polling_witness :
  let host := Demo.host_of [] (fun _ => Completed 1 "" "Unauthenticated") in
  let w := set_confirmed ["prod-a"]
             (Demo.world_of [("prod-a", "argocd login svc --sso")] []) in
  let r := poll_loop host "prod-a" true (seq 0 15) w in
  fst r = Ret false
  /\ count (is_execute_with 5) (trace (snd r))
     = count (is_execute_with 5) (trace w) + 15
  /\ count is_delay (trace (snd r)) = count is_delay (trace w) + 15
  /\ exists pre, trace (snd r) = pre ++ [timeout_notice host "prod-a"].
Proof.
  intros host w.
  refine (proj2 (proj2 (proj2 (login_recovery_polling host "prod-a" true w)))
            (fun w1 => config w1 = config w
                       /\ confirmed_production w1 = ["prod-a"])
            _ w (conj eq_refl eq_refl)).
  intros w1 [Hcfg Hconf]. exists "Unauthenticated".
  destruct w1 as [cfg vb ap conf inp tr]. simpl in Hcfg, Hconf.
  subst cfg conf.
  split; [reflexivity|]. split; [reflexivity|]. split; reflexivity.
Defined.

(** ** SessionGuard: the guarded operations *)

Arguments _handle_oidc_login : simpl never.

(** The login-recovery cycle issues no executor call with another timeout
    than that of its polls. *)
Lemma login_keeps_calls (host : Host) (cluster : string) (quiet : bool)
    (T : Z) (w : World) :
  T <> 5%Z ->
  count (is_execute_with T)
    (trace (snd (_handle_oidc_login host cluster quiet w)))
  = count (is_execute_with T) (trace w).
Proof.
  intros HT.
  apply (count_extends (fun e => negb (is_execute_with T e))).
  - intros e He. now apply negb_true_iff in He.
  - apply (stable_login host (extends_by (fun e => negb (is_execute_with T e)))
             (fun e => negb (is_execute_with T e))
             (extends_by_refl _) (extends_by_trans _) (extends_by_emit _)
             (extends_by_stdin _) (extends_by_confirm _)
             (fun _ => eq_refl) (fun _ => eq_refl) (fun _ => eq_refl)
             (fun _ _ => eq_refl)).
    + intros c. cbn [is_execute_with].
      apply negb_true_iff, Z.eqb_neq. congruence.
    + reflexivity.
Qed.

Section Guarded.

Context {A : Type}.
Variable host : Host.
Variable cluster : string.
Variable cmd : list string.
Variable timeout : Z.
Variable quiet : bool.
Variable finish : string -> M A.
Variable report : string -> M unit.
Variable notice : string -> list event.
Variable failure exhausted : A.

Hypothesis timeout_not_poll : timeout <> 5%Z.
Hypothesis finish_keeps_calls :
  forall out w,
    count (is_execute_with timeout) (trace (snd (finish out w)))
    = count (is_execute_with timeout) (trace w).
Hypothesis finish_raises_no_failure :
  forall out w msg, fst (finish out w) <> Raise (CommandExecutionError msg).
Hypothesis report_eq :
  forall msg w, report msg w = (Ret tt, after_all (notice msg) w).
Hypothesis notice_notes : forall msg, forallb is_note (notice msg) = true.

Local Abbreviation calls tr := (count (is_execute_with timeout) tr).

Lemma calls_after_notice (msg : string) (w : World) :
  calls (trace (after_all (notice msg) w)) = calls (trace w).
Proof.
  destruct (after_all_trace (notice msg) w) as [E _]. rewrite E.
  apply count_with_notes; [|apply notice_notes].
  intros e He. destruct e; simpl in *; congruence.
Qed.

Lemma calls_after_execute (w : World) :
  calls (trace (snd (execute_argocd_command host cluster cmd timeout quiet w)))
  = calls (trace w) + 1.
Proof.
  rewrite execute_count_calls, Z.eqb_refl. reflexivity.
Qed.

(** One attempt of the shared loop. *)
Lemma guarded_cons (attempt : nat) (rest : list nat) (w : World) :
  guarded host cluster cmd timeout quiet finish report failure exhausted
    (attempt :: rest) w =
    match execute_argocd_command host cluster cmd timeout quiet w with
    | (Ret out, w1) => finish out w1
    | (Raise (CommandExecutionError msg), w1) =>
        if is_auth_error (PyStr.lower msg) && (attempt =? 0) then
          match _handle_oidc_login host cluster quiet w1 with
          | (Ret true, wl) =>
              guarded host cluster cmd timeout quiet finish report failure
                exhausted rest wl
          | (Ret false, wl) => (Ret failure, after_all (notice msg) wl)
          | (Raise e, wl) => (Raise e, wl)
          end
        else (Ret failure, after_all (notice msg) w1)
    | (Raise e, w1) => (Raise e, w1)
    end.
Proof.
  cbn [guarded]. unfold bind at 1. unfold try_except. unfold bind at 1.
  destruct (execute_argocd_command host cluster cmd timeout quiet w)
    as [[out|e] w1].
  - unfold bind. pose proof (finish_raises_no_failure out w1) as Hn.
    destruct (finish out w1) as [[v|e] w2]; [reflexivity|].
    destruct e; try reflexivity. exfalso. eapply Hn. reflexivity.
  - destruct e; try reflexivity.
    destruct (is_auth_error (PyStr.lower msg) && (attempt =? 0)).
    + unfold bind.
      destruct (_handle_oidc_login host cluster quiet w1) as [[[|]|e] wl];
        try reflexivity.
      rewrite report_eq. reflexivity.
    + unfold bind, ret. rewrite report_eq. reflexivity.
Qed.

(** The last attempt: no retry whatever the failure. *)
Lemma guarded_last (attempt : nat) (w : World) :
  attempt <> 0 ->
  let call := execute_argocd_command host cluster cmd timeout quiet w in
  let r := guarded host cluster cmd timeout quiet finish report failure
             exhausted [attempt] w in
  calls (trace (snd r)) = calls (trace w) + 1
  /\ forall msg, fst call = Raise (CommandExecutionError msg) ->
       r = (Ret failure, after_all (notice msg) (snd call)).
Proof.
  intros Hat. cbv zeta. rewrite guarded_cons.
  pose proof (calls_after_execute w) as Hc.
  apply Nat.eqb_neq in Hat. rewrite Hat.
  destruct (execute_argocd_command host cluster cmd timeout quiet w)
    as [[out|e] w1]; cbn [fst snd] in *.
  - rewrite finish_keeps_calls. split; [lia | discriminate].
  - destruct e; cbn [fst snd]; try (split; [lia | discriminate]).
    rewrite andb_false_r. cbn [fst snd]. rewrite calls_after_notice.
    split; [lia|]. intros msg' E. inversion E; subst. reflexivity.
Qed.

(** The contract of the shared loop, run for its two attempts. *)
Lemma guarded_retries_once :
  retries_once host cluster cmd timeout quiet
    (guarded host cluster cmd timeout quiet finish report failure exhausted
       (seq 0 2))
    failure notice.
Proof.
  intros w. cbv beta zeta.
  change (seq 0 2) with [0; 1]. rewrite guarded_cons.
  pose proof (calls_after_execute w) as Hc.
  change (0 =? 0) with true.
  destruct (execute_argocd_command host cluster cmd timeout quiet w)
    as [[out|e] w1]; cbn [fst snd] in *.
  - (* the first attempt succeeds *)
    rewrite finish_keeps_calls.
    split; [lia|]. split; [lia|]. split.
    { split; [lia | intros [msg [E _]]; discriminate]. }
    split; intros; discriminate.
  - destruct e;
      try (cbn [fst snd]; split; [lia|]; split; [lia|]; split;
           [split; [lia | intros [m [E _]]; discriminate]|];
           split; intros; discriminate).
    (* the first attempt fails with a message *)
    rewrite andb_true_r.
    destruct (is_auth_error (PyStr.lower msg)) eqn:Hauth.
    + (* an authentication failure: the cycle decides *)
      pose proof (login_keeps_calls host cluster quiet timeout w1
                    timeout_not_poll) as Hl.
      destruct (_handle_oidc_login host cluster quiet w1)
        as [[[|]|e] wl]; cbn [fst snd] in *.
      * (* retry *)
        destruct (guarded_last 1 wl (Nat.neq_succ_0 0)) as [Hn Hlast].
        cbv zeta in Hn, Hlast.
        split; [lia|]. split; [lia|]. split.
        { split; [intros _; exists msg; auto | intros _; lia]. }
        split.
        { intros msg0 E Hno. inversion E; subst. congruence. }
        intros msg0 msg' E _ _ E2. apply Hlast. exact E2.
      * (* the cycle gave up *)
        rewrite calls_after_notice.
        split; [lia|]. split; [lia|]. split.
        { split; [lia | intros [m [_ [_ E]]]; discriminate]. }
        split.
        { intros msg0 E Hno. inversion E; subst. congruence. }
        intros msg0 msg' _ _ E. discriminate.
      * (* the cycle raised *)
        split; [lia|]. split; [lia|]. split.
        { split; [lia | intros [m [_ [_ E]]]; discriminate]. }
        split.
        { intros msg0 E Hno. inversion E; subst. congruence. }
        intros msg0 msg' _ _ E. discriminate.
    + (* another failure: reported at once *)
      cbn [fst snd]. rewrite calls_after_notice.
      split; [lia|]. split; [lia|]. split.
      { split; [lia | intros [m [E [Hm _]]]; inversion E; subst; congruence]. }
      split.
      { intros msg0 E _. inversion E; subst. reflexivity. }
      intros msg0 msg' E Hm. inversion E; subst. congruence.
Qed.

End Guarded.

Lemma bind_ext {A B} (m m' : M A) (k k' : A -> M B) :
  (forall w, m w = m' w) -> (forall a w, k a w = k' a w) ->
  forall w, bind m k w = bind m' k' w.
Proof.
  intros Hm Hk w. unfold bind. rewrite Hm.
  destruct (m' w) as [[a|e] w1]; [apply Hk | reflexivity].
Qed.

Lemma try_except_ext {A} (m m' : M A) (h h' : exn -> option (M A)) :
  (forall w, m w = m' w) ->
  (forall e, match h e, h' e with
             | Some k, Some k' => forall w, k w = k' w
             | None, None => True
             | _, _ => False
             end) ->
  forall w, try_except m h w = try_except m' h' w.
Proof.
  intros Hm Hh w. unfold try_except. rewrite Hm.
  destruct (m' w) as [[a|e] w1]; [reflexivity|].
  specialize (Hh e). destruct (h e), (h' e); try contradiction;
    [apply Hh | reflexivity].
Qed.

Lemma retries_once_ext {A} (host : Host) (cluster : string)
    (cmd : list string) (timeout : Z) (quiet : bool) (op op' : M A)
    (failure : A) (notice : string -> list event) :
  (forall w, op w = op' w) ->
  retries_once host cluster cmd timeout quiet op' failure notice ->
  retries_once host cluster cmd timeout quiet op failure notice.
Proof. intros E H w. rewrite E. apply H. Qed.

Section GuardedOperations.

Variable host : Host.
Variable cluster : string.

Lemma report_failed_eq (label : string) (quiet : bool) (msg : string)
    (w : World) :
  report_failed host label quiet msg w
  = (Ret tt, after_all (failed_notice host label quiet msg) w).
Proof. unfold report_failed, failed_notice. destruct quiet; reflexivity. Qed.

Lemma failed_notice_notes (label : string) (quiet : bool) (msg : string) :
  forallb is_note (failed_notice host label quiet msg) = true.
Proof. unfold failed_notice. destruct quiet; reflexivity. Qed.

Lemma loads_or_none_pure (out : string) (w : World) :
  snd (loads_or_none host out w) = w
  /\ forall msg,
       fst (loads_or_none host out w) <> Raise (CommandExecutionError msg).
Proof.
  unfold loads_or_none.
  destruct (PyStr.truthy out); [|split; [reflexivity | discriminate]].
  destruct (json_loads host out); split; try reflexivity; discriminate.
Qed.

(** The handler of a guarded loop against that of the shared loop. *)
Ltac guard_handler :=
  intros e; destruct e; try exact I;
  intros ?; apply bind_ext;
  [ intros ?;
    match goal with
    | |- context [is_auth_error ?x] => destruct (is_auth_error x)
    end;
    match goal with
    | |- context [?n =? 0] => destruct (n =? 0)
    end; reflexivity
  | intros again ?; destruct again; reflexivity ].

Lemma list_projects_loop_guarded (attempts : list nat) :
  forall w,
    list_projects_loop host cluster attempts w
    = guarded host cluster ["proj"; "list"; "--output"; "json"] 30 false
        (loads_or_none host) (report_failed host "Failed: " false) JNull JNull
        attempts w.
Proof.
  induction attempts as [|n rest IH]; intros w; [reflexivity|].
  cbn [list_projects_loop guarded]. apply bind_ext.
  - apply try_except_ext; [reflexivity | guard_handler].
  - intros [v|] w'; [reflexivity | apply IH].
Qed.

Lemma list_applications_loop_guarded (cmd : list string)
    (attempts : list nat) :
  forall w,
    list_applications_loop host cluster cmd attempts w
    = guarded host cluster cmd 30 false
        (loads_or_none host) (report_failed host "Failed: " false) JNull JNull
        attempts w.
Proof.
  induction attempts as [|n rest IH]; intros w; [reflexivity|].
  cbn [list_applications_loop guarded]. apply bind_ext.
  - apply try_except_ext; [reflexivity | guard_handler].
  - intros [v|] w'; [reflexivity | apply IH].
Qed.

Lemma get_application_status_loop_guarded (app : string) (quiet : bool)
    (attempts : list nat) :
  forall w,
    _get_application_status_loop host cluster app quiet attempts w
    = guarded host cluster ["app"; "get"; app; "--output"; "json"] 30 quiet
        (loads_or_none host) (report_failed host "Failed: " false) JNull JNull
        attempts w.
Proof.
  induction attempts as [|n rest IH]; intros w; [reflexivity|].
  cbn [_get_application_status_loop guarded]. apply bind_ext.
  - apply try_except_ext; [reflexivity | guard_handler].
  - intros [v|] w'; [reflexivity | apply IH].
Qed.

Lemma get_application_diff_loop_guarded (app : string) (quiet : bool)
    (attempts : list nat) :
  forall w,
    _get_application_diff_loop host cluster app quiet attempts w
    = guarded host cluster ["app"; "diff"; app] 30 quiet
        (fun out => ret (Some out)) (report_failed host "Failed: " quiet) None None
        attempts w.
Proof.
  induction attempts as [|n rest IH]; intros w; [reflexivity|].
  cbn [_get_application_diff_loop guarded]. apply bind_ext.
  - apply try_except_ext.
    + intros w'. apply bind_ext; reflexivity.
    + guard_handler.
  - intros [v|] w'; [reflexivity | apply IH].
Qed.

Lemma sync_application_loop_guarded (app : string) (cmd : list string)
    (attempts : list nat) :
  forall w,
    sync_application_loop host cluster app cmd attempts w
    = guarded host cluster cmd 300 false
        (sync_finish host app) (report_failed host "Failed to sync: " false)
        (Some false) None attempts w.
Proof.
  induction attempts as [|n rest IH]; intros w; [reflexivity|].
  cbn [sync_application_loop guarded]. apply bind_ext.
  - apply try_except_ext.
    + intros w'. apply bind_ext; [reflexivity|].
      intros out w''. unfold sync_finish, bind, print, emit, gets, when, ret.
      cbn [verbose set_trace].
      destruct (verbose w'' && PyStr.truthy out); reflexivity.
    + guard_handler.
  - intros [v|] w'; [reflexivity | apply IH].
Qed.

Lemma sync_finish_pure (app out : string) (w : World) (T : Z) :
  count (is_execute_with T) (trace (snd (sync_finish host app out w)))
  = count (is_execute_with T) (trace w)
  /\ forall msg, fst (sync_finish host app out w)
                 <> Raise (CommandExecutionError msg).
Proof.
  unfold sync_finish, bind, print, emit, gets, when, ret.
  cbn [verbose set_trace].
  destruct (verbose w && PyStr.truthy out); cbn [fst snd trace set_trace];
    rewrite ?count_snoc; cbn [is_execute_with];
    (split; [lia | discriminate]).
Qed.

End GuardedOperations.

(** C1.  Each guarded operation (list projects, list applications, get
    application status, get diff, sync) issues its executor call once or
    twice: a second time exactly when the first attempt fails with a message
    matching an authentication pattern and the login-recovery cycle then
    answers true; a first failure that matches no pattern is reported with
    no retry; a failure of the retried call is reported with no further
    retry.  A sync asks for confirmation first and then runs this loop, and
    a dry-run sync runs the guarded diff. *)
Theorem guarded_operations_retry_once (host : Host) (cluster : string) :
  retries_once host cluster ["proj"; "list"; "--output"; "json"] 30 false
    (list_projects host cluster) JNull (failed_notice host "Failed: " false)
  /\ (forall project,
        retries_once host cluster (list_applications_cmd project) 30 false
          (list_applications host cluster project) JNull
          (failed_notice host "Failed: " false))
  /\ (forall app,
        retries_once host cluster ["app"; "get"; app; "--output"; "json"] 30
          false (get_application_status host cluster app) JNull
          (failed_notice host "Failed: " false))
  /\ (forall app,
        retries_once host cluster ["app"; "diff"; app] 30 false
          (get_application_diff host cluster app) None
          (failed_notice host "Failed: " false))
  /\ (forall app prune,
        retries_once host cluster (sync_cmd app prune) 300 false
          (sync_application_loop host cluster app (sync_cmd app prune)
             (seq 0 2))
          (Some false) (failed_notice host "Failed to sync: " false))
  /\ (forall app prune w,
        sync_application host cluster app false prune w
        = match confirm_action host ("Sync '" +++ app +++ "'?") true None w with
          | (Ret true, w1) =>
              sync_application_loop host cluster app (sync_cmd app prune)
                (seq 0 2) w1
          | (Ret false, w1) =>
              (Ret (Some false), after (EvPrint "Cancelled") w1)
          | (Raise e, w1) => (Raise e, w1)
          end)
  /\ (forall app prune w,
        sync_application host cluster app true prune w
        = match get_application_diff host cluster app
                  (after (EvPrint (OKCYAN (colors host)
                                   +++ "DRY RUN: Would sync " +++ app
                                   +++ ENDC (colors host))) w) with
          | (Ret (Some d), w1) =>
              (Ret (Some true),
               if PyStr.truthy d then after (EvPrint d) w1 else w1)
          | (Ret None, w1) => (Ret (Some true), w1)
          | (Raise e, w1) => (Raise e, w1)
          end).
Proof.
  assert (Hloads : forall out w T,
            count (is_execute_with T) (trace (snd (loads_or_none host out w)))
            = count (is_execute_with T) (trace w)).
  { intros out w T. destruct (loads_or_none_pure host out w) as [E _].
    rewrite E. reflexivity. }
  assert (Hloads' : forall out w msg,
            fst (loads_or_none host out w)
            <> Raise (CommandExecutionError msg)).
  { intros out w. apply (loads_or_none_pure host out w). }
  split.
  { eapply retries_once_ext;
      [apply list_projects_loop_guarded|].
    apply guarded_retries_once;
      [discriminate | intros; apply Hloads | apply Hloads'
      | apply report_failed_eq | apply failed_notice_notes]. }
  split.
  { intros project. eapply retries_once_ext;
      [apply list_applications_loop_guarded|].
    apply guarded_retries_once;
      [discriminate | intros; apply Hloads | apply Hloads'
      | apply report_failed_eq | apply failed_notice_notes]. }
  split.
  { intros app. eapply retries_once_ext;
      [apply get_application_status_loop_guarded|].
    apply guarded_retries_once;
      [discriminate | intros; apply Hloads | apply Hloads'
      | apply report_failed_eq | apply failed_notice_notes]. }
  split.
  { intros app. eapply retries_once_ext;
      [apply get_application_diff_loop_guarded|].
    apply guarded_retries_once;
      [discriminate | reflexivity | discriminate
      | apply report_failed_eq | apply failed_notice_notes]. }
  split.
  { intros app prune. eapply retries_once_ext;
      [apply sync_application_loop_guarded|].
    apply guarded_retries_once;
      [discriminate
      | intros; apply sync_finish_pure
      | intros out w; apply (sync_finish_pure host app out w 300)
      | apply report_failed_eq | apply failed_notice_notes]. }
  split.
  { intros app prune w. unfold sync_application, bind.
    destruct (confirm_action host ("Sync '" +++ app +++ "'?") true None w)
      as [[[|]|e] w1]; reflexivity. }
  intros app prune w. unfold sync_application. unfold bind at 1.
  unfold print at 1, emit at 1. fold (after (EvPrint (OKCYAN (colors host)
    +++ "DRY RUN: Would sync " +++ app +++ ENDC (colors host))) w).
  unfold bind at 1.
  destruct (get_application_diff host cluster app _) as [[[d|]|e] w1];
    try reflexivity.
  unfold bind, when, print, emit, ret, after.
  destruct (PyStr.truthy d); reflexivity.
Qed.

Example recovery_scenario :
  let w := Demo.world_of [("c1", "argocd login svc.example.com --sso")] [] in
  let r := list_projects recovering_host "c1" w in
  fst r = Ret (JList [])
  /\ count (is_execute_with 30) (trace (snd r)) = 2
  /\ count (is_execute_with 5) (trace (snd r)) = 3
  /\ count is_delay (trace (snd r)) = 2
  /\ In (EvRun ["argocd"; "login"; "svc.example.com"; "--sso"] None)
        (trace (snd r)).
Proof. vm_compute. repeat split. do 6 right. now left. Qed.

Lemma guarded_operations_retry_once_witness :
  let w := Demo.world_of [("c1", "argocd login svc.example.com --sso")] [] in
  count (is_execute_with 30)
    (trace (snd (list_projects recovering_host "c1" w)))
  = count (is_execute_with 30) (trace w) + 2.
Proof.
  intros w.
  apply (proj1 (proj2 (proj2
           (proj1 (guarded_operations_retry_once recovering_host "c1") w)))).
  exists "rpc error: code = Unauthenticated".
  repeat split; reflexivity.
Defined.

(** ** RevisionMutator *)

Arguments resolve_target : simpl never.

(** When the primary command fails and the fallback is not enabled, the
    operation prints the failure and the hint, does nothing else and
    returns false. *)
Lemma primary_failure_without_fallback (host : Host)
    (cluster app revision : string) (repo : option string) (status : json)
    (idx : option Z) (w : World) (err : string) :
  let primary := execute_argocd_command host cluster
                   (set_cmd app revision repo idx) 30 false w in
  allow_patch w = false ->
  fst primary = Raise (CommandExecutionError err) ->
  apply_target host cluster app revision repo status idx false w
  = (Ret false, after_all (fallback_disabled_notice host err) (snd primary)).
Proof.
  intros primary Hallow Hfail. subst primary.
  pose proof (execute_same_settings host cluster
                (set_cmd app revision repo idx) 30 false w) as [_ [_ Hap]].
  unfold apply_target. unfold bind at 1. unfold try_except. unfold bind at 1.
  destruct (execute_argocd_command host cluster
              (set_cmd app revision repo idx) 30 false w) as [r w1].
  simpl in Hfail, Hap. subst r.
  unfold bind, print, emit, gets, ret, fallback_disabled_notice, after_all,
    after. cbn [allow_patch set_trace fold_left].
  rewrite Hap, Hallow. reflexivity.
Qed.

(** The argv of the first patch and of its retry: the retry replaces the
    element at position 3, which is the [patch] verb, and leaves the
    resource name at position 4 as it was. *)
Lemma patch_retry_argv (kube_ns app revision : string) (idx : option Z) :
  exists tail,
    patch_cmd kube_ns app revision idx
    = ["kubectl"; "-n"; kube_ns; "patch"; "applications.argoproj.io"; app]
      ++ tail
    /\ setitem 3 "applications" (patch_cmd kube_ns app revision idx)
       = Some (["kubectl"; "-n"; kube_ns; "applications";
                "applications.argoproj.io"; app] ++ tail)
    /\ expected_retry kube_ns app revision idx
       = Some (["kubectl"; "-n"; kube_ns; "patch"; "applications"; app]
               ++ tail).
Proof.
  unfold expected_retry, patch_cmd.
  destruct idx; eexists; repeat split.
Qed.

Arguments patch_cmd : simpl never.
Arguments setitem : simpl never.

(** The fallback, stage by stage, for a namespace that is a string: one
    patch, and after its failure exactly one more launch. *)
Lemma patch_fallback_eq (host : Host) (status metadata ns : json)
    (kube_ns app revision : string) (idx : option Z) (w : World) :
  PyVal.get status "metadata" (JDict []) = Ret metadata ->
  PyVal.get metadata "namespace" JNull = Ret ns ->
  (if PyVal.truthy ns then ns else JStr "argocd") = JStr kube_ns ->
  patch_fallback host status app revision idx w =
    let printed out w' :=
      if PyStr.truthy out then after (EvPrint out) w' else w' in
    let w1 := after (EvRun (patch_cmd kube_ns app revision idx) None) w in
    match subprocess_run host (trace w1) with
    | Completed rc out err =>
        if (rc =? 0)%Z then (Ret true, printed out w1)
        else
          match setitem 3 "applications"
                  (patch_cmd kube_ns app revision idx) with
          | None => (Raise (OtherError "IndexError"
                              "list assignment index out of range"), w1)
          | Some retry =>
              let w2 := after (EvRun retry None) w1 in
              match subprocess_run host (trace w2) with
              | Completed rc2 out2 err2 =>
                  if (rc2 =? 0)%Z then (Ret true, printed out2 w2)
                  else
                    (Ret false,
                     after (EvPrint (FAIL (colors host)
                                     +++ "kubectl patch failed: "
                                     +++ (if PyStr.truthy err then err else out)
                                     +++ ENDC (colors host))) w2)
              | TimedOut => (Raise TimeoutExpired, w2)
              | LaunchError n m => (Raise (OtherError n m), w2)
              end
          end
    | TimedOut => (Raise TimeoutExpired, w1)
    | LaunchError n m => (Raise (OtherError n m), w1)
    end.
Proof.
  intros Hmd Hns Hk.
  unfold patch_fallback. unfold bind at 1. unfold PyVal.lift at 1.
  rewrite Hmd. unfold bind at 1. unfold PyVal.lift at 1. rewrite Hns.
  unfold bind at 1. unfold or_else at 1.
  assert (Hor : (if PyVal.truthy ns then ret ns else ret (JStr "argocd")) w
                = (Ret (JStr kube_ns), w)).
  { destruct (PyVal.truthy ns); unfold ret; congruence. }
  rewrite Hor. clear Hor.
  unfold try_except, bind, ret, run_patch, run_subprocess, bind, emit, when,
    print, emit, after.
  cbn [trace set_trace].
  destruct (subprocess_run host (trace w ++ [EvRun _ None]))
    as [rc out err| |n m]; cbn; try reflexivity.
  destruct (rc =? 0)%Z; cbn.
  - destruct (PyStr.truthy out); reflexivity.
  - destruct (patch_retry_argv kube_ns app revision idx) as [tail [_ [E _]]].
    rewrite E. cbn.
    match goal with
    | |- context [subprocess_run host ?t] =>
        destruct (subprocess_run host t) as [rc2 out2 err2| |n m]
    end; cbn; try reflexivity.
    destruct (rc2 =? 0)%Z; cbn; [|reflexivity].
    destruct (PyStr.truthy out2); reflexivity.
Qed.

(** C5, at a failing input.  The fallback is enabled, [argocd app set] is
    refused and the first patch fails: the one further launch is not the
    patch against the alternate resource name; its argv has lost the
    [patch] verb and still names the resource as before. *)
Theorem patch_retry_drops_verb :
  let w := mkWorld [("c1", "argocd login svc.example.com --sso")]
                   false true [] [] [] in
  let r := set_application_target_revision refusing_host "c1" "web" "v2" None
             None false w in
  let patch_str := nth 9 (patch_cmd "argocd" "web" "v2" None) EmptyString in
  fst r = Ret false
  /\ count is_run (trace (snd r)) = 4
  /\ In (EvRun ["kubectl"; "-n"; "argocd"; "patch"; "applications.argoproj.io";
                "web"; "--type"; "merge"; "-p"; patch_str] None)
        (trace (snd r))
  /\ In (EvRun ["kubectl"; "-n"; "argocd"; "applications";
                "applications.argoproj.io"; "web"; "--type"; "merge"; "-p";
                patch_str] None)
        (trace (snd r))
  /\ expected_retry "argocd" "web" "v2" None
     = Some ["kubectl"; "-n"; "argocd"; "patch"; "applications"; "web";
             "--type"; "merge"; "-p"; patch_str]
  /\ ~ In (EvRun ["kubectl"; "-n"; "argocd"; "patch"; "applications"; "web";
                  "--type"; "merge"; "-p"; patch_str] None)
          (trace (snd r)).
Proof.
  vm_compute. repeat split.
  - do 7 right. now left.
  - do 8 right. now left.
  - intros H. repeat (destruct H as [H|H]; [discriminate H|]). exact H.
Qed.

Arguments PyStr.isdigit : simpl never.
Arguments PyStr.int : simpl never.

(** The chooser consumes one pending line per turn, so it never runs out
    of fuel: any two amounts above the number of pending lines give the
    same run. *)
Lemma choose_source_fuel (cluster : string) (n : nat) :
  forall fuel1 fuel2 w,
    length (stdin w) < fuel1 -> length (stdin w) < fuel2 ->
    choose_source fuel1 cluster n w = choose_source fuel2 cluster n w.
Proof.
  induction fuel1 as [|fuel1 IH]; intros fuel2 w H1 H2; [lia|].
  destruct fuel2 as [|fuel2]; [lia|].
  destruct w as [cfg vb ap conf inp tr]. cbn [stdin] in H1, H2.
  cbn [choose_source].
  unfold bind at 1. unfold try_except at 1. unfold bind at 1.
  unfold input at 1. unfold bind at 1. unfold emit at 1.
  symmetry.
  unfold bind at 1. unfold try_except at 1. unfold bind at 1.
  unfold input at 1. unfold bind at 1. unfold emit at 1.
  symmetry.
  cbn [stdin set_trace trace config verbose allow_patch confirmed_production].
  destruct inp as [|line rest]; [reflexivity|].
  cbn [set_stdin stdin set_trace trace config verbose allow_patch
       confirmed_production ret].
  destruct (negb (PyStr.truthy (PyStr.strip line))
            || PyStr.mem (PyStr.lower (PyStr.strip line))
                 ["s"; "skip"; "n"; "no"]); [reflexivity|].
  unfold bind at 1. symmetry. unfold bind at 1. symmetry.
  destruct (PyStr.isdigit (PyStr.strip line)).
  - destruct (PyStr.int (PyStr.strip line)) as [ci|]; [|reflexivity].
    unfold ret at 1. symmetry. unfold ret at 1. symmetry. cbv beta iota.
    destruct ((0 <=? ci)%Z && (ci <? Z.of_nat n)%Z); [reflexivity|].
    unfold bind, print, emit. cbn [set_trace trace].
    apply IH; cbn [stdin set_trace] in *; simpl in *; lia.
  - unfold ret at 1. symmetry. unfold ret at 1. symmetry. cbv beta iota.
    unfold bind, print, emit. cbn [set_trace trace].
    apply IH; cbn [stdin set_trace] in *; simpl in *; lia.
Qed.

(** ** Failures: what the operations let escape *)

(** A configured name resolves to itself, silently. *)
Lemma validate_cluster_exact (host : Host) (name : string) (w : World) :
  In name (Dict.keys (config w)) ->
  validate_cluster host name w = (Ret name, w).
Proof.
  intros Hin. rewrite validate_cluster_eq.
  apply mem_In in Hin. rewrite Hin. reflexivity.
Qed.

(** Name resolution fails only with the not-found error, and then leaves
    the world as it was. *)
Lemma validate_cluster_raise (host : Host) (query : string) (w w1 : World)
    (e : exn) :
  validate_cluster host query w = (Raise e, w1) ->
  e = not_found query /\ w1 = w.
Proof.
  rewrite validate_cluster_eq.
  destruct (PyStr.mem query (Dict.keys (config w))); [discriminate|].
  destruct (last_with_lower _ _ None); [discriminate|].
  destruct (fuzzy_match host query _ default_threshold) as [found|].
  - destruct (PyStr.truthy found); [discriminate|].
    intros H. inversion H. split; reflexivity.
  - intros H. inversion H. split; reflexivity.
Qed.

Lemma process_outcome_raise (login_cmd : string) (timeout : Z)
    (res : proc_result) (e : exn) :
  process_outcome login_cmd timeout res = Raise e ->
  exists msg, e = CommandExecutionError msg.
Proof.
  destruct res as [rc out err| |n m]; simpl.
  - destruct (rc =? 0)%Z; [discriminate|].
    destruct (PyStr.truthy (PyStr.strip out)); [discriminate|].
    intros H. inversion H. eauto.
  - intros H. inversion H. eauto.
  - intros H. inversion H. eauto.
Qed.

(** The executor fails with the not-found error of the resolution, the
    call record being all it leaves, or with its own error. *)
Lemma execute_raise_cases (host : Host) (cluster : string)
    (args : list string) (timeout : Z) (quiet : bool) (w w' : World)
    (e : exn) :
  execute_argocd_command host cluster args timeout quiet w = (Raise e, w') ->
  (e = not_found cluster /\ w' = after (EvExecute cluster args timeout) w)
  \/ exists msg, e = CommandExecutionError msg.
Proof.
  rewrite execute_eq.
  set (w0 := after (EvExecute cluster args timeout) w).
  destruct (validate_cluster_frame host cluster w0) as [_ Hkey].
  destruct (validate_cluster_config host cluster w0) as [Hcfg _].
  destruct (validate_cluster host cluster w0) as [[name|e0] w1] eqn:Hv.
  - cbn [fst snd] in Hkey, Hcfg.
    destruct (dict_get_in_keys name (config w0) (Hkey name eq_refl))
      as [login_cmd Hcmd].
    rewrite Hcfg, Hcmd. cbv zeta.
    destruct (production_gate host name _) as [[u|e1] w3].
    + intros H. inversion H as [[Ho Hw]]. right.
      eapply process_outcome_raise. exact Ho.
    + intros H. inversion H. right. eauto.
  - intros H. inversion H; subst. left.
    apply validate_cluster_raise in Hv. exact Hv.
Qed.

Lemma dict_get_some_in_keys {V} (k : string) (v : V) (d : list (string * V)) :
  Dict.get k d = Some v -> In k (Dict.keys d).
Proof.
  induction d as [|[k0 v0] d IH]; simpl; [discriminate|].
  destruct (String.eqb_spec k k0) as [E|N].
  - intros _. left. congruence.
  - intros H. right. auto.
Qed.

(** Called with a configured name, the executor fails only with its own
    error. *)
Lemma execute_configured_raise (host : Host) (cluster : string)
    (args : list string) (timeout : Z) (quiet : bool) (w w' : World)
    (e : exn) :
  In cluster (Dict.keys (config w)) ->
  execute_argocd_command host cluster args timeout quiet w = (Raise e, w') ->
  exists msg, e = CommandExecutionError msg.
Proof.
  intros Hin H.
  destruct (execute_raise_cases host cluster args timeout quiet w w' e H)
    as [[He Hw]|Hc]; [|exact Hc].
  exfalso. rewrite execute_eq in H.
  rewrite validate_cluster_exact in H by exact Hin.
  destruct (dict_get_in_keys cluster (config w) Hin) as [login_cmd Hcmd].
  change (config (after (EvExecute cluster args timeout) w)) with (config w)
    in H.
  rewrite Hcmd in H. cbv zeta in H.
  destruct (production_gate host cluster _) as [[u|e1] w3].
  - inversion H as [[Ho Hw']]. apply process_outcome_raise in Ho.
    destruct Ho as [msg Ho]. subst e. discriminate.
  - inversion H. subst e. discriminate.
Qed.

(** Against a configured cluster the poll loop always answers. *)
Lemma poll_loop_returns (host : Host) (cluster : string) (quiet : bool)
    (attempts : list nat) :
  forall w, In cluster (Dict.keys (config w)) ->
    exists b, fst (poll_loop host cluster quiet attempts w) = Ret b.
Proof.
  induction attempts as [|n rest IH]; intros w Hin.
  - exists false. reflexivity.
  - rewrite poll_loop_cons.
    pose proof (execute_configured_raise host cluster poll_cmd 5 quiet w) as Hr.
    pose proof (execute_same_settings host cluster poll_cmd 5 quiet w)
      as [Hcfg _].
    destruct (execute_argocd_command host cluster poll_cmd 5 quiet w)
      as [[out|e] w1].
    + exists true. reflexivity.
    + destruct (Hr w1 e Hin eq_refl) as [msg ->].
      destruct (still_unauthenticated msg).
      * apply IH. cbn [snd] in Hcfg. simpl. rewrite Hcfg. exact Hin.
      * exists false. reflexivity.
Qed.

(** The poll loop answers true only out of a poll that returned: the world
    it leaves is that of the poll, with the notice of the verification and
    the confirmation of a production cluster added. *)
Lemma poll_loop_succeeded (host : Host) (cluster : string) (quiet : bool)
    (attempts : list nat) :
  forall w,
    fst (poll_loop host cluster quiet attempts w) = Ret true ->
    exists w1 out w2 pre,
      config w1 = config w
      /\ trace w1 = trace w ++ pre
      /\ execute_argocd_command host cluster poll_cmd 5 quiet w1 = (Ret out, w2)
      /\ snd (poll_loop host cluster quiet attempts w)
         = poll_verified host cluster quiet (verbose w1) w2.
Proof.
  induction attempts as [|n rest IH]; intros w; [discriminate|].
  rewrite poll_loop_cons.
  pose proof (execute_same_settings host cluster poll_cmd 5 quiet w)
    as [Hcfg _].
  destruct (execute_trace host cluster poll_cmd 5 quiet w) as [tail [Htr _]].
  destruct (execute_argocd_command host cluster poll_cmd 5 quiet w)
    as [[out|e] w1] eqn:Hex; cbn [fst snd] in *.
  - intros _. exists w, out, w1, []. rewrite app_nil_r.
    repeat split; try reflexivity. exact Hex.
  - destruct e; try discriminate.
    destruct (still_unauthenticated msg); [|discriminate].
    intros H. destruct (IH _ H) as [w2 [out [w3 [pre [C [T [E S]]]]]]].
    exists w2, out, w3,
      ((EvExecute cluster poll_cmd 5 :: tail) ++ [EvSleep poll_delay] ++ pre).
    split; [rewrite C; exact Hcfg|]. split; [|split; assumption].
    rewrite T. cbn [after trace set_trace]. rewrite Htr, <- !app_assoc.
    reflexivity.
Qed.

(** The same for the whole cycle: the poll that returned was issued after
    the stored login command had been launched. *)
Lemma login_succeeded (host : Host) (cluster : string) (quiet : bool)
    (w : World) :
  fst (_handle_oidc_login host cluster quiet w) = Ret true ->
  exists login_cmd parts w1 out w2 pre,
    Dict.get cluster (config w) = Some login_cmd
    /\ PyStr.truthy login_cmd = true
    /\ shlex_split host login_cmd = Some parts
    /\ config w1 = config w
    /\ trace w1 = trace w ++ pre
    /\ In (EvRun parts None) pre
    /\ execute_argocd_command host cluster poll_cmd 5 quiet w1 = (Ret out, w2)
    /\ snd (_handle_oidc_login host cluster quiet w)
       = poll_verified host cluster quiet (verbose w1) w2.
Proof.
  rewrite login_eq.
  destruct (Dict.get cluster (config w)) as [login_cmd|]; [|discriminate].
  destruct (PyStr.truthy login_cmd) eqn:Ht; [|discriminate]. cbn [negb].
  cbv zeta.
  destruct (shlex_split host login_cmd) as [parts|] eqn:Hsplit;
    [|discriminate].
  destruct (after_all_trace (login_notice host cluster login_cmd quiet
                               (verbose w)) w) as [T1 [C1 _]].
  destruct (after_all_trace (login_announce host quiet (verbose w))
              (after_all (login_notice host cluster login_cmd quiet
                            (verbose w)) w)) as [T2 [C2 _]].
  set (w2 := after (EvRun parts None) _) in *.
  destruct (subprocess_run host (trace w2)) as [rc out err| |n m];
    try discriminate.
  destruct (after_all_trace (login_output host quiet (verbose w) out err) w2)
    as [T3 [C3 _]].
  intros H.
  destruct (poll_loop_succeeded host cluster quiet (seq 0 poll_attempts) _ H)
    as [w1 [o [w3 [pre [C [T [E S]]]]]]].
  exists login_cmd, parts, w1, o, w3.
  exists ((login_notice host cluster login_cmd quiet (verbose w)
           ++ login_announce host quiet (verbose w))
          ++ EvRun parts None
             :: login_output host quiet (verbose w) out err ++ pre).
  split; [reflexivity|]. split; [exact Ht|]. split; [exact Hsplit|].
  split.
  { rewrite C, C3. subst w2. cbn [config after set_trace]. now rewrite C2, C1. }
  split.
  { rewrite T, T3. subst w2. cbn [trace after set_trace]. rewrite T2, T1.
    rewrite <- !app_assoc. reflexivity. }
  split; [apply in_or_app; right; now left|].
  split; assumption.
Qed.

(** The login-recovery cycle raises only on a login command that cannot be
    split into words. *)
Lemma login_raise_cases (host : Host) (cluster : string) (quiet : bool)
    (w : World) (e : exn) :
  fst (_handle_oidc_login host cluster quiet w) = Raise e ->
  e = unbalanced_quotes.
Proof.
  rewrite login_eq.
  destruct (Dict.get cluster (config w)) as [login_cmd|] eqn:Hcmd;
    [|discriminate].
  destruct (negb (PyStr.truthy login_cmd)); [discriminate|].
  cbv zeta.
  destruct (after_all_trace (login_notice host cluster login_cmd quiet
                               (verbose w)) w) as [_ [C1 _]].
  destruct (shlex_split host login_cmd) as [parts|].
  - set (w2 := after (EvRun parts None) _).
    assert (Hin : forall out err,
              In cluster
                (Dict.keys (config (after_all (login_output host quiet
                                                 (verbose w) out err) w2)))).
    { intros out err.
      destruct (after_all_trace (login_output host quiet (verbose w) out err)
                  w2) as [_ [C2 _]].
      rewrite C2. subst w2. cbn [config after set_trace].
      destruct (after_all_trace (login_announce host quiet (verbose w))
                  (after_all (login_notice host cluster login_cmd quiet
                                (verbose w)) w)) as [_ [C3 _]].
      rewrite C3, C1. eapply dict_get_some_in_keys. exact Hcmd. }
    destruct (subprocess_run host (trace w2)) as [rc out err| |n m];
      try discriminate.
    destruct (poll_loop_returns host cluster quiet (seq 0 poll_attempts) _
                (Hin out err)) as [b Hb].
    rewrite Hb. discriminate.
  - intros H. inversion H. reflexivity.
Qed.

(** X1 (manager.py, _handle_oidc_login).  The login-recovery cycle raises
    only when the stored login command cannot be split into words, and then
    nothing has been launched; a login command that cannot be started or
    times out makes it print the failure and answer false without a poll;
    with a login command that splits, the cycle always answers, and it
    answers true only when one of its polls, issued after the launch,
    returned: a verification of which every poll fails, by a message or
    by a timeout, makes it answer false instead of raising. *)
Theorem login_failure_kinds (host : Host) (cluster : string) (quiet : bool)
    (w : World) :
  let r := _handle_oidc_login host cluster quiet w in
  (forall e,
     fst r = Raise e ->
     e = unbalanced_quotes
     /\ (exists login_cmd,
           Dict.get cluster (config w) = Some login_cmd
           /\ shlex_split host login_cmd = None)
     /\ count is_run (trace (snd r)) = count is_run (trace w))
  /\ (forall login_cmd parts,
        Dict.get cluster (config w) = Some login_cmd ->
        PyStr.truthy login_cmd = true ->
        shlex_split host login_cmd = Some parts ->
        let started :=
          after (EvRun parts None)
            (after_all (login_announce host quiet (verbose w))
               (after_all (login_notice host cluster login_cmd quiet
                             (verbose w)) w)) in
        (subprocess_run host (trace started) = TimedOut ->
         r = (Ret false,
              after (login_failed_notice host (exn_str TimeoutExpired))
                started))
        /\ (forall n msg,
              subprocess_run host (trace started) = LaunchError n msg ->
              r = (Ret false, after (login_failed_notice host msg) started))
        /\ (exists b, fst r = Ret b)
        /\ (fst r = Ret true ->
            exists w1 out w2 pre,
              config w1 = config w
              /\ trace w1 = trace w ++ pre
              /\ In (EvRun parts None) pre
              /\ execute_argocd_command host cluster poll_cmd 5 quiet w1
                 = (Ret out, w2))
        /\ ((forall w1,
               config w1 = config w ->
               exists e,
                 fst (execute_argocd_command host cluster poll_cmd 5 quiet w1)
                 = Raise e) ->
            fst r = Ret false)).
Proof.
  cbv zeta.
  assert (Hraise :
            forall e,
              fst (_handle_oidc_login host cluster quiet w) = Raise e ->
              e = unbalanced_quotes
              /\ (exists login_cmd,
                    Dict.get cluster (config w) = Some login_cmd
                    /\ shlex_split host login_cmd = None)
              /\ count is_run
                   (trace (snd (_handle_oidc_login host cluster quiet w)))
                 = count is_run (trace w)).
  2:{ split; [exact Hraise|].
      intros login_cmd parts Hcmd Ht Hsplit.
      assert (Hret : exists b,
                fst (_handle_oidc_login host cluster quiet w) = Ret b).
      { destruct (fst (_handle_oidc_login host cluster quiet w))
          as [b|e] eqn:Hr; [exists b; reflexivity|].
        destruct (Hraise e eq_refl) as [_ [[c [Hc Hs]] _]].
        rewrite Hcmd in Hc. inversion Hc; subst c. congruence. }
      assert (Hpoll :
                fst (_handle_oidc_login host cluster quiet w) = Ret true ->
                exists w1 out w2 pre,
                  config w1 = config w
                  /\ trace w1 = trace w ++ pre
                  /\ In (EvRun parts None) pre
                  /\ execute_argocd_command host cluster poll_cmd 5 quiet w1
                     = (Ret out, w2)).
      { intros Hr.
        destruct (login_succeeded host cluster quiet w Hr)
          as [c [p [w1 [out [w2 [pre [Hc [_ [Hs [C [T [Hin [E _]]]]]]]]]]]]].
        rewrite Hcmd in Hc. inversion Hc; subst c.
        rewrite Hsplit in Hs. inversion Hs; subst p.
        exists w1, out, w2, pre. repeat split; assumption. }
      split; [|split; [|split; [exact Hret|split; [exact Hpoll|]]]].
      - intros Hrun. rewrite login_eq, Hcmd, Ht, Hsplit. cbn [negb].
        cbv zeta. rewrite Hrun. reflexivity.
      - intros n msg Hrun. rewrite login_eq, Hcmd, Ht, Hsplit. cbn [negb].
        cbv zeta. rewrite Hrun. reflexivity.
      - intros Hfail. destruct Hret as [[|] Hb]; [|exact Hb].
        destruct (Hpoll Hb) as [w1 [out [w2 [pre [C [_ [_ E]]]]]]].
        destruct (Hfail w1 C) as [e He]. rewrite E in He. discriminate. }
  - intros e. rewrite login_eq.
    destruct (Dict.get cluster (config w)) as [login_cmd|] eqn:Hcmd;
      [|discriminate].
    destruct (negb (PyStr.truthy login_cmd)); [discriminate|].
    cbv zeta.
    destruct (login_notes host cluster login_cmd quiet (verbose w)
                EmptyString EmptyString) as [N1 [N2 _]].
    destruct (after_all_trace (login_notice host cluster login_cmd quiet
                                 (verbose w)) w) as [T1 [C1 _]].
    destruct (shlex_split host login_cmd) as [parts|] eqn:Hsplit.
    + set (w2 := after (EvRun parts None) _).
      assert (Hin : forall out err,
                In cluster
                  (Dict.keys (config (after_all (login_output host quiet
                                                   (verbose w) out err) w2)))).
      { intros out err.
        destruct (after_all_trace (login_output host quiet (verbose w) out err)
                    w2) as [_ [C2 _]].
        rewrite C2. subst w2. cbn [config after set_trace].
        destruct (after_all_trace (login_announce host quiet (verbose w))
                    (after_all (login_notice host cluster login_cmd quiet
                                  (verbose w)) w)) as [_ [C3 _]].
        rewrite C3, C1. eapply dict_get_some_in_keys. exact Hcmd. }
      destruct (subprocess_run host (trace w2)) as [rc out err| |n m];
        try discriminate.
      destruct (poll_loop_returns host cluster quiet (seq 0 poll_attempts) _
                  (Hin out err)) as [b Hb].
      rewrite Hb. discriminate.
    + intros H. inversion H. split; [reflexivity|].
      split; [exists login_cmd; split; [reflexivity | exact Hsplit]|].
      simpl. rewrite T1.
      apply count_with_notes; [|exact N1].
      intros ev Hev. destruct ev; simpl in *; congruence.
Qed.

(** A login command with an unclosed quote; then a production cluster
    whose every poll fails, at the gate or in the process. *)
Lemma login_failure_kinds_witness :
  let host := mkHost Demo.prefix_ratio (fun _ => None) (fun _ => None)
                (fun _ => "<value>") (fun _ => Completed 0 "" "")
                Demo.no_colors in
  let w := Demo.world_of [("c1", "argocd login 'svc")] [] in
  let failing :=
    Demo.host_of [] (fun _ => Completed 1 "" "connection refused") in
  let w' := Demo.world_of [("prod-a", "argocd login svc --sso")] [] in
  (fst (_handle_oidc_login host "c1" false w) = Raise unbalanced_quotes
   /\ unbalanced_quotes = unbalanced_quotes
   /\ (exists login_cmd,
         Dict.get "c1" (config w) = Some login_cmd
         /\ shlex_split host login_cmd = None)
   /\ count is_run (trace (snd (_handle_oidc_login host "c1" false w)))
      = count is_run (trace w))
  /\ fst (_handle_oidc_login failing "prod-a" true w') = Ret false.
Proof.
  intros host w failing w'. split.
  - split; [reflexivity|].
    apply (proj1 (login_failure_kinds host "c1" false w) unbalanced_quotes).
    reflexivity.
  - refine (proj2 (proj2 (proj2 (proj2
              (proj2 (login_failure_kinds failing "prod-a" true w')
                 "argocd login svc --sso"
                 ["argocd"; "login"; "svc"; "--sso"]
                 eq_refl eq_refl eq_refl)))) _).
    intros w1 Hcfg. destruct w1 as [cfg vb ap conf inp tr].
    cbn [config] in Hcfg. subst cfg.
    rewrite execute_eq, validate_cluster_exact by (now left).
    cbn [config after set_trace Dict.get].
    change (Dict.get "prod-a" (config w'))
      with (Some "argocd login svc --sso").
    cbv beta iota zeta. rewrite production_gate_eq.
    destruct (looks_like_production "prod-a" && _).
    + cbv zeta. cbn [stdin after set_trace].
      destruct inp as [|line rest]; [eexists; reflexivity|].
      destruct (says_yes line); eexists; reflexivity.
    + eexists; reflexivity.
Defined.

Section GuardedFailures.

Context {A : Type}.
Variable host : Host.
Variable cluster : string.
Variable cmd : list string.
Variable timeout : Z.
Variable quiet : bool.
Variable finish : string -> M A.
Variable report : string -> M unit.
Variable notice : string -> list event.
Variable failure exhausted : A.
Variable allowed : exn -> Prop.

Hypothesis finish_raises_no_failure :
  forall out w msg, fst (finish out w) <> Raise (CommandExecutionError msg).
Hypothesis report_eq :
  forall msg w, report msg w = (Ret tt, after_all (notice msg) w).
Hypothesis finish_allowed :
  forall out w e, fst (finish out w) = Raise e -> allowed e.
Hypothesis not_found_allowed : allowed (not_found cluster).
Hypothesis quotes_allowed : allowed unbalanced_quotes.

(** What escapes the shared loop: the not-found error of the executor, the
    error of the login cycle, and what [finish] raises. *)
Lemma guarded_raise (attempts : list nat) :
  forall w e,
    fst (guarded host cluster cmd timeout quiet finish report failure
           exhausted attempts w) = Raise e ->
    allowed e.
Proof.
  induction attempts as [|n rest IH]; intros w e; [discriminate|].
  rewrite (guarded_cons host cluster cmd timeout quiet finish report notice
             failure exhausted finish_raises_no_failure report_eq).
  pose proof (execute_raise_cases host cluster cmd timeout quiet w) as Hx.
  destruct (execute_argocd_command host cluster cmd timeout quiet w)
    as [[out|e0] w1].
  - apply finish_allowed.
  - destruct (Hx w1 e0 eq_refl) as [[He _]|[msg He]]; subst e0.
    + intros H. inversion H. exact not_found_allowed.
    + destruct (is_auth_error (PyStr.lower msg) && (n =? 0));
        [|discriminate].
      pose proof (login_raise_cases host cluster quiet w1) as Hl.
      destruct (_handle_oidc_login host cluster quiet w1) as [[[|]|e1] wl].
      * apply IH.
      * discriminate.
      * intros H. inversion H; subst.
        rewrite (Hl e eq_refl). exact quotes_allowed.
Qed.

End GuardedFailures.







(** ** A name that is not configured as given *)

Section Unlisted.

Context {A : Type}.
Variable host : Host.
Variable cluster : string.
Variable cmd : list string.
Variable timeout : Z.
Variable quiet : bool.
Variable finish : string -> M A.
Variable report : string -> M unit.
Variable notice : string -> list event.
Variable failure exhausted : A.

Hypothesis finish_raises_no_failure :
  forall out w msg, fst (finish out w) <> Raise (CommandExecutionError msg).
Hypothesis report_eq :
  forall msg w, report msg w = (Ret tt, after_all (notice msg) w).

(** The shared loop when the login cycle finds no login command. *)
Lemma guarded_unlisted (attempt : nat) (rest : list nat) (w : World) :
  Dict.get cluster (config w) = None ->
  guarded host cluster cmd timeout quiet finish report failure exhausted
    (attempt :: rest) w =
    match execute_argocd_command host cluster cmd timeout quiet w with
    | (Ret out, w1) => finish out w1
    | (Raise (CommandExecutionError msg), w1) =>
        (Ret failure,
         after_all (notice msg)
           (if is_auth_error (PyStr.lower msg) && (attempt =? 0)
            then after (no_login_notice host cluster) w1 else w1))
    | (Raise e, w1) => (Raise e, w1)
    end.
Proof.
  intros Hnone.
  rewrite (guarded_cons host cluster cmd timeout quiet finish report notice
             failure exhausted finish_raises_no_failure report_eq).
  pose proof (execute_same_settings host cluster cmd timeout quiet w)
    as [Hcfg _].
  destruct (execute_argocd_command host cluster cmd timeout quiet w)
    as [[out|e] w1]; [reflexivity|].
  destruct e; try reflexivity.
  destruct (is_auth_error (PyStr.lower msg) && (attempt =? 0));
    [|reflexivity].
  cbn [snd] in Hcfg. rewrite login_eq, Hcfg, Hnone. reflexivity.
Qed.

Lemma guarded_gives_up (msg : string) (w : World) :
  Dict.get cluster (config w) = None ->
  is_auth_error (PyStr.lower msg) = true ->
  gives_up host cluster cmd timeout quiet
    (guarded host cluster cmd timeout quiet finish report failure exhausted
       (seq 0 2))
    failure notice msg w.
Proof.
  intros Hnone Hauth. unfold gives_up. cbv zeta.
  change (seq 0 2) with [0; 1]. rewrite guarded_unlisted by exact Hnone.
  destruct (execute_argocd_command host cluster cmd timeout quiet w)
    as [[out|e] w1]; cbn [fst snd]; [discriminate|].
  intros H. inversion H; subst. rewrite Hauth. reflexivity.
Qed.

End Unlisted.

(** X4 (manager.py, the guarded operations with _handle_oidc_login).  The
    login cycle looks the login command up under the name as the caller
    gave it, not under the resolved one.  So when a guarded operation is
    called with a name that is not a key of the configuration (one that
    the executor resolves by case or by similarity) and its call fails
    with an authentication message, the login command is not run and the
    call is not retried: the operation prints that no login command is
    available, reports the failure and returns its failure value. *)
Theorem recovery_needs_the_configured_name (host : Host) (cluster : string)
    (msg : string) (w : World) :
  Dict.get cluster (config w) = None ->
  is_auth_error (PyStr.lower msg) = true ->
  gives_up host cluster ["proj"; "list"; "--output"; "json"] 30 false
    (list_projects host cluster) JNull (failed_notice host "Failed: " false)
    msg w
  /\ (forall project,
        gives_up host cluster (list_applications_cmd project) 30 false
          (list_applications host cluster project) JNull
          (failed_notice host "Failed: " false) msg w)
  /\ (forall app,
        gives_up host cluster ["app"; "get"; app; "--output"; "json"] 30 false
          (get_application_status host cluster app) JNull
          (failed_notice host "Failed: " false) msg w)
  /\ (forall app,
        gives_up host cluster ["app"; "diff"; app] 30 false
          (get_application_diff host cluster app) None
          (failed_notice host "Failed: " false) msg w)
  /\ (forall app prune,
        gives_up host cluster (sync_cmd app prune) 300 false
          (sync_application_loop host cluster app (sync_cmd app prune)
             (seq 0 2))
          (Some false) (failed_notice host "Failed to sync: " false) msg w).
Proof.
  intros Hnone Hauth.
  split; [|split; [|split; [|split]]].
  - unfold gives_up, list_projects. rewrite list_projects_loop_guarded.
    apply guarded_gives_up; try assumption.
    + intros out w0. apply loads_or_none_pure.
    + apply report_failed_eq.
  - intros project. unfold gives_up, list_applications.
    rewrite list_applications_loop_guarded.
    apply guarded_gives_up; try assumption.
    + intros out w0. apply loads_or_none_pure.
    + apply report_failed_eq.
  - intros app.
    unfold gives_up, get_application_status, _get_application_status.
    rewrite get_application_status_loop_guarded.
    apply guarded_gives_up; try assumption.
    + intros out w0. apply loads_or_none_pure.
    + apply report_failed_eq.
  - intros app.
    unfold gives_up, get_application_diff, _get_application_diff.
    rewrite get_application_diff_loop_guarded.
    apply guarded_gives_up; try assumption.
    + discriminate.
    + apply report_failed_eq.
  - intros app prune. unfold gives_up.
    rewrite sync_application_loop_guarded.
    apply guarded_gives_up; try assumption.
    + intros out w0. apply (sync_finish_pure host app out w0 0%Z).
    + apply report_failed_eq.
Qed.

Lemma recovery_needs_the_configured_name_witness :
  let host := Demo.host_of []
                (fun _ => Completed 1 "" "rpc error: code = Unauthenticated") in
  let w := Demo.world_of [("Dev-A", "argocd login svc.example.com")] [] in
  fst (list_projects host "dev-a" w) = Ret JNull
  /\ count is_run (trace (snd (list_projects host "dev-a" w))) = 1.
Proof.
  intros host w.
  pose proof (proj1 (recovery_needs_the_configured_name host "dev-a"
                       "rpc error: code = Unauthenticated" w
                       eq_refl eq_refl) eq_refl) as H.
  rewrite H. split; reflexivity.
Defined.

(** ** Operations without a retry *)

(** The executor launches at most one process. *)
Lemma execute_count_runs (host : Host) (cluster : string)
    (args : list string) (timeout : Z) (quiet : bool) (w : World) :
  count is_run
    (trace (snd (execute_argocd_command host cluster args timeout quiet w)))
  <= count is_run (trace w) + 1.
Proof.
  destruct (validate_cluster host cluster
              (after (EvExecute cluster args timeout) w))
    as [[name|e] w1] eqn:Hv.
  - destruct (execute_resolved host cluster args timeout quiet w name)
      as [login_cmd [w2 [notes [_ [Htrace [Hnotes [_ [_ [_ Heq]]]]]]]]].
    { rewrite Hv. reflexivity. }
    assert (Hw2 : count is_run (trace w2) = count is_run (trace w)).
    { rewrite Htrace, count_app.
      change (count is_run (EvExecute cluster args timeout :: notes))
        with (count is_run notes).
      rewrite (count_notes is_run notes); [lia | | assumption].
      intros [] H; simpl in *; congruence. }
    rewrite Heq, production_gate_eq.
    destruct (looks_like_production name
              && negb (PyStr.mem name (confirmed_production w2))).
    + cbv zeta. destruct (stdin w2) as [|line rest].
      * simpl. rewrite count_snoc. simpl. lia.
      * destruct (says_yes line); simpl; rewrite !count_snoc; simpl; lia.
    + simpl. rewrite count_snoc. simpl. lia.
  - rewrite execute_eq, Hv. apply validate_cluster_raise in Hv.
    destruct Hv as [_ ->]. simpl. rewrite count_snoc. simpl. lia.
Qed.


(** ** Traces that grow by allowed events only *)

Section Extending.

Variable host : Host.
Variable allowed : event -> bool.

Hypothesis allowed_print : forall t, allowed (EvPrint t) = true.
Hypothesis allowed_log : forall t, allowed (EvLog t) = true.
Hypothesis allowed_input : forall p, allowed (EvInput p) = true.
Hypothesis allowed_run : forall a t, allowed (EvRun a t) = true.
Hypothesis allowed_poll : forall c, allowed (EvExecute c poll_cmd 5%Z) = true.
Hypothesis allowed_sleep : forall s, allowed (EvSleep s) = true.

Lemma extending_bind {A B} (m : M A) (k : A -> M B) :
  stable (extends_by allowed) m ->
  (forall a, stable (extends_by allowed) (k a)) ->
  stable (extends_by allowed) (bind m k).
Proof. apply stable_bind, extends_by_trans. Qed.

Lemma extending_ret {A} (a : A) : stable (extends_by allowed) (ret a).
Proof. apply stable_ret, extends_by_refl. Qed.

Lemma extending_print (t : string) : stable (extends_by allowed) (print t).
Proof.
  apply (stable_print _ allowed); [apply extends_by_emit | exact allowed_print].
Qed.

Lemma extending_sleep (s : Z) : stable (extends_by allowed) (sleep s).
Proof.
  apply (stable_sleep _ allowed); [apply extends_by_emit | exact allowed_sleep].
Qed.

Lemma extending_confirm_action (prompt : string) (default : bool)
    (color : option string) :
  stable (extends_by allowed) (confirm_action host prompt default color).
Proof.
  apply (stable_confirm_action host _ allowed (extends_by_refl _)
           (extends_by_trans _) (extends_by_emit _) (extends_by_stdin _)
           allowed_input).
Qed.

Lemma extending_execute (cluster : string) (args : list string)
    (timeout : Z) (quiet : bool) :
  allowed (EvExecute cluster args timeout) = true ->
  stable (extends_by allowed)
    (execute_argocd_command host cluster args timeout quiet).
Proof.
  apply (stable_execute host _ allowed (extends_by_refl _)
           (extends_by_trans _) (extends_by_emit _) (extends_by_stdin _)
           (extends_by_confirm _) allowed_print allowed_log allowed_input
           allowed_run).
Qed.

Lemma extending_get_application_diff (cluster app : string) :
  allowed (EvExecute cluster ["app"; "diff"; app] 30%Z) = true ->
  stable (extends_by allowed) (get_application_diff host cluster app).
Proof.
  apply (stable_get_application_diff host _ allowed (extends_by_refl _)
           (extends_by_trans _) (extends_by_emit _) (extends_by_stdin _)
           (extends_by_confirm _) allowed_print allowed_log allowed_input
           allowed_run allowed_poll allowed_sleep).
Qed.

Lemma extending_sync_application (cluster app : string)
    (dry_run prune : bool) :
  allowed (EvExecute cluster ["app"; "diff"; app] 30%Z) = true ->
  allowed (EvExecute cluster (sync_cmd app prune) 300%Z) = true ->
  stable (extends_by allowed)
    (sync_application host cluster app dry_run prune).
Proof.
  apply (stable_sync_application host _ allowed (extends_by_refl _)
           (extends_by_trans _) (extends_by_emit _) (extends_by_stdin _)
           (extends_by_confirm _) allowed_print allowed_log allowed_input
           allowed_run allowed_poll allowed_sleep).
Qed.

(** The dry run of a sync is a print and the guarded diff. *)
Lemma extending_sync_dry_run (cluster app : string) (prune : bool) :
  allowed (EvExecute cluster ["app"; "diff"; app] 30%Z) = true ->
  stable (extends_by allowed) (sync_application host cluster app true prune).
Proof.
  intros Hdiff. unfold sync_application.
  apply extending_bind; [apply extending_print|]. intros _.
  apply extending_bind; [apply extending_get_application_diff, Hdiff|].
  intros diff. apply extending_bind; [|intros _; apply extending_ret].
  destruct diff as [d|]; [|apply extending_ret].
  apply stable_when; [apply extends_by_refl | apply extending_print].
Qed.

Lemma extending_sync_multiple_loop (cluster : string) (total : Z)
    (dry_run prune : bool) (apps : list string) :
  (forall app, In app apps ->
     stable (extends_by allowed)
       (sync_application host cluster app dry_run prune)) ->
  forall i success,
    stable (extends_by allowed)
      (sync_multiple_loop host cluster total dry_run prune apps i success).
Proof.
  induction apps as [|app rest IH]; intros Happ i success;
    cbn [sync_multiple_loop]; [apply extending_ret|].
  apply extending_bind; [apply extending_print|]. intros _.
  apply extending_bind; [apply Happ; now left|]. intros r.
  apply extending_bind; [apply extending_sleep|]. intros _.
  apply IH. intros app' Hin. apply Happ. now right.
Qed.

Lemma extending_sync_multiple (cluster : string) (apps : list string)
    (dry_run prune : bool) :
  (forall app, In app apps ->
     stable (extends_by allowed)
       (sync_application host cluster app dry_run prune)) ->
  stable (extends_by allowed)
    (sync_multiple_applications host cluster apps dry_run prune).
Proof.
  intros Happ. unfold sync_multiple_applications.
  apply extending_bind.
  { apply stable_when; [apply extends_by_refl | apply extending_print]. }
  intros _. apply extending_bind.
  { destruct (negb dry_run); [|apply extending_ret].
    apply extending_bind; [apply extending_confirm_action|].
    intros go. apply extending_ret. }
  intros cancelled. destruct cancelled.
  - apply extending_bind; [apply extending_print|]. intros _.
    apply extending_ret.
  - apply extending_bind;
      [apply extending_sync_multiple_loop, Happ | intros s; apply extending_ret].
Qed.

End Extending.

(** ** Dry runs and batches of syncs *)

(** A dry run of a sync answers true whenever it answers. *)
Lemma sync_dry_run_result (host : Host) (cluster app : string) (prune : bool)
    (w : World) (v : option bool) :
  fst (sync_application host cluster app true prune w) = Ret v ->
  v = Some true.
Proof.
  unfold sync_application. unfold bind at 1. unfold print at 1, emit at 1.
  unfold bind at 1.
  destruct (get_application_diff host cluster app _) as [[d|e] w1];
    [|discriminate].
  unfold bind, when, print, emit, ret.
  destruct d as [d|]; [destruct (PyStr.truthy d)|];
    intros H; inversion H; reflexivity.
Qed.

Lemma not_sync_call_stable (host : Host) (cluster app : string)
    (prune : bool) :
  stable (extends_by (fun e => negb (is_sync_call e)))
    (sync_application host cluster app true prune).
Proof.
  apply extending_sync_dry_run; reflexivity.
Qed.

Lemma count_sync_calls_extends (w w' : World) :
  extends_by (fun e => negb (is_sync_call e)) w w' ->
  count is_sync_call (trace w') = count is_sync_call (trace w).
Proof.
  apply count_extends. intros e He. now apply negb_true_iff in He.
Qed.

(** X6 (manager.py, sync_application).  A dry run of a sync never issues
    the sync: no executor call for [argocd app sync] is made, whatever the
    diff does, and the dry run answers true whenever it answers, also when
    the diff could not be read. *)
Theorem sync_dry_run_never_syncs (host : Host) (cluster app : string)
    (prune : bool) (w : World) :
  let r := sync_application host cluster app true prune w in
  count is_sync_call (trace (snd r)) = count is_sync_call (trace w)
  /\ count (is_execute_with 300) (trace (snd r))
     = count (is_execute_with 300) (trace w)
  /\ match fst r with
     | Ret v => v = Some true
     | Raise e => e = not_found cluster \/ e = unbalanced_quotes
     end.
Proof.
  cbv zeta. split; [|split].
  - apply count_sync_calls_extends, not_sync_call_stable.
  - apply (count_extends (fun e => negb (is_execute_with 300 e))).
    + intros e He. now apply negb_true_iff in He.
    + apply extending_sync_dry_run; reflexivity.
  - pose proof (sync_dry_run_result host cluster app prune w) as Hv.
    destruct (sync_application host cluster app true prune w) as [[v|e] w1]
      eqn:E; cbn [fst] in *.
    + apply Hv. reflexivity.
    + revert E. unfold sync_application. unfold bind at 1.
      unfold print at 1, emit at 1. unfold bind at 1.
      match goal with
      | |- context [get_application_diff host cluster app ?w0] =>
          pose proof (guarded_raise host cluster ["app"; "diff"; app] 30%Z
                        false (fun out => ret (Some out))
                        (report_failed host "Failed: " false)
                        (failed_notice host "Failed: " false) None None
                        (fun e => e = not_found cluster
                                  \/ e = unbalanced_quotes)) as Hg;
          specialize (Hg ltac:(discriminate)
                         (report_failed_eq host "Failed: " false)
                         ltac:(discriminate) (or_introl eq_refl)
                         (or_intror eq_refl) (seq 0 2) w0);
          rewrite <- get_application_diff_loop_guarded in Hg;
          fold (_get_application_diff host cluster app false) in Hg;
          fold (get_application_diff host cluster app) in Hg;
          destruct (get_application_diff host cluster app w0)
            as [[d|e0] w2]
      end.
      * destruct d as [d|]; [destruct (PyStr.truthy d)|]; discriminate.
      * intros H. inversion H; subst. apply Hg. reflexivity.
Qed.

(** The count of a batch: one more per application at most, and exactly one
    more per application in a dry run. *)
Lemma sync_multiple_loop_result (host : Host) (cluster : string) (total : Z)
    (dry_run prune : bool) (apps : list string) :
  forall i success w s,
    fst (sync_multiple_loop host cluster total dry_run prune apps i success w)
    = Ret s ->
    (success <= s <= success + Z.of_nat (length apps))%Z
    /\ (dry_run = true -> s = success + Z.of_nat (length apps))%Z.
Proof.
  induction apps as [|app rest IH]; intros i success w s.
  - cbn. intros H. inversion H. split; lia.
  - cbn [sync_multiple_loop length]. unfold bind at 1.
    unfold print at 1, emit at 1. unfold bind at 1.
    match goal with
    | |- context [sync_application host cluster app dry_run prune ?w0] =>
        pose proof (sync_dry_run_result host cluster app prune w0) as Hdry;
        destruct (sync_application host cluster app dry_run prune w0)
          as [[r|e] w1] eqn:E
    end; [|discriminate].
    unfold bind at 1. unfold sleep at 1, emit at 1.
    intros H. apply IH in H. destruct H as [H1 H2].
    split.
    + destruct (synced r); lia.
    + intros Hd. subst dry_run. specialize (H2 eq_refl).
      rewrite E in Hdry. rewrite (Hdry r eq_refl) in H2. cbn [synced] in H2.
      lia.
Qed.

(** X7 (manager.py, sync_multiple_applications).  When a batch of syncs
    returns, the second component of its result is the number of
    applications given and the first lies between zero and it; and when
    the operator does not answer the batch question with yes, the result
    is zero of that number, the question and the word Cancelled being all
    the batch leaves: no executor call, no launch and no wait. *)
Theorem sync_multiple_result (host : Host) (cluster : string)
    (apps : list string) (dry_run prune : bool) (w : World) :
  let total := Z.of_nat (length apps) in
  let r := sync_multiple_applications host cluster apps dry_run prune w in
  (forall s t, fst r = Ret (s, t) -> t = total /\ (0 <= s <= total)%Z)
  /\ (forall line rest,
        dry_run = false ->
        stdin w = line :: rest ->
        says_yes line = false ->
        r = (Ret (0%Z, total),
             after (EvPrint "Cancelled")
               (set_stdin rest
                  (after (EvInput (("Sync " +++ PyStr.of_Z total
                                    +++ " applications?") +++ " [y/N]: "))
                     w)))).
Proof.
  cbv zeta. split.
  - intros s t. unfold sync_multiple_applications. unfold bind at 1.
    destruct (when dry_run _ w) as [[u|e] w1]; [|discriminate].
    unfold bind at 1.
    match goal with
    | |- context [(if negb dry_run then ?m else ret false) w1] =>
        destruct ((if negb dry_run then m else ret false) w1)
          as [[cancelled|e] w2]
    end; [|discriminate].
    destruct cancelled.
    + unfold bind, print, emit, ret. intros H. inversion H. split; lia.
    + unfold bind at 1.
      pose proof (sync_multiple_loop_result host cluster
                    (Z.of_nat (length apps)) dry_run prune apps 1%Z 0%Z w2)
        as Hl.
      destruct (sync_multiple_loop host cluster _ dry_run prune apps 1%Z 0%Z
                  w2) as [[s'|e] w3]; [|discriminate].
      unfold ret. intros H. inversion H; subst.
      destruct (Hl s eq_refl) as [Hs _]. split; [reflexivity | lia].
  - intros line rest Hdry Hin Hno. subst dry_run.
    unfold says_yes in Hno.
    destruct w as [cfg vb ap conf inp tr]. cbn [stdin] in Hin. subst inp.
    unfold sync_multiple_applications, when, confirm_action, input, bind,
      emit, print, emit, ret, after.
    cbn [negb stdin set_trace set_stdin trace config verbose allow_patch
         confirmed_production].
    destruct (PyStr.is_empty (PyStr.lower (PyStr.strip line))) eqn:Hempty.
    + reflexivity.
    + cbn [negb andb] in Hno. rewrite Hno. reflexivity.
Qed.

Lemma sync_multiple_result_witness :
  let host := Demo.host_of [] (fun _ => Completed 0 "" "") in
  let w := Demo.world_of [("c1", "argocd login svc.example.com")] ["no"] in
  stdin w = ["no"] /\ says_yes "no" = false
  /\ sync_multiple_applications host "c1" ["web"; "api"] false false w
     = (Ret (0%Z, 2%Z),
        after (EvPrint "Cancelled")
          (set_stdin []
             (after (EvInput "Sync 2 applications? [y/N]: ") w))).
Proof.
  intros host w. split; [reflexivity|]. split; [reflexivity|].
  refine (proj2 (sync_multiple_result host "c1" ["web"; "api"] false false w)
            "no" [] _ _ _); reflexivity.
Defined.

(** X8 (manager.py, sync_multiple_applications, and cli.py, run).  A dry
    run of a batch issues no sync and asks no batch question; when it
    returns it counts every application as a success, so that the command
    line then prints that all of them were synced. *)
Theorem sync_multiple_dry_run (host : Host) (cluster : string)
    (apps : list string) (prune : bool) (w : World) :
  let total := Z.of_nat (length apps) in
  let r := sync_multiple_applications host cluster apps true prune w in
  let shown := run_sync_multi host cluster apps true prune w in
  count is_sync_call (trace (snd r)) = count is_sync_call (trace w)
  /\ (forall s t, fst r = Ret (s, t) -> s = total /\ t = total)
  /\ count is_sync_call (trace (snd shown)) = count is_sync_call (trace w)
  /\ (fst shown = Ret tt ->
      exists pre,
        trace (snd shown)
        = pre ++ [EvPrint ("All " +++ PyStr.of_Z total +++ " synced")]).
Proof.
  cbv zeta.
  assert (Hcount : count is_sync_call
                     (trace (snd (sync_multiple_applications host cluster apps
                                    true prune w)))
                   = count is_sync_call (trace w)).
  { apply count_sync_calls_extends.
    apply extending_sync_multiple; try reflexivity.
    intros app _. apply not_sync_call_stable. }
  assert (Hres : forall s t,
            fst (sync_multiple_applications host cluster apps true prune w)
            = Ret (s, t) ->
            s = Z.of_nat (length apps) /\ t = Z.of_nat (length apps)).
  { intros s t. unfold sync_multiple_applications. unfold bind at 1.
    cbn [when negb]. unfold print at 1, emit at 1. unfold bind at 1.
    unfold ret at 1. cbv iota. unfold bind at 1.
    match goal with
    | |- context [sync_multiple_loop host cluster ?tot true prune apps 1%Z
                    0%Z ?w0] =>
        pose proof (sync_multiple_loop_result host cluster tot true prune apps
                      1%Z 0%Z w0) as Hl;
        destruct (sync_multiple_loop host cluster tot true prune apps 1%Z 0%Z
                    w0) as [[s'|e] w3]
    end; [|discriminate].
    unfold ret. intros H. inversion H; subst.
    destruct (Hl s eq_refl) as [_ Hs]. specialize (Hs eq_refl).
    split; [lia | reflexivity]. }
  split; [exact Hcount|]. split; [exact Hres|].
  unfold run_sync_multi. unfold bind.
  destruct (sync_multiple_applications host cluster apps true prune w)
    as [[[s t]|e] w1]; cbn [fst snd] in *.
  - destruct (Hres s t eq_refl) as [-> ->]. rewrite Z.eqb_refl.
    unfold print, emit. cbn [fst snd trace set_trace].
    split.
    + rewrite count_snoc. cbn [is_sync_call]. lia.
    + intros _. eexists. reflexivity.
  - split; [exact Hcount | discriminate].
Qed.

Lemma sync_multiple_dry_run_witness :
  let host := Demo.host_of [] (fun _ => Completed 0 "diff" "") in
  let w := Demo.world_of [("c1", "argocd login svc.example.com")] [] in
  fst (run_sync_multi host "c1" ["web"; "api"] true false w) = Ret tt
  /\ exists pre,
       trace (snd (run_sync_multi host "c1" ["web"; "api"] true false w))
       = pre ++ [EvPrint "All 2 synced"].
Proof.
  intros host w. split; [reflexivity|].
  refine (proj2 (proj2 (proj2 (sync_multiple_dry_run host "c1" ["web"; "api"]
                                 false w))) _).
  reflexivity.
Defined.

(** ** The source that a target revision is set on *)

(** The chooser selects a position of the list of sources. *)
Lemma choose_source_in_range (cluster : string) (n : nat) :
  forall fuel w ci,
    fst (choose_source fuel cluster n w) = Ret (Some ci) ->
    (0 <= ci < Z.of_nat n)%Z.
Proof.
  induction fuel as [|fuel IH]; intros w ci; [discriminate|].
  cbn [choose_source].
  unfold bind at 1. unfold try_except at 1. unfold bind at 1.
  unfold input at 1. unfold bind at 1. unfold emit at 1.
  cbn [stdin set_trace].
  destruct (stdin w) as [|line rest].
  { unfold bind, print, emit, ret. discriminate. }
  unfold ret at 1. cbv beta iota.
  destruct (negb (PyStr.truthy (PyStr.strip line))
            || PyStr.mem (PyStr.lower (PyStr.strip line))
                 ["s"; "skip"; "n"; "no"]).
  { unfold bind, print, emit, ret. discriminate. }
  unfold bind at 1.
  destruct (PyStr.isdigit (PyStr.strip line)).
  - destruct (PyStr.int (PyStr.strip line)) as [cj|]; [|discriminate].
    unfold ret at 1. cbv beta iota.
    destruct ((0 <=? cj)%Z && (cj <? Z.of_nat n)%Z) eqn:Hrange.
    + unfold ret. intros H. inversion H; subst.
      apply andb_true_iff in Hrange. destruct Hrange as [H0 H1].
      apply Z.leb_le in H0. apply Z.ltb_lt in H1. lia.
    + unfold bind at 1. unfold print at 1, emit at 1. apply IH.
  - unfold ret at 1. cbv beta iota.
    unfold bind at 1. unfold print at 1, emit at 1. apply IH.
Qed.

(** X9 (manager.py, set_application_target_revision, the chooser).  The
    interactive chooser selects only an index that is a position of the
    list of sources and that is the value [int] gives for one of the
    pending input lines, stripped, which [isdigit] accepts; the one
    exception it lets escape is the [ValueError] of [int] on a line that
    [isdigit] accepts and [int] rejects; and the end of the input is
    caught and makes it skip.  (The strings of this model are over the
    code points below 256, where the decimal digits are the ten ASCII
    digits and [isdigit] accepts also the superscript digits.) *)
Theorem choose_source_selection (cluster : string) (n : nat) :
  forall fuel w,
    length (stdin w) < fuel ->
    match fst (choose_source fuel cluster n w) with
    | Ret (Some ci) =>
        (0 <= ci < Z.of_nat n)%Z
        /\ exists line,
             In line (stdin w)
             /\ PyStr.isdigit (PyStr.strip line) = true
             /\ PyStr.int (PyStr.strip line) = Some ci
    | Ret None => True
    | Raise e =>
        e = invalid_literal
        /\ exists line,
             In line (stdin w)
             /\ PyStr.isdigit (PyStr.strip line) = true
             /\ PyStr.int (PyStr.strip line) = None
    end
    /\ (stdin w = [] -> fst (choose_source fuel cluster n w) = Ret None).
Proof.
  intros fuel w Hfuel. split.
  2:{ intros Hnil. destruct fuel as [|fuel]; [lia|].
      destruct w as [cfg vb ap conf inp tr]. cbn [stdin] in Hnil.
      subst inp. reflexivity. }
  revert w Hfuel.
  induction fuel as [|fuel IH]; intros w Hfuel; [lia|].
  destruct w as [cfg vb ap conf inp tr]. cbn [stdin] in *.
  cbn [choose_source].
  unfold bind at 1. unfold try_except at 1. unfold bind at 1.
  unfold input at 1. unfold bind at 1. unfold emit at 1.
  cbn [stdin set_trace trace config verbose allow_patch confirmed_production].
  destruct inp as [|line rest]; [exact I|].
  cbn [set_stdin stdin set_trace trace config verbose allow_patch
       confirmed_production ret].
  destruct (negb (PyStr.truthy (PyStr.strip line))
            || PyStr.mem (PyStr.lower (PyStr.strip line))
                 ["s"; "skip"; "n"; "no"]); [exact I|].
  unfold bind at 1.
  destruct (PyStr.isdigit (PyStr.strip line)) eqn:Hdigit.
  - destruct (PyStr.int (PyStr.strip line)) as [ci|] eqn:Hint.
    + unfold ret at 1. cbv beta iota.
      destruct ((0 <=? ci)%Z && (ci <? Z.of_nat n)%Z) eqn:Hrange.
      * cbn [fst]. apply andb_true_iff in Hrange.
        destruct Hrange as [H0 H1].
        apply Z.leb_le in H0. apply Z.ltb_lt in H1.
        split; [lia|]. exists line.
        split; [now left|]. split; [exact Hdigit | exact Hint].
      * unfold bind, print, emit. cbn [set_trace trace].
        match goal with
        | |- context [choose_source fuel cluster n ?w0] =>
            specialize (IH w0)
        end.
        cbn [stdin set_trace set_stdin length config verbose allow_patch
             confirmed_production trace] in IH, Hfuel.
        specialize (IH ltac:(lia)).
        destruct (fst (choose_source fuel cluster n _)) as [[ci'|]|e];
          [|exact I|].
        -- destruct IH as [Hr [l [Hl [Hd Hi]]]]. split; [exact Hr|].
           exists l. split; [now right|]. split; assumption.
        -- destruct IH as [He [l [Hl [Hd Hi]]]]. split; [exact He|].
           exists l. split; [now right|]. split; assumption.
    + cbn [fst]. split; [reflexivity|]. exists line.
      split; [now left|]. split; [exact Hdigit | exact Hint].
  - unfold ret at 1. cbv beta iota.
    unfold bind, print, emit. cbn [set_trace trace].
    match goal with
    | |- context [choose_source fuel cluster n ?w0] =>
        specialize (IH w0)
    end.
    cbn [stdin set_trace set_stdin length config verbose allow_patch
             confirmed_production trace] in IH, Hfuel.
    specialize (IH ltac:(lia)).
    destruct (fst (choose_source fuel cluster n _)) as [[ci'|]|e];
      [|exact I|].
    + destruct IH as [Hr [l [Hl [Hd Hi]]]]. split; [exact Hr|].
      exists l. split; [now right|]. split; assumption.
    + destruct IH as [He [l [Hl [Hd Hi]]]]. split; [exact He|].
      exists l. split; [now right|]. split; assumption.
Qed.

Lemma choose_source_selection_witness :
  let w := Demo.world_of [] ["x"; " 1 "] in
  fst (choose_source 3 "c1" 2 w) = Ret (Some 1%Z)
  /\ (0 <= 1 < Z.of_nat 2)%Z
  /\ exists line,
       In line ["x"; " 1 "]
       /\ PyStr.isdigit (PyStr.strip line) = true
       /\ PyStr.int (PyStr.strip line) = Some 1%Z.
Proof.
  intros w. split; [reflexivity|].
  exact (proj1 (choose_source_selection "c1" 2 3 w ltac:(simpl; lia))).
Defined.

(** Reading the repository of a source changes nothing. *)
Lemma repo_url_of_pure (s : json) :
  exists o, forall w, repo_url_of s w = (o, w).
Proof.
  unfold repo_url_of, bind, PyVal.lift, or_else, ret.
  destruct (PyVal.get s "repoURL" JNull) as [url|e];
    [|eexists; reflexivity].
  destruct (PyVal.truthy url); [eexists; reflexivity|].
  destruct (PyVal.get s "helm" (JDict [])) as [helm|e];
    [|eexists; reflexivity].
  destruct (PyVal.get helm "repo" JNull); eexists; reflexivity.
Qed.

(** Matching by repository from index [i] on. *)
Lemma match_repo_spec (repo : string) (w w' : World) (j : Z) :
  forall srcs i,
    match_repo repo srcs i w = (Ret (Some j), w') ->
    w' = w
    /\ exists before s after,
         srcs = before ++ s :: after
         /\ j = (i + Z.of_nat (length before))%Z
         /\ names_repo repo s
         /\ forall s', In s' before -> ~ names_repo repo s'.
Proof.
  induction srcs as [|s rest IH]; intros i; [discriminate|].
  cbn [match_repo]. unfold bind at 1.
  destruct (repo_url_of_pure s) as [o Ho]. rewrite Ho.
  destruct o as [repourl|e]; [|discriminate].
  assert (Hskip : ~ names_repo repo s ->
            match_repo repo rest (i + 1)%Z w = (Ret (Some j), w') ->
            w' = w
            /\ exists before s0 after,
                 s :: rest = before ++ s0 :: after
                 /\ j = (i + Z.of_nat (length before))%Z
                 /\ names_repo repo s0
                 /\ forall s', In s' before -> ~ names_repo repo s').
  { intros Hno H. apply IH in H.
    destruct H as [Hw [before [s0 [after [Hs [Hj [Hn Hb]]]]]]].
    split; [exact Hw|].
    exists (s :: before), s0, after. rewrite Hs.
    split; [reflexivity|]. split; [cbn [length]; lia|].
    split; [exact Hn|].
    intros s' [<-|Hin]; [exact Hno | apply Hb, Hin]. }
  destruct (PyVal.truthy repourl) eqn:Htruthy.
  - unfold bind at 1. unfold PyVal.lift at 1.
    destruct repourl as [| | | |url| |]; cbn [PyVal.rstrip_slash];
      try discriminate.
    destruct (String.eqb_spec (PyStr.rstrip_slash url)
                (PyStr.rstrip_slash repo)) as [Heq|Hne].
    + unfold ret. intros H. inversion H; subst.
      split; [reflexivity|]. exists [], s, rest.
      split; [reflexivity|]. split; [cbn [length]; lia|].
      split; [|contradiction].
      exists url. split; [exact Ho|]. split; assumption.
    + apply Hskip. intros [url' [Hu [_ Hr]]].
      specialize (Hu w). rewrite Ho in Hu. inversion Hu; subst.
      contradiction.
  - apply Hskip. intros [url' [Hu [Ht _]]].
    specialize (Hu w). rewrite Ho in Hu. inversion Hu; subst.
    cbn [PyVal.truthy] in Htruthy. congruence.
Qed.

(** X10 (manager.py, set_application_target_revision, lines 431-436).
    Matching by repository changes nothing and selects the first source
    that names the repository, trailing slashes apart: the index it
    answers is the position of such a source, and no source before it
    names the repository. *)
Theorem match_repo_first_match (repo : string) (sources : list json)
    (w w' : World) (j : Z) :
  match_repo repo sources 0%Z w = (Ret (Some j), w') ->
  w' = w
  /\ exists before s after,
       sources = before ++ s :: after
       /\ j = Z.of_nat (length before)
       /\ names_repo repo s
       /\ forall s', In s' before -> ~ names_repo repo s'.
Proof.
  intros H. apply match_repo_spec in H.
  destruct H as [Hw [before [s [after [Hs [Hj [Hn Hb]]]]]]].
  split; [exact Hw|]. exists before, s, after.
  repeat split; assumption.
Qed.

Lemma match_repo_first_match_witness :
  let sources :=
    [JDict [("repoURL", JStr "https://git.example.com/charts")];
     JDict [("helm", JDict [("repo", JStr "https://git.example.com/web/")])];
     JDict [("repoURL", JStr "https://git.example.com/web")]] in
  let w := Demo.world_of [] [] in
  match_repo "https://git.example.com/web//" sources 0%Z w
  = (Ret (Some 1%Z), w)
  /\ exists before s after,
       sources = before ++ s :: after
       /\ 1%Z = Z.of_nat (length before)
       /\ names_repo "https://git.example.com/web//" s
       /\ forall s', In s' before
                     -> ~ names_repo "https://git.example.com/web//" s'.
Proof.
  intros sources w. split; [reflexivity|].
  refine (proj2 (match_repo_first_match "https://git.example.com/web//"
                   sources w w 1%Z _)).
  reflexivity.
Defined.

Lemma sources_of_pure (spec : json) :
  exists o, forall w, sources_of spec w = (o, w).
Proof.
  unfold sources_of, bind, PyVal.lift, ret.
  destruct (PyVal.has "sources" spec) as [[|]|e]; [| |eexists; reflexivity].
  - destruct (PyVal.getitem spec "sources") as [v|e];
      [|eexists; reflexivity].
    destruct v; try (eexists; reflexivity);
      destruct (PyVal.has "source" spec) as [[|]|e];
      try (eexists; reflexivity);
      destruct (PyVal.getitem spec "source") as [v|e];
      eexists; reflexivity.
  - destruct (PyVal.has "source" spec) as [[|]|e];
      try (eexists; reflexivity).
    destruct (PyVal.getitem spec "source") as [v|e]; eexists; reflexivity.
Qed.

(** X11 (manager.py, set_application_target_revision, lines 414-462).
    When no source index is given, an index is resolved only for an
    application with several sources, and the resolved index, whether it
    comes from the repository or from the operator, is a position of the
    list of sources of the application document that was read: the
    command then names a source position between one and their number. *)
Theorem resolved_index_in_range (host : Host) (cluster app : string)
    (repo : option string) (w w' : World) (name : string) (status : json)
    (i : Z) :
  resolve_target host cluster app repo None w
    = (Ret (Some (name, status, Some i)), w') ->
  exists spec sources,
    PyVal.get status "spec" (JDict []) = Ret spec
    /\ (forall w0, sources_of spec w0 = (Ret sources, w0))
    /\ 1 < length sources
    /\ (0 <= i < Z.of_nat (length sources))%Z
    /\ forall revision,
         exists pre,
           set_cmd app revision repo (Some i)
           = pre ++ ["--source-position"; PyStr.of_Z (i + 1)].
Proof.
  unfold resolve_target. unfold bind at 1.
  destruct (validate_cluster host cluster w) as [[name'|e] w1];
    [|discriminate].
  unfold bind at 1.
  destruct (get_application_status host name' app w1) as [[st|e] w2];
    [|discriminate].
  destruct (negb (PyVal.truthy st)).
  { unfold bind, print, emit, ret. discriminate. }
  unfold bind at 1. unfold PyVal.lift at 1.
  destruct (PyVal.get st "spec" (JDict [])) as [spec|e] eqn:Hspec;
    [|discriminate].
  unfold bind at 1.
  destruct (sources_of_pure spec) as [o Ho]. rewrite Ho.
  destruct o as [sources|e]; [|discriminate].
  assert (Hcmd : forall j revision,
            exists pre,
              set_cmd app revision repo (Some j)
              = pre ++ ["--source-position"; PyStr.of_Z (j + 1)]).
  { intros j revision. unfold set_cmd. rewrite app_assoc. eexists.
    reflexivity. }
  assert (Hchooser :
            forall w3,
              (if 1 <? length sources
               then
                 print (String (ascii_of_nat 10) (BOLD (colors host))
                        +++ "Application has multiple sources. Choose which source to update for '"
                        +++ app +++ "' on '" +++ name' +++ "':"
                        +++ ENDC (colors host)) ;;
                 print_sources host sources 0%Z ;;
                 pending <- gets stdin ;;
                 choice <- choose_source (S (length pending)) name'
                             (length sources) ;;
                 match choice with
                 | Some ci => ret (Some (name', st, Some ci))
                 | None => ret None
                 end
               else ret (Some (name', st, None))) w3
              = (Ret (Some (name, status, Some i)), w') ->
              st = status
              /\ 1 < length sources
              /\ (0 <= i < Z.of_nat (length sources))%Z).
  { intros w3. destruct (1 <? length sources) eqn:Hlen;
      [|unfold ret; discriminate].
    apply Nat.ltb_lt in Hlen.
    unfold bind at 1. unfold print at 1, emit at 1. unfold bind at 1.
    destruct (print_sources host sources 0%Z _) as [[u|e] w4];
      [|discriminate].
    unfold bind at 1. unfold gets at 1. unfold bind at 1.
    pose proof (choose_source_in_range name' (length sources)
                  (S (length (stdin w4))) w4) as Hc.
    destruct (choose_source (S (length (stdin w4))) name' (length sources) w4)
      as [[[ci|]|e] w5]; cbn [fst] in Hc; unfold ret; try discriminate.
    intros H. inversion H; subst. specialize (Hc i eq_refl).
    split; [reflexivity|]. split; assumption. }
  unfold bind at 1.
  destruct repo as [r|].
  - destruct (PyStr.truthy r && (1 <? length sources)) eqn:Hcond.
    + apply andb_true_iff in Hcond. destruct Hcond as [_ Hlen].
      apply Nat.ltb_lt in Hlen.
      destruct (match_repo r sources 0%Z w2) as [[[j|]|e] w3] eqn:Hm;
        [| |discriminate].
      * unfold ret. intros H. inversion H; subst.
        apply match_repo_spec in Hm.
        destruct Hm as [_ [before [s [after [Hs [Hj _]]]]]].
        exists spec, sources. split; [exact Hspec|]. split; [exact Ho|].
        split; [exact Hlen|]. split; [|apply Hcmd].
        rewrite Hs, length_app. cbn [length]. lia.
      * intros H. apply Hchooser in H. destruct H as [-> [H1 H2]].
        exists spec, sources. repeat split; try assumption; try lia.
        apply Hcmd.
    + unfold ret at 1. intros H. apply Hchooser in H.
      destruct H as [-> [H1 H2]].
      exists spec, sources. repeat split; try assumption; try lia.
      apply Hcmd.
  - unfold ret at 1. intros H. apply Hchooser in H.
    destruct H as [-> [H1 H2]].
    exists spec, sources. repeat split; try assumption; try lia.
    apply Hcmd.
Qed.

Lemma resolved_index_in_range_witness :
  let w := Demo.world_of [("c1", "argocd login svc.example.com")] ["1"] in
  fst (resolve_target two_sources_host "c1" "web" None None w)
  = Ret (Some ("c1", two_sources, Some 1%Z))
  /\ exists spec sources,
       PyVal.get two_sources "spec" (JDict []) = Ret spec
       /\ (forall w0, sources_of spec w0 = (Ret sources, w0))
       /\ 1 < length sources
       /\ (0 <= 1 < Z.of_nat (length sources))%Z
       /\ forall revision,
            exists pre,
              set_cmd "web" revision None (Some 1%Z)
              = pre ++ ["--source-position"; PyStr.of_Z (1 + 1)].
Proof.
  intros w. split; [reflexivity|].
  refine (resolved_index_in_range two_sources_host "c1" "web" None w
            (snd (resolve_target two_sources_host "c1" "web" None None w))
            "c1" two_sources 1%Z _).
  reflexivity.
Defined.

(** X12 (manager.py, set_application_target_revision, lines 430-473).  A
    source index given by the caller is taken as it is: the resolution
    answers that very index, and it answers any other index in the same
    way, in the same world, so that no index is refused for the number of
    sources the application has; a dry run then prints the command with
    that index plus one as the source position. *)
Theorem explicit_index_is_not_checked (host : Host) (cluster app : string)
    (repo : option string) (i i' : Z) (w w' : World) (name : string)
    (status : json) (idx : option Z) :
  resolve_target host cluster app repo (Some i) w
    = (Ret (Some (name, status, idx)), w') ->
  idx = Some i
  /\ resolve_target host cluster app repo (Some i') w
     = (Ret (Some (name, status, Some i')), w')
  /\ forall revision,
       set_application_target_revision host cluster app revision repo
         (Some i') true w
       = (Ret true, after (dry_run_notice app revision repo (Some i')) w').
Proof.
  intros H.
  assert (Hboth : idx = Some i
                  /\ resolve_target host cluster app repo (Some i') w
                     = (Ret (Some (name, status, Some i')), w')).
  { revert H. unfold resolve_target, bind, PyVal.lift.
    destruct (validate_cluster host cluster w) as [[name'|e] w1];
      [|discriminate].
    destruct (get_application_status host name' app w1) as [[st|e] w2];
      [|discriminate].
    destruct (negb (PyVal.truthy st)).
    { unfold print, emit, ret. discriminate. }
    destruct (PyVal.get st "spec" (JDict [])) as [spec|e]; [|discriminate].
    destruct (sources_of_pure spec) as [o Ho]. rewrite !Ho.
    destruct o as [sources|e]; [|discriminate].
    unfold ret.
    destruct repo as [r|]; intros H; inversion H; subst;
      split; reflexivity. }
  destruct Hboth as [Hidx Hres]. split; [exact Hidx|]. split; [exact Hres|].
  intros revision. unfold set_application_target_revision, bind.
  rewrite Hres. reflexivity.
Qed.

Lemma explicit_index_is_not_checked_witness :
  let w := Demo.world_of [("c1", "argocd login svc.example.com")] [] in
  resolve_target two_sources_host "c1" "web" None (Some 0%Z) w
  = (Ret (Some ("c1", two_sources, Some 0%Z)),
     snd (resolve_target two_sources_host "c1" "web" None (Some 0%Z) w))
  /\ fst (set_application_target_revision two_sources_host "c1" "web" "v2"
            None (Some 7%Z) true w)
     = Ret true.
Proof.
  intros w. split; [reflexivity|].
  refine (f_equal fst
            (proj2 (proj2 (explicit_index_is_not_checked two_sources_host
                             "c1" "web" None 0%Z 7%Z w
                             (snd (resolve_target two_sources_host "c1" "web"
                                     None (Some 0%Z) w))
                             "c1" two_sources (Some 0%Z) _))
               "v2")).
  reflexivity.
Defined.

(** ** Answers to a confirmation *)

Lemma append_cons (c : ascii) (a b : string) :
  String c a +++ b = String c (a +++ b).
Proof. reflexivity. Qed.

Lemma append_nil (b : string) : EmptyString +++ b = b.
Proof. reflexivity. Qed.

Lemma lstrip_by_blank (p : ascii -> bool) (pre s : string) :
  PyStr.all_chars p pre = true ->
  PyStr.lstrip_by p (pre +++ s) = PyStr.lstrip_by p s.
Proof.
  induction pre as [|c pre IH]; [reflexivity|].
  rewrite append_cons. cbn.
  intros H. apply andb_true_iff in H. destruct H as [Hc Hpre].
  rewrite Hc. auto.
Qed.

Lemma lstrip_by_all (p : ascii -> bool) (s : string) :
  PyStr.all_chars p s = true -> PyStr.lstrip_by p s = EmptyString.
Proof.
  induction s as [|c s IH]; cbn; [reflexivity|].
  intros H. apply andb_true_iff in H. destruct H as [Hc Hs].
  rewrite Hc. auto.
Qed.

Lemma rstrip_by_all (p : ascii -> bool) (s : string) :
  PyStr.all_chars p s = true -> PyStr.rstrip_by p s = EmptyString.
Proof.
  induction s as [|c s IH]; cbn; [reflexivity|].
  intros H. apply andb_true_iff in H. destruct H as [Hc Hs].
  rewrite (IH Hs), Hc. reflexivity.
Qed.

Lemma rstrip_by_blank (p : ascii -> bool) (s post : string) :
  PyStr.all_chars p post = true ->
  PyStr.rstrip_by p (s +++ post) = PyStr.rstrip_by p s.
Proof.
  intros Hpost. induction s as [|c s IH].
  - rewrite append_nil. cbn. apply rstrip_by_all, Hpost.
  - rewrite append_cons. cbn. rewrite IH. reflexivity.
Qed.

Lemma rstrip_by_solid (p : ascii -> bool) (s : string) :
  PyStr.all_chars (fun c => negb (p c)) s = true -> PyStr.rstrip_by p s = s.
Proof.
  induction s as [|c s IH]; cbn; [reflexivity|].
  intros H. apply andb_true_iff in H. destruct H as [Hc Hs].
  apply negb_true_iff in Hc. rewrite (IH Hs), Hc. reflexivity.
Qed.

(** Stripping removes the blanks around a word and nothing else. *)
Lemma strip_padded (pre word post : string) :
  PyStr.all_chars PyStr.isspace pre = true ->
  PyStr.all_chars PyStr.isspace post = true ->
  PyStr.all_chars (fun c => negb (PyStr.isspace c)) word = true ->
  PyStr.strip (pre +++ word +++ post) = word.
Proof.
  intros Hpre Hpost Hword. unfold PyStr.strip.
  rewrite lstrip_by_blank by exact Hpre.
  destruct word as [|c word].
  - rewrite append_nil, lstrip_by_all by exact Hpost. reflexivity.
  - cbn in Hword. apply andb_true_iff in Hword. destruct Hword as [Hc Hw].
    apply negb_true_iff in Hc.
    assert (E : PyStr.lstrip_by PyStr.isspace (String c word +++ post)
                = String c word +++ post).
    { rewrite append_cons. cbn. rewrite Hc. reflexivity. }
    rewrite E, rstrip_by_blank by exact Hpost.
    apply rstrip_by_solid. cbn. rewrite Hc, Hw. reflexivity.
Qed.

(** X13 (manager.py, confirm_action).  A confirmation reads one line and
    judges the word that is left when the blanks around it are removed:
    no word at all gives the default of the question; the words y and yes,
    in any letter case, give true whatever the default; every other word
    gives false, also when the default is true. *)
Theorem confirm_action_answer (host : Host) (prompt : string)
    (default : bool) (color : option string) (w : World)
    (pre word post : string) (rest : list string) :
  stdin w = (pre +++ word +++ post) :: rest ->
  PyStr.all_chars PyStr.isspace pre = true ->
  PyStr.all_chars PyStr.isspace post = true ->
  PyStr.all_chars (fun c => negb (PyStr.isspace c)) word = true ->
  exists question,
    confirm_action host prompt default color w
    = (Ret (if PyStr.is_empty word then default
            else PyStr.mem (PyStr.lower word) ["y"; "yes"]),
       set_stdin rest (after (EvInput question) w)).
Proof.
  intros Hin Hpre Hpost Hword.
  unfold confirm_action, input, bind, emit, after.
  cbn [stdin set_trace]. rewrite Hin.
  rewrite (strip_padded pre word post Hpre Hpost Hword).
  eexists.
  assert (Hempty : PyStr.is_empty (PyStr.lower word) = PyStr.is_empty word)
    by (destruct word; reflexivity).
  rewrite Hempty. destruct (PyStr.is_empty word); reflexivity.
Qed.

Lemma confirm_action_answer_witness :
  let line := String (ascii_of_nat 9) "  YeS " in
  let w := Demo.world_of [] [line; "later"] in
  exists question,
    confirm_action (Demo.host_of [] (fun _ => TimedOut)) "Sync 'web'?" false
      None w
    = (Ret true, set_stdin ["later"] (after (EvInput question) w)).
Proof.
  intros line w.
  refine (confirm_action_answer (Demo.host_of [] (fun _ => TimedOut))
            "Sync 'web'?" false None w (String (ascii_of_nat 9) "  ") "YeS"
            " " ["later"] _ _ _ _); reflexivity.
Defined.

(** ** The configuration file *)

Section ConfigFileFacts.

Variable host : Host.
Variable decode_error : string -> string.

(** Loading, case by case. *)
Lemma load_config_eq (path : string) (s : Store) :
  load_config host decode_error path s =
    if Dict.has path (files (disk s)) then
      match read_error (disk s) path with
      | Some msg =>
          (Raise (ConfigurationError ("Failed to load config: " +++ msg)), s)
      | None =>
          match Dict.get path (files (disk s)) with
          | None =>
              (Raise (ConfigurationError
                        ("Failed to load config: "
                         +++ missing_error (disk s) path)), s)
          | Some text =>
              match json_loads host text with
              | None =>
                  (Raise (ConfigurationError
                            ("Invalid JSON in config file: "
                             +++ decode_error text)), s)
              | Some cfg =>
                  if PyVal.truthy cfg then (Ret cfg, s)
                  else (Raise (ConfigurationError
                                 "Failed to load config: Configuration file is empty"),
                        s)
              end
          end
      end
    else
      match write_error (disk s) path with
      | Some msg =>
          (Raise (ConfigurationError ("Failed to load config: " +++ msg)), s)
      | None =>
          (Ret (config_document DEFAULT_CONFIG),
           mkStore (world s)
             (set_files (Dict.set path (dump_config DEFAULT_CONFIG)
                           (files (disk s))) (disk s)))
      end.
Proof.
  unfold load_config, try_exceptS, bindS, path_exists, json_load, bindS,
    read_text, write_text, retS, raiseS.
  destruct (Dict.has path (files (disk s))); cbn [negb].
  - destruct (read_error (disk s) path) as [msg|]; [reflexivity|].
    destruct (Dict.get path (files (disk s))) as [text|]; [|reflexivity].
    destruct (json_loads host text) as [cfg|]; [|reflexivity].
    destruct (PyVal.truthy cfg); reflexivity.
  - destruct (write_error (disk s) path) as [msg|]; reflexivity.
Qed.

Lemma save_config_eq (config : list (string * string)) (path : string)
    (s : Store) :
  save_config config path s =
    match write_error (disk s) path with
    | Some msg =>
        (Raise (ConfigurationError ("Failed to save config: " +++ msg)), s)
    | None =>
        (Ret tt,
         mkStore (world s)
           (set_files (Dict.set path (dump_config config) (files (disk s)))
              (disk s)))
    end.
Proof.
  unfold save_config, try_exceptS, write_text, raiseS.
  destruct (write_error (disk s) path); reflexivity.
Qed.

End ConfigFileFacts.

Lemma dict_has_get {V} (k : string) (d : list (string * V)) :
  Dict.has k d = true <-> exists v, Dict.get k d = Some v.
Proof.
  unfold Dict.has. rewrite mem_In. split.
  - apply dict_get_in_keys.
  - intros [v H]. eapply dict_get_some_in_keys. exact H.
Qed.

Lemma dict_get_set_same {V} (k : string) (v : V) (d : list (string * V)) :
  Dict.get k (Dict.set k v d) = Some v.
Proof.
  induction d as [|[k0 v0] d IH]; cbn.
  - rewrite String.eqb_refl. reflexivity.
  - destruct (String.eqb k k0) eqn:E; cbn; rewrite ?String.eqb_refl, ?E;
      [reflexivity | exact IH].
Qed.

Lemma dict_get_set_other {V} (k k' : string) (v : V) (d : list (string * V)) :
  k' <> k -> Dict.get k' (Dict.set k v d) = Dict.get k' d.
Proof.
  intros Hne. induction d as [|[k0 v0] d IH]; cbn.
  - destruct (String.eqb_spec k' k); [contradiction | reflexivity].
  - destruct (String.eqb_spec k k0) as [E|N]; cbn.
    + subst k0. destruct (String.eqb_spec k' k); [contradiction | reflexivity].
    + destruct (String.eqb k' k0); [reflexivity | exact IH].
Qed.

(** X14 (config.py, load_config).  Loading the configuration never
    touches the manager and never changes a file that exists; what it
    returns is never an empty document; and whatever goes wrong, a file
    that cannot be read or created, a text that is not JSON, an empty
    document, reaches the caller as a [ConfigurationError]. *)
Theorem load_config_outcomes (host : Host) (decode_error : string -> string)
    (path : string) (s : Store) :
  let r := load_config host decode_error path s in
  world (snd r) = world s
  /\ (Dict.has path (files (disk s)) = true -> snd r = s)
  /\ (forall other,
        other <> path ->
        Dict.get other (files (disk (snd r))) = Dict.get other (files (disk s)))
  /\ match fst r with
     | Ret cfg => PyVal.truthy cfg = true
     | Raise e => exists msg, e = ConfigurationError msg
     end.
Proof.
  cbv zeta. rewrite load_config_eq.
  destruct (Dict.has path (files (disk s))).
  - destruct (read_error (disk s) path) as [msg|];
      [cbn [fst snd]; repeat split; eauto|].
    destruct (Dict.get path (files (disk s))) as [text|];
      [|cbn [fst snd]; repeat split; eauto].
    destruct (json_loads host text) as [cfg|];
      [|cbn [fst snd]; repeat split; eauto].
    destruct (PyVal.truthy cfg) eqn:Ht; cbn [fst snd]; repeat split; eauto.
  - destruct (write_error (disk s) path) as [msg|].
    + cbn [fst snd]. repeat split; eauto.
    + split; [reflexivity|]. split; [discriminate|]. split; [|reflexivity].
      intros other Hne. cbn. apply dict_get_set_other. exact Hne.
Qed.

(** X15 (config.py, load_config, lines 29-35).  For a file that exists
    and can be read, the text decides: a text that is not JSON fails as
    invalid JSON with the decoder's message; a document that is falsy
    fails with the message of the empty configuration behind the prefix of
    the general clause, which catches the error raised two lines above
    it; any other document is returned. *)
Theorem load_config_messages (host : Host) (decode_error : string -> string)
    (path text : string) (s : Store) :
  Dict.get path (files (disk s)) = Some text ->
  read_error (disk s) path = None ->
  load_config host decode_error path s =
    (match json_loads host text with
     | None =>
         Raise (ConfigurationError
                  ("Invalid JSON in config file: " +++ decode_error text))
     | Some cfg =>
         if PyVal.truthy cfg then Ret cfg
         else Raise (ConfigurationError
                       "Failed to load config: Configuration file is empty")
     end, s).
Proof.
  intros Hget Hread. rewrite load_config_eq.
  assert (Hhas : Dict.has path (files (disk s)) = true)
    by (apply dict_has_get; eauto).
  rewrite Hhas, Hread, Hget.
  destruct (json_loads host text) as [cfg|]; [|reflexivity].
  destruct (PyVal.truthy cfg); reflexivity.
Qed.

Lemma load_config_messages_witness :
  let d := mkDisk [("/home/op/.argocd_urls.json", "{}")] (fun _ => None)
                  (fun _ => None) (fun _ => "No such file or directory") in
  let s := mkStore (Demo.world_of [] []) d in
  let host := Demo.host_of [("{}", JDict [])] (fun _ => TimedOut) in
  load_config host (fun _ => "Expecting value")
    "/home/op/.argocd_urls.json" s
  = (Raise (ConfigurationError
              "Failed to load config: Configuration file is empty"), s).
Proof.
  intros d s host.
  refine (load_config_messages host (fun _ => "Expecting value")
            "/home/op/.argocd_urls.json" "{}" s _ _); reflexivity.
Defined.

(** X16 (config.py, save_config and load_config).  What is saved is what
    is loaded next, as far as the decoder reads the saved text back: after
    a save that succeeds, a load from the same path changes nothing and
    returns the saved configuration, unless that configuration has no
    entry, in which case the load fails as for an empty file. *)
Theorem save_then_load (host : Host) (decode_error : string -> string)
    (config : list (string * string)) (path : string) (s : Store) :
  write_error (disk s) path = None ->
  read_error (disk s) path = None ->
  json_loads host (dump_config config) = Some (config_document config) ->
  let saved := save_config config path s in
  fst saved = Ret tt
  /\ world (snd saved) = world s
  /\ load_config host decode_error path (snd saved)
     = (match config with
        | [] => Raise (ConfigurationError
                         "Failed to load config: Configuration file is empty")
        | _ => Ret (config_document config)
        end, snd saved).
Proof.
  intros Hwrite Hread Hparse. cbv zeta.
  rewrite save_config_eq, Hwrite. cbn [fst snd world].
  split; [reflexivity|]. split; [reflexivity|].
  rewrite load_config_eq. cbn [disk files set_files read_error].
  assert (Hget : Dict.get path (Dict.set path (dump_config config)
                                  (files (disk s)))
                 = Some (dump_config config)) by apply dict_get_set_same.
  assert (Hhas : Dict.has path (Dict.set path (dump_config config)
                                  (files (disk s))) = true)
    by (apply dict_has_get; eauto).
  rewrite Hhas, Hread, Hget, Hparse.
  destruct config as [|item rest]; reflexivity.
Qed.

Lemma save_then_load_witness :
  let d := mkDisk [] (fun _ => None) (fun _ => None)
                  (fun _ => "No such file or directory") in
  let s := mkStore (Demo.world_of [] []) d in
  let config := [("dev", "argocd login dev.example.com --grpc-web")] in
  let host := Demo.host_of [(dump_config config, config_document config)]
                (fun _ => TimedOut) in
  fst (load_config host (fun _ => "Expecting value") "cfg.json"
         (snd (save_config config "cfg.json" s)))
  = Ret (config_document config).
Proof.
  intros d s config host.
  refine (f_equal fst
            (proj2 (proj2 (save_then_load host (fun _ => "Expecting value")
                             config "cfg.json" s _ _ _)))); reflexivity.
Defined.

(** ** The connections *)








Section Connections.

Variable host : Host.
Variable path : string.


End Connections.





(** ** The clusters a command line selects *)

Section Selection.

Variable host : Host.
Variable fnmatch : string -> string -> bool.

Lemma expand_patterns_spec (available : list string)
    (raw_patterns : list string) :
  forall clusters w,
    exists result notes,
      expand_patterns host fnmatch available raw_patterns clusters w
      = (Ret result, after_all notes w)
      /\ forallb is_note notes = true
      /\ forall c,
           In c result <->
           In c clusters
           \/ (In c available /\ selected_by fnmatch raw_patterns c).
Proof.
  induction raw_patterns as [|p rest IH]; intros clusters w.
  - exists clusters, []. split; [reflexivity|]. split; [reflexivity|].
    intros c. split; [now left|].
    intros [H|[_ [p [[] _]]]]. exact H.
  - cbn [expand_patterns]. cbv zeta.
    destruct (filter (fun c => fnmatch (PyStr.lower c) (PyStr.lower p))
                available) as [|m ms] eqn:Hf.
    + unfold bind at 1. unfold print at 1, emit at 1.
      match goal with
      | |- context [expand_patterns host fnmatch available rest clusters ?w0] =>
          destruct (IH clusters w0) as [result [notes [E [N S]]]]
      end.
      exists result. eexists (_ :: notes). split; [rewrite E; reflexivity|].
      split; [exact N|].
      intros c. rewrite S. split.
      * intros [H|[Ha [q [Hq Hm]]]]; [now left|].
        right. split; [exact Ha|]. exists q. split; [now right | exact Hm].
      * intros [H|[Ha [q [[->|Hq] Hm]]]]; [now left| |].
        -- exfalso.
           assert (Hin : In c (filter (fun c => fnmatch (PyStr.lower c)
                                                  (PyStr.lower q)) available))
             by (apply filter_In; split; assumption).
           rewrite Hf in Hin. exact Hin.
        -- right. split; [exact Ha|]. exists q. split; assumption.
    + rewrite <- Hf.
      destruct (IH (clusters ++ filter (fun c => fnmatch (PyStr.lower c)
                                                   (PyStr.lower p)) available)
                  w) as [result [notes [E [N S]]]].
      exists result, notes. split; [exact E|]. split; [exact N|].
      intros c. rewrite S, in_app_iff, filter_In. split.
      * intros [[H|[Ha Hm]]|[Ha [q [Hq Hm]]]].
        -- now left.
        -- right. split; [exact Ha|]. exists p. split; [now left | exact Hm].
        -- right. split; [exact Ha|]. exists q. split; [now right | exact Hm].
      * intros [H|[Ha [q [[->|Hq] Hm]]]].
        -- left. now left.
        -- left. right. split; assumption.
        -- right. split; [exact Ha|]. exists q. split; assumption.
Qed.

Lemma dedup_spec (clusters : list string) :
  forall seen,
    NoDup (dedup seen clusters)
    /\ forall c, In c (dedup seen clusters) <-> In c clusters /\ ~ In c seen.
Proof.
  induction clusters as [|x rest IH]; intros seen; cbn [dedup].
  - split; [constructor|]. intros c. split; [contradiction | intros [[] _]].
  - destruct (PyStr.mem x seen) eqn:Hmem.
    + apply mem_In in Hmem. destruct (IH seen) as [Hnd Hin].
      split; [exact Hnd|]. intros c. rewrite Hin. split.
      * intros [H1 H2]. split; [now right | exact H2].
      * intros [[->|H1] H2]; [contradiction | split; assumption].
    + apply mem_false_not_In in Hmem. destruct (IH (x :: seen)) as [Hnd Hin].
      split.
      * constructor; [|exact Hnd]. intros H. apply Hin in H.
        destruct H as [_ H]. apply H. now left.
      * intros c. cbn [In]. rewrite Hin. cbn [In]. split.
        -- intros [->|[H1 H2]]; [split; [now left | exact Hmem]|].
           split; [now right|]. intros H. apply H2. now right.
        -- intros [[->|H1] H2]; [now left|].
           destruct (string_dec x c) as [->|Hne]; [now left|].
           right. split; [exact H1|]. intros [E|H]; [contradiction|].
           contradiction.
Qed.

End Selection.

(** X20 (cli.py, run, the selection of clusters for set-target).  The
    clusters that the command works on are exactly the configured names
    that match one of the patterns, letter case apart, each of them once;
    the selection only prints; every selected name then resolves to itself
    without a warning; and the command gives up, with nothing selected,
    exactly when no configured name matches any pattern. *)
Theorem select_clusters_exact (host : Host)
    (fnmatch : string -> string -> bool) (raw_patterns : list string)
    (w : World) :
  let r := select_clusters host fnmatch raw_patterns w in
  let matching c :=
    In c (Dict.keys (config w)) /\ selected_by fnmatch raw_patterns c in
  (exists notes,
     snd r = after_all notes w /\ forallb is_note notes = true)
  /\ match fst r with
     | Ret (Some clusters) =>
         clusters <> []
         /\ NoDup clusters
         /\ (forall c, In c clusters <-> matching c)
         /\ forall c, In c clusters ->
              validate_cluster host c (snd r) = (Ret c, snd r)
     | Ret None => forall c, ~ matching c
     | Raise _ => False
     end.
Proof.
  cbv zeta.
  destruct (expand_patterns_spec host fnmatch (Dict.keys (config w))
              raw_patterns [] w) as [result [notes [E [N S]]]].
  destruct (dedup_spec result []) as [Hnd Hin].
  destruct (after_all_trace notes w) as [Ht [Hc _]].
  assert (Hmatch : forall c,
            In c (dedup [] result) <->
            In c (Dict.keys (config w)) /\ selected_by fnmatch raw_patterns c).
  { intros c. rewrite Hin, S. split.
    - intros [[[]|H] _]. exact H.
    - intros H. split; [now right | intros []]. }
  assert (Hr : select_clusters host fnmatch raw_patterns w
               = match dedup [] result with
                 | [] =>
                     (Ret None,
                      after (EvPrint (FAIL (colors host)
                                      +++ "No clusters to operate on."
                                      +++ ENDC (colors host)))
                        (after_all notes w))
                 | _ => (Ret (Some (dedup [] result)), after_all notes w)
                 end).
  { unfold select_clusters. unfold bind at 1. unfold gets at 1.
    unfold bind at 1. rewrite E.
    destruct (dedup [] result); reflexivity. }
  rewrite Hr.
  destruct (dedup [] result) as [|c0 cs] eqn:Hd; cbn [fst snd].
  - split.
    + exists (notes ++ [EvPrint (FAIL (colors host)
                                 +++ "No clusters to operate on."
                                 +++ ENDC (colors host))]).
      split.
      * unfold after_all. rewrite fold_left_app. reflexivity.
      * rewrite forallb_app, N. reflexivity.
    + intros c H. apply Hmatch in H. exact H.
  - split.
    + exists notes. split; [reflexivity | exact N].
    + split; [discriminate|]. split; [exact Hnd|]. split; [exact Hmatch|].
      intros c Hc'. apply validate_cluster_exact. rewrite Hc.
      apply Hmatch in Hc'. apply Hc'.
Qed.

(** ** Name resolution, once more *)

(** X21 (manager.py, fuzzy_match).  The answer of the fuzzy match is the
    query itself when it is among the choices, and otherwise a choice
    whose similarity to the query reaches the threshold, is positive, is
    not exceeded by any choice and is not reached by any earlier choice;
    there is no answer when no choice has a positive similarity that
    reaches the threshold. *)
Theorem fuzzy_match_answer (host : Host) (query : string)
    (choices : list string) (threshold : Q) :
  (In query choices -> fuzzy_match host query choices threshold = Some query)
  /\ (forall found,
        ~ In query choices ->
        fuzzy_match host query choices threshold = Some found ->
        exists before after,
          choices = before ++ found :: after
          /\ (threshold <= similarity host query found)%Q
          /\ (0 < similarity host query found)%Q
          /\ (forall c, In c before ->
                (similarity host query c < similarity host query found)%Q)
          /\ (forall c, In c after ->
                (similarity host query c <= similarity host query found)%Q))
  /\ (~ In query choices ->
      (forall c, In c choices ->
         (similarity host query c < threshold)%Q
         \/ (similarity host query c <= 0)%Q) ->
      fuzzy_match host query choices threshold = None).
Proof.
  unfold fuzzy_match, similarity. split; [|split].
  - intros Hin. apply mem_In in Hin. rewrite Hin. reflexivity.
  - intros found Hno H. apply mem_false_not_In in Hno. rewrite Hno in H.
    apply fuzzy_loop_sound in H.
    destruct H as [[Hb _]|[before [after [Hs [[A1 A2] [Hbef Haft]]]]]];
      [discriminate|].
    exists before, after. repeat split; assumption.
  - intros Hno Hall. apply mem_false_not_In in Hno. rewrite Hno.
    apply fuzzy_loop_none_accepted. intros c Hc [A1 A2].
    destruct (Hall c Hc) as [H|H].
    + eapply Qlt_not_le; eassumption.
    + eapply Qlt_not_le; eassumption.
Qed.

Lemma fuzzy_match_answer_witness :
  let host := Demo.host_of [] (fun _ => TimedOut) in
  let choices := ["paywell-prod"; "paywell-acc"] in
  fuzzy_match host "paywell-ac" choices default_threshold = Some "paywell-acc"
  /\ exists before after,
       choices = before ++ "paywell-acc" :: after
       /\ (default_threshold <= similarity host "paywell-ac" "paywell-acc")%Q
       /\ (0 < similarity host "paywell-ac" "paywell-acc")%Q
       /\ (forall c, In c before ->
             (similarity host "paywell-ac" c
              < similarity host "paywell-ac" "paywell-acc")%Q)
       /\ (forall c, In c after ->
             (similarity host "paywell-ac" c
              <= similarity host "paywell-ac" "paywell-acc")%Q).
Proof.
  intros host choices. split; [reflexivity|].
  refine (proj1 (proj2 (fuzzy_match_answer host "paywell-ac" choices
                          default_threshold)) "paywell-acc" _ _).
  - intros [H|[H|[]]]; discriminate.
  - reflexivity.
Defined.

(** X22 (manager.py, validate_cluster).  Whatever the resolution answers
    is a configured name, and resolving an answer again, in any world
    with the same configuration, gives it back without a warning: the
    case-insensitive and the fuzzy steps act on the first resolution
    only. *)
Theorem validate_cluster_idempotent (host : Host) (query name : string)
    (w w' : World) :
  fst (validate_cluster host query w) = Ret name ->
  config w' = config w ->
  In name (Dict.keys (config w))
  /\ config (snd (validate_cluster host query w)) = config w
  /\ validate_cluster host name w' = (Ret name, w').
Proof.
  intros H Hcfg.
  destruct (validate_cluster_frame host query w) as [_ Hkey].
  destruct (validate_cluster_config host query w) as [Hc _].
  split; [apply Hkey, H|]. split; [exact Hc|].
  apply validate_cluster_exact. rewrite Hcfg. apply Hkey, H.
Qed.

Lemma validate_cluster_idempotent_witness :
  let host := Demo.host_of [] (fun _ => TimedOut) in
  let w := Demo.world_of [("Paywell-Acc", "argocd login acc.example.com")] [] in
  fst (validate_cluster host "paywell-acc" w) = Ret "Paywell-Acc"
  /\ validate_cluster host "Paywell-Acc"
       (snd (validate_cluster host "paywell-acc" w))
     = (Ret "Paywell-Acc", snd (validate_cluster host "paywell-acc" w)).
Proof.
  intros host w. split; [reflexivity|].
  refine (proj2 (proj2 (validate_cluster_idempotent host "paywell-acc"
                          "Paywell-Acc" w
                          (snd (validate_cluster host "paywell-acc" w))
                          _ _))); reflexivity.
Defined.

(** ** The login-recovery cycle and the confirmation set *)

Lemma confirm_production_member (name : string) (w : World) :
  PyStr.mem name (confirmed_production (snd (confirm_production name w)))
  = true.
Proof.
  unfold confirm_production. cbn [snd].
  destruct (PyStr.mem name (confirmed_production w)) eqn:E; [exact E|].
  cbn [confirmed_production set_confirmed]. apply mem_In.
  apply in_or_app. right. now left.
Qed.

Lemma poll_verified_member (host : Host) (cluster : string) (quiet v : bool)
    (w : World) :
  looks_like_production cluster = true ->
  PyStr.mem cluster (confirmed_production (poll_verified host cluster quiet v w))
  = true.
Proof.
  intros Hprod. unfold poll_verified, bind, when. rewrite Hprod.
  destruct (negb quiet && negb v).
  - unfold print, emit. apply confirm_production_member.
  - unfold ret. apply confirm_production_member.
Qed.

Lemma poll_loop_true (host : Host) (cluster : string) (quiet : bool)
    (attempts : list nat) :
  forall w,
    fst (poll_loop host cluster quiet attempts w) = Ret true ->
    (looks_like_production cluster = true ->
     PyStr.mem cluster
       (confirmed_production (snd (poll_loop host cluster quiet attempts w)))
     = true)
    /\ count (is_execute_with 5) (trace w) + 1
       <= count (is_execute_with 5)
            (trace (snd (poll_loop host cluster quiet attempts w))).
Proof.
  induction attempts as [|n rest IH]; intros w; [discriminate|].
  rewrite poll_loop_cons.
  pose proof (execute_count_calls host cluster poll_cmd 5 quiet w 5) as Hc.
  change (5 =? 5)%Z with true in Hc. cbv iota in Hc.
  destruct (execute_argocd_command host cluster poll_cmd 5 quiet w)
    as [[out|e] w1]; cbn [fst snd] in *.
  - intros _. split; [apply poll_verified_member|].
    destruct (poll_verified_trace host cluster quiet (verbose w) w1)
      as [notes [E F]].
    rewrite E, (count_with_notes _ _ _ polls_ignore_notes F). lia.
  - destruct e; try discriminate.
    destruct (still_unauthenticated msg); [|discriminate].
    intros H. destruct (IH _ H) as [H1 H2]. split; [exact H1|].
    cbn [after trace set_trace] in H2. rewrite count_snoc in H2.
    cbn [is_execute_with] in H2. lia.
Qed.

(** X23 (manager.py, _handle_oidc_login).  The login-recovery cycle
    answers true only after a poll has succeeded: the stored login command
    is not empty and was launched, a poll issued after that launch
    returned normally, and the world the cycle leaves is the world of that
    poll with the notice of the verification and, for a cluster whose name
    looks like production, its entry in the confirmation set added, so
    that the retried call does not ask again. *)
Theorem login_true_means_verified (host : Host) (cluster : string)
    (quiet : bool) (w : World) :
  let r := _handle_oidc_login host cluster quiet w in
  fst r = Ret true ->
  (exists login_cmd parts w1 out w2 pre,
     Dict.get cluster (config w) = Some login_cmd
     /\ PyStr.truthy login_cmd = true
     /\ shlex_split host login_cmd = Some parts
     /\ config w1 = config w
     /\ trace w1 = trace w ++ pre
     /\ In (EvRun parts None) pre
     /\ execute_argocd_command host cluster poll_cmd 5 quiet w1 = (Ret out, w2)
     /\ snd r = poll_verified host cluster quiet (verbose w1) w2)
  /\ count (is_execute_with 5) (trace w) + 1
     <= count (is_execute_with 5) (trace (snd r))
  /\ count is_run (trace w) + 1 <= count is_run (trace (snd r))
  /\ (looks_like_production cluster = true ->
      PyStr.mem cluster (confirmed_production (snd r)) = true).
Proof.
  cbv zeta. intros Htrue.
  split; [exact (login_succeeded host cluster quiet w Htrue)|].
  revert Htrue. rewrite login_eq.
  destruct (Dict.get cluster (config w)) as [login_cmd|]; [|discriminate].
  destruct (PyStr.truthy login_cmd) eqn:Ht; [|discriminate]. cbn [negb].
  cbv zeta.
  destruct (login_notes host cluster login_cmd quiet (verbose w)
              EmptyString EmptyString) as [N1 [N2 _]].
  destruct (shlex_split host login_cmd) as [parts|]; [|discriminate].
  set (w2 := after (EvRun parts None) _).
  assert (Hpolls : count (is_execute_with 5) (trace w2)
                   = count (is_execute_with 5) (trace w)).
  { subst w2. cbn [after trace set_trace]. rewrite count_snoc.
    cbn [is_execute_with].
    destruct (after_all_trace (login_announce host quiet (verbose w))
                (after_all (login_notice host cluster login_cmd quiet
                              (verbose w)) w)) as [T2 _].
    destruct (after_all_trace (login_notice host cluster login_cmd quiet
                                 (verbose w)) w) as [T1 _].
    rewrite T2, T1.
    rewrite !(count_with_notes _ _ _ polls_ignore_notes) by assumption.
    lia. }
  assert (Hruns : count is_run (trace w) + 1 <= count is_run (trace w2)).
  { subst w2. cbn [after trace set_trace]. rewrite count_snoc.
    cbn [is_run].
    destruct (after_all_trace (login_announce host quiet (verbose w))
                (after_all (login_notice host cluster login_cmd quiet
                              (verbose w)) w)) as [T2 _].
    destruct (after_all_trace (login_notice host cluster login_cmd quiet
                                 (verbose w)) w) as [T1 _].
    rewrite T2, T1, !count_app. lia. }
  destruct (subprocess_run host (trace w2)) as [rc out err| |n m];
    try discriminate.
  intros H.
  destruct (login_notes host cluster login_cmd quiet (verbose w) out err)
    as [_ [_ N3]].
  destruct (after_all_trace (login_output host quiet (verbose w) out err) w2)
    as [T3 _].
  destruct (poll_loop_true host cluster quiet (seq 0 poll_attempts) _ H)
    as [Hconf Hcount].
  destruct (poll_loop_extends host cluster quiet (seq 0 poll_attempts)
              (after_all (login_output host quiet (verbose w) out err) w2))
    as [more Hmore].
  split.
  - rewrite T3, (count_with_notes _ _ _ polls_ignore_notes N3) in Hcount.
    lia.
  - split; [|exact Hconf].
    rewrite Hmore, T3, !count_app. lia.
Qed.

(** A production cluster whose poll succeeds at once: the poll is the one
    issued right after the login command was launched. *)
Lemma login_true_means_verified_witness :
  let host := Demo.host_of [("[]", JList [])]
                (fun _ => Completed 0 "[]" "") in
  let w := Demo.world_of [("prod-a", "argocd login prod.example.com")]
             ["y"] in
  let r := _handle_oidc_login host "prod-a" false w in
  fst r = Ret true
  /\ (exists login_cmd parts w1 out w2 pre,
        Dict.get "prod-a" (config w) = Some login_cmd
        /\ PyStr.truthy login_cmd = true
        /\ shlex_split host login_cmd = Some parts
        /\ config w1 = config w
        /\ trace w1 = trace w ++ pre
        /\ In (EvRun parts None) pre
        /\ execute_argocd_command host "prod-a" poll_cmd 5 false w1
           = (Ret out, w2)
        /\ snd r = poll_verified host "prod-a" false (verbose w1) w2)
  /\ PyStr.mem "prod-a" (confirmed_production (snd r)) = true.
Proof.
  intros host w r. split; [reflexivity|].
  split.
  - refine (proj1 (login_true_means_verified host "prod-a" false w _)).
    reflexivity.
  - refine (proj2 (proj2 (proj2 (login_true_means_verified host "prod-a" false
                                   w _))) _); reflexivity.
Defined.

(** ** Quiet reads *)

(** X24 (manager.py, _get_application_status and _get_application_diff).
    The quiet flag silences the report of a failed diff but not that of
    a failed status read: after a failure that is no authentication
    failure, the quiet diff leaves the world as the executor left it and
    answers [None], while the quiet status read still prints the
    failure before it answers [None]. *)
Theorem quiet_reads_differ (host : Host) (cluster app : string)
    (msg msg' : string) (w : World) :
  let status_call := execute_argocd_command host cluster
                       ["app"; "get"; app; "--output"; "json"] 30 true w in
  let diff_call := execute_argocd_command host cluster
                     ["app"; "diff"; app] 30 true w in
  is_auth_error (PyStr.lower msg) = false ->
  is_auth_error (PyStr.lower msg') = false ->
  (fst status_call = Raise (CommandExecutionError msg) ->
   _get_application_status host cluster app true w
   = (Ret JNull,
      after (EvPrint (FAIL (colors host) +++ "Failed: " +++ msg
                      +++ ENDC (colors host))) (snd status_call)))
  /\ (fst diff_call = Raise (CommandExecutionError msg') ->
      _get_application_diff host cluster app true w
      = (Ret None, snd diff_call)).
Proof.
  cbv zeta. intros Hmsg Hmsg'. split.
  - intros Hfail. unfold _get_application_status.
    rewrite get_application_status_loop_guarded. change (seq 0 2) with [0; 1].
    rewrite (guarded_cons host cluster _ 30%Z true (loads_or_none host)
               (report_failed host "Failed: " false)
               (failed_notice host "Failed: " false) JNull JNull
               (fun out w0 => proj2 (loads_or_none_pure host out w0))
               (report_failed_eq host "Failed: " false)).
    destruct (execute_argocd_command host cluster
                ["app"; "get"; app; "--output"; "json"] 30 true w)
      as [o w1]. cbn [fst snd] in *. subst o. rewrite Hmsg. reflexivity.
  - intros Hfail. unfold _get_application_diff.
    rewrite get_application_diff_loop_guarded. change (seq 0 2) with [0; 1].
    rewrite (guarded_cons host cluster _ 30%Z true
               (fun out => ret (Some out))
               (report_failed host "Failed: " true)
               (failed_notice host "Failed: " true) None None
               ltac:(discriminate)
               (report_failed_eq host "Failed: " true)).
    destruct (execute_argocd_command host cluster ["app"; "diff"; app] 30
                true w) as [o w1]. cbn [fst snd] in *. subst o.
    rewrite Hmsg'. reflexivity.
Qed.

Lemma quiet_reads_differ_witness :
  let host := Demo.host_of [] (fun _ => Completed 1 "" "not found") in
  let w := Demo.world_of [("c1", "argocd login svc.example.com")] [] in
  fst (_get_application_status host "c1" "web" true w) = Ret JNull
  /\ count is_note (trace (snd (_get_application_status host "c1" "web" true
                                  w)))
     = 1 + count is_note
             (trace (snd (execute_argocd_command host "c1"
                            ["app"; "get"; "web"; "--output"; "json"] 30 true
                            w))).
Proof.
  intros host w.
  pose proof (proj1 (quiet_reads_differ host "c1" "web" "not found"
                       "not found" w eq_refl eq_refl) eq_refl) as H.
  rewrite H. split; reflexivity.
Defined.

(** ** The fallback needs permission *)

(** What the executor adds to the trace holds no launch without a
    timeout. *)
Lemma execute_count_untimed (host : Host) (cluster : string)
    (args : list string) (timeout : Z) (quiet : bool) (w : World) :
  count is_untimed_run
    (trace (snd (execute_argocd_command host cluster args timeout quiet w)))
  = count is_untimed_run (trace w).
Proof.
  destruct (validate_cluster host cluster
              (after (EvExecute cluster args timeout) w))
    as [[name|e] w1] eqn:Hv.
  - destruct (execute_resolved host cluster args timeout quiet w name)
      as [login_cmd [w2 [notes [_ [Htrace [Hnotes [_ [_ [_ Heq]]]]]]]]].
    { rewrite Hv. reflexivity. }
    assert (Hw2 : count is_untimed_run (trace w2)
                  = count is_untimed_run (trace w)).
    { rewrite Htrace, count_app.
      change (count is_untimed_run (EvExecute cluster args timeout :: notes))
        with (count is_untimed_run notes).
      rewrite (count_notes is_untimed_run notes); [lia | | assumption].
      intros [] H; simpl in *; congruence. }
    rewrite Heq, production_gate_eq.
    destruct (looks_like_production name
              && negb (PyStr.mem name (confirmed_production w2))).
    + cbv zeta. destruct (stdin w2) as [|line rest].
      * simpl. rewrite count_snoc. simpl. lia.
      * destruct (says_yes line); simpl; rewrite !count_snoc; simpl; lia.
    + simpl. rewrite count_snoc. simpl. lia.
  - rewrite execute_eq, Hv. apply validate_cluster_raise in Hv.
    destruct Hv as [_ ->]. simpl. rewrite count_snoc. simpl. lia.
Qed.

(** X25 (manager.py, set_application_target_revision, lines 476-487).
    Without the permission to patch, the change of the target revision is
    the one executor call for [argocd app set] and nothing more: at most
    one process is launched, none of them without a timeout, so no
    [kubectl] at all; the answer is true exactly when the executor call
    succeeds; and only the not-found error of the resolution can
    escape. *)
Theorem no_patch_without_permission (host : Host)
    (cluster app revision : string) (repo : option string) (status : json)
    (idx : option Z) (w : World) :
  let primary := execute_argocd_command host cluster
                   (set_cmd app revision repo idx) 30 false w in
  let r := apply_target host cluster app revision repo status idx false w in
  allow_patch w = false ->
  count is_run (trace (snd r)) <= count is_run (trace w) + 1
  /\ count is_untimed_run (trace (snd r)) = count is_untimed_run (trace w)
  /\ count is_set_call (trace (snd r)) = count is_set_call (trace w) + 1
  /\ match fst primary with
     | Ret _ => fst r = Ret true
     | Raise (CommandExecutionError _) => fst r = Ret false
     | Raise e => fst r = Raise e /\ e = not_found cluster
     end.
Proof.
  cbv zeta. intros Hallow.
  pose proof (execute_count_runs host cluster (set_cmd app revision repo idx)
                30 false w) as Hruns.
  pose proof (execute_count_untimed host cluster
                (set_cmd app revision repo idx) 30 false w) as Hunt.
  pose proof (execute_raise_cases host cluster (set_cmd app revision repo idx)
                30 false w) as Hx.
  pose proof (primary_failure_without_fallback host cluster app revision repo
                status idx w) as Hfail. cbv zeta in Hfail.
  assert (Hset : count is_set_call
                   (trace (snd (execute_argocd_command host cluster
                                  (set_cmd app revision repo idx) 30 false w)))
                 = count is_set_call (trace w) + 1).
  { destruct (execute_trace host cluster (set_cmd app revision repo idx) 30
                false w) as [tail [E [F _]]].
    rewrite E, count_app. f_equal.
    unfold count, set_cmd. cbn [filter is_set_call List.app].
    assert (Hnone : filter is_set_call tail = []).
    { clear E. induction tail as [|e tail IH]; [reflexivity|].
      cbn [forallb] in F. apply andb_true_iff in F. destruct F as [F1 F2].
      cbn [filter]. destruct e; cbn in F1; try discriminate;
        cbn [is_set_call]; auto. }
    rewrite Hnone. reflexivity. }
  assert (Hr : apply_target host cluster app revision repo status idx false w
               = match execute_argocd_command host cluster
                         (set_cmd app revision repo idx) 30 false w with
                 | (Ret out, w1) =>
                     (Ret true,
                      if verbose w1 && PyStr.truthy out
                      then after (EvPrint out) w1 else w1)
                 | (Raise (CommandExecutionError err), w1) =>
                     (Ret false,
                      after_all (fallback_disabled_notice host err) w1)
                 | (Raise e, w1) => (Raise e, w1)
                 end).
  { destruct (execute_argocd_command host cluster
                (set_cmd app revision repo idx) 30 false w) as [[out|e] w1]
      eqn:E.
    - unfold apply_target. unfold bind at 1. unfold try_except.
      unfold bind at 1. rewrite E.
      unfold bind, gets, when, print, emit, ret, after.
      destruct (verbose w1 && PyStr.truthy out); reflexivity.
    - destruct e; try (unfold apply_target; unfold bind at 1;
                       unfold try_except; unfold bind at 1; rewrite E;
                       reflexivity).
      rewrite (Hfail msg Hallow); reflexivity. }
  rewrite Hr.
  destruct (execute_argocd_command host cluster
              (set_cmd app revision repo idx) 30 false w) as [[out|e] w1];
    cbn [fst snd] in *.
  - destruct (verbose w1 && PyStr.truthy out);
      cbn [after trace set_trace]; rewrite ?count_snoc;
      cbn [is_run is_untimed_run is_set_call]; repeat split; lia.
  - destruct (Hx w1 e eq_refl) as [[He _]|[msg He]]; subst e.
    + unfold not_found. cbn [fst snd]. repeat split; lia.
    + cbn [fst snd].
      destruct (after_all_trace (fallback_disabled_notice host msg) w1)
        as [T _].
      rewrite T, !count_app.
      unfold fallback_disabled_notice, count.
      cbn [filter is_run is_untimed_run is_set_call length].
      unfold count in *. repeat split; lia.
Qed.

Lemma no_patch_without_permission_witness :
  let w := Demo.world_of [("c1", "argocd login svc.example.com --sso")] [] in
  let r := apply_target refusing_host "c1" "web" "v2" None JNull None false w in
  allow_patch w = false
  /\ fst r = Ret false
  /\ count is_untimed_run (trace (snd r)) = 0
  /\ count is_run (trace (snd r)) <= 1.
Proof.
  intros w r. split; [reflexivity|].
  destruct (no_patch_without_permission refusing_host "c1" "web" "v2" None
              JNull None w eq_refl) as [Hruns [Hunt [_ Hres]]].
  split; [exact Hres|]. split; [exact Hunt | exact Hruns].
Defined.

(** ** The confirmation of a sync *)

(** X26 (manager.py, sync_application, lines 368-374, with
    confirm_action).  A sync asks with yes as the default: an answer that
    is blank, or y or yes in any letter case, lets the guarded sync run,
    and any other word cancels it, the question and the word Cancelled
    being then all that the operation leaves, with no executor call and
    the answer false. *)
Theorem sync_runs_by_default (host : Host) (cluster app : string)
    (prune : bool) (w : World) (pre word post : string)
    (rest : list string) :
  stdin w = (pre +++ word +++ post) :: rest ->
  PyStr.all_chars PyStr.isspace pre = true ->
  PyStr.all_chars PyStr.isspace post = true ->
  PyStr.all_chars (fun c => negb (PyStr.isspace c)) word = true ->
  let asked := set_stdin rest
                 (after (EvInput (("Sync '" +++ app +++ "'?") +++ " [Y/n]: "))
                    w) in
  sync_application host cluster app false prune w =
    if PyStr.is_empty word || PyStr.mem (PyStr.lower word) ["y"; "yes"]
    then sync_application_loop host cluster app (sync_cmd app prune) (seq 0 2)
           asked
    else (Ret (Some false), after (EvPrint "Cancelled") asked).
Proof.
  intros Hin Hpre Hpost Hword. cbv zeta.
  unfold sync_application. unfold bind at 1.
  unfold confirm_action, input, bind, emit, after.
  cbn [stdin set_trace]. rewrite Hin.
  rewrite (strip_padded pre word post Hpre Hpost Hword).
  assert (Hempty : PyStr.is_empty (PyStr.lower word) = PyStr.is_empty word)
    by (destruct word; reflexivity).
  rewrite Hempty.
  destruct (PyStr.is_empty word); cbn [orb negb ret]; [reflexivity|].
  destruct (PyStr.mem (PyStr.lower word) ["y"; "yes"]); reflexivity.
Qed.

Lemma sync_runs_by_default_witness :
  let host := Demo.host_of [] (fun _ => Completed 0 "synced" "") in
  let w := Demo.world_of [("c1", "argocd login svc.example.com")] [" "] in
  fst (sync_application host "c1" "web" false false w) = Ret (Some true)
  /\ count is_sync_call
       (trace (snd (sync_application host "c1" "web" false false w))) = 1.
Proof.
  intros host w.
  rewrite (sync_runs_by_default host "c1" "web" false w " " "" "" []
             eq_refl eq_refl eq_refl eq_refl).
  split; reflexivity.
Defined.

(** ** RevisionMutator: what the dry run leaves in the trace *)

Section ReadsOnly.

Variable host : Host.
Variables login_cmd app : string.

Local Abbreviation R := (reads_only host login_cmd app).
Local Abbreviation P := (read_event host login_cmd app).

Lemma reads_refl (w : World) : R w w.
Proof.
  split; [reflexivity|]. exists []. split; [now rewrite app_nil_r | constructor].
Qed.

Lemma reads_trans (a b c : World) : R a b -> R b c -> R a c.
Proof.
  intros [C1 [d1 [E1 F1]]] [C2 [d2 [E2 F2]]]. split; [congruence|].
  exists (d1 ++ d2). split.
  - rewrite E2, E1, app_assoc. reflexivity.
  - apply Forall_app. split; assumption.
Qed.

Lemma reads_event (w : World) (e : event) : P e -> R w (after e w).
Proof.
  intros He. split; [reflexivity|]. exists [e].
  split; [reflexivity | now constructor].
Qed.

Lemma no_launch_read (e : event) : no_launch e = true -> P e.
Proof. destruct e; simpl; try discriminate; intros _; exact I. Qed.

Lemma reads_quiet (w : World) (e : event) :
  no_launch e = true -> R w (after e w).
Proof. intros He. apply reads_event, no_launch_read, He. Qed.

Lemma reads_stdin (w : World) (i : list string) : R w (set_stdin i w).
Proof.
  split; [reflexivity|]. exists [].
  split; [simpl; now rewrite app_nil_r | constructor].
Qed.

Lemma reads_confirm (w : World) (n : string) :
  R w (set_confirmed (confirmed_production w ++ [n]) w).
Proof.
  split; [reflexivity|]. exists [].
  split; [simpl; now rewrite app_nil_r | constructor].
Qed.

Lemma reads_notes (es : list event) (w : World) :
  forallb is_note es = true -> R w (after_all es w).
Proof.
  intros Hes. destruct (after_all_trace es w) as [T [C _]].
  split; [exact C|]. exists es. split; [exact T|].
  apply Forall_forall. intros e He. rewrite forallb_forall in Hes.
  specialize (Hes e He). destruct e; simpl in *; try discriminate; exact I.
Qed.

(** A call of the executor for a configured name adds its record, notes,
    at most a prompt, and the launch of the translated command. *)
Lemma reads_execute (name : string) (args : list string) (t : Z)
    (quiet : bool) (w : World) :
  Dict.get name (config w) = Some login_cmd ->
  P (EvExecute name args t) ->
  P (EvRun (translate login_cmd args) (Some t)) ->
  R w (snd (execute_argocd_command host name args t quiet w)).
Proof.
  intros Hget Hcall Hrun. rewrite execute_eq.
  rewrite validate_cluster_exact
    by (eapply dict_get_some_in_keys; exact Hget).
  cbn [config after set_trace]. rewrite Hget. cbv zeta.
  pose proof (stable_production_gate host R no_launch reads_refl reads_trans
                reads_quiet reads_stdin reads_confirm (fun _ => eq_refl) name
                (after (EvLog ("Executing: "
                               +++ PyStr.join " " (translate login_cmd args)))
                   (after (EvExecute name args t) w))) as Hgate.
  assert (Hpre : R w (after (EvLog ("Executing: "
                               +++ PyStr.join " " (translate login_cmd args)))
                        (after (EvExecute name args t) w))).
  { eapply reads_trans; [apply reads_event, Hcall|].
    apply reads_quiet. reflexivity. }
  destruct (production_gate host name _) as [[u|e] w3]; cbn [snd] in *.
  - eapply reads_trans; [exact Hpre|].
    eapply reads_trans; [exact Hgate|]. apply reads_event, Hrun.
  - eapply reads_trans; [exact Hpre | exact Hgate].
Qed.

Lemma reads_poll_verified (name : string) (quiet v : bool) (w : World) :
  R w (poll_verified host name quiet v w).
Proof.
  unfold poll_verified.
  apply (stable_bind R reads_trans).
  - apply (stable_when R reads_refl).
    apply (stable_print R no_launch reads_quiet (fun _ => eq_refl)).
  - intros _. apply (stable_when R reads_refl).
    apply (stable_confirm_production R reads_refl reads_confirm).
Qed.

Lemma reads_poll_loop (name : string) (quiet : bool) (attempts : list nat) :
  forall w,
    Dict.get name (config w) = Some login_cmd ->
    R w (snd (poll_loop host name quiet attempts w)).
Proof.
  induction attempts as [|n rest IH]; intros w Hget.
  - apply reads_quiet. reflexivity.
  - rewrite poll_loop_cons.
    pose proof (reads_execute name poll_cmd 5 quiet w Hget
                  (or_intror (conj eq_refl eq_refl))
                  (or_intror (conj eq_refl eq_refl))) as Hex.
    destruct (execute_argocd_command host name poll_cmd 5 quiet w)
      as [[out|e] w1]; cbn [snd] in *.
    + eapply reads_trans; [exact Hex | apply reads_poll_verified].
    + destruct e; cbn [snd]; try exact Hex.
      destruct (still_unauthenticated msg).
      * eapply reads_trans; [exact Hex|].
        eapply reads_trans; [apply (reads_quiet w1 (EvSleep poll_delay));
                             reflexivity|].
        apply IH. cbn [config after set_trace].
        destruct Hex as [C _]. rewrite C. exact Hget.
      * cbn [snd]. eapply reads_trans; [exact Hex|].
        unfold poll_rejected. destruct quiet; [apply reads_refl|].
        apply reads_quiet. reflexivity.
Qed.

Lemma reads_login (name : string) (quiet : bool) (w : World) :
  Dict.get name (config w) = Some login_cmd ->
  R w (snd (_handle_oidc_login host name quiet w)).
Proof.
  intros Hget. rewrite login_eq, Hget.
  destruct (negb (PyStr.truthy login_cmd)).
  { apply reads_quiet. reflexivity. }
  cbv zeta.
  destruct (login_notes host name login_cmd quiet (verbose w)
              EmptyString EmptyString) as [N1 [N2 _]].
  pose proof (reads_notes _ w N1) as H1.
  destruct (shlex_split host login_cmd) as [parts|] eqn:Hsplit;
    [|exact H1].
  pose proof (reads_notes _ (after_all (login_notice host name login_cmd quiet
                                          (verbose w)) w) N2) as H2.
  set (w2 := after (EvRun parts None) _).
  assert (H3 : R w w2).
  { eapply reads_trans; [exact H1|]. eapply reads_trans; [exact H2|].
    apply reads_event. exact Hsplit. }
  destruct (subprocess_run host (trace w2)) as [rc out err| |n m];
    cbn [snd].
  - destruct (login_notes host name login_cmd quiet (verbose w) out err)
      as [_ [_ N3]].
    pose proof (reads_notes _ w2 N3) as H4.
    eapply reads_trans; [exact H3|]. eapply reads_trans; [exact H4|].
    apply reads_poll_loop. destruct H4 as [C4 _]. destruct H3 as [C3 _].
    rewrite C4, C3. exact Hget.
  - eapply reads_trans; [exact H3|]. apply reads_quiet. reflexivity.
  - eapply reads_trans; [exact H3|]. apply reads_quiet. reflexivity.
Qed.

(** Reading the application document: one or two executor calls, and the
    login-recovery cycle between them. *)
Lemma reads_status (name : string) (quiet : bool) (attempts : list nat) :
  forall w,
    Dict.get name (config w) = Some login_cmd ->
    R w (snd (_get_application_status_loop host name app quiet attempts w)).
Proof.
  induction attempts as [|n rest IH]; intros w Hget; [apply reads_refl|].
  rewrite get_application_status_loop_guarded.
  rewrite (guarded_cons host name ["app"; "get"; app; "--output"; "json"] 30
             quiet (loads_or_none host) (report_failed host "Failed: " false)
             (failed_notice host "Failed: " false) JNull JNull
             (fun out w0 => proj2 (loads_or_none_pure host out w0))
             (report_failed_eq host "Failed: " false)).
  pose proof (reads_execute name ["app"; "get"; app; "--output"; "json"] 30
                quiet w Hget
                (or_introl (conj eq_refl eq_refl))
                (or_introl (conj eq_refl eq_refl))) as Hex.
  destruct (execute_argocd_command host name
              ["app"; "get"; app; "--output"; "json"] 30 quiet w)
    as [[out|e] w1]; cbn [snd] in *.
  - destruct (loads_or_none_pure host out w1) as [E _]. rewrite E. exact Hex.
  - assert (Hget1 : Dict.get name (config w1) = Some login_cmd).
    { destruct Hex as [C _]. rewrite C. exact Hget. }
    destruct e; cbn [snd]; try exact Hex.
    destruct (is_auth_error (PyStr.lower msg) && (n =? 0)).
    + pose proof (reads_login name quiet w1 Hget1) as Hlogin.
      destruct (_handle_oidc_login host name quiet w1) as [[[|]|e] wl];
        cbn [snd] in *.
      * eapply reads_trans; [exact Hex|]. eapply reads_trans; [exact Hlogin|].
        rewrite <- get_application_status_loop_guarded. apply IH.
        destruct Hlogin as [C _]. rewrite C. exact Hget1.
      * eapply reads_trans; [exact Hex|]. eapply reads_trans; [exact Hlogin|].
        apply reads_notes, failed_notice_notes.
      * eapply reads_trans; [exact Hex | exact Hlogin].
    + cbn [snd]. eapply reads_trans; [exact Hex|].
      apply reads_notes, failed_notice_notes.
Qed.

End ReadsOnly.

Lemma yields_ret {A} (Q : A -> Prop) (a : A) : Q a -> yields Q (ret a).
Proof. intros Ha w b H. inversion H. subst. exact Ha. Qed.

Lemma yields_bind {A B} (Q : B -> Prop) (m : M A) (k : A -> M B) :
  (forall a, yields Q (k a)) -> yields Q (bind m k).
Proof.
  intros Hk w b. unfold bind.
  destruct (m w) as [[a|e] w1]; [apply Hk | discriminate].
Qed.

(** The argv of the executor is [argocd], the arguments, and the
    connection flags. *)
Lemma translate_head (login_cmd : string) (args : list string) :
  exists flags, translate login_cmd args = "argocd" :: args ++ flags.
Proof.
  unfold translate.
  destruct (parse_login (PyStr.split login_cmd)) as [[url|] conn].
  - destruct (PyStr.truthy url).
    + exists (["--server"; url] ++ conn). simpl. rewrite <- app_assoc.
      reflexivity.
    + exists conn. reflexivity.
  - exists conn. reflexivity.
Qed.

Lemma count_read_events (host : Host) (login_cmd app : string)
    (p : event -> bool) (delta : list event) :
  (forall e, read_event host login_cmd app e -> p e = false) ->
  Forall (read_event host login_cmd app) delta ->
  count p delta = 0.
Proof.
  intros Hp Hd. unfold count.
  induction Hd as [|e l He Hl IH]; [reflexivity|].
  simpl. rewrite (Hp e He). exact IH.
Qed.

Lemma read_event_no_set_call (host : Host) (login_cmd app : string)
    (e : event) :
  read_event host login_cmd app e -> is_set_call e = false.
Proof.
  destruct e; simpl; try reflexivity.
  intros [[-> _]|[-> _]]; reflexivity.
Qed.

Lemma read_event_no_set_launch (host : Host) (login_cmd app : string)
    (e : event) :
  read_event host login_cmd app e -> is_set_launch e = false.
Proof.
  destruct e as [| | | |argv [t|]|]; simpl; try reflexivity.
  - intros [[-> _]|[-> _]].
    + destruct (translate_head login_cmd
                  ["app"; "get"; app; "--output"; "json"]) as [flags ->].
      reflexivity.
    + destruct (translate_head login_cmd poll_cmd) as [flags ->].
      reflexivity.
  - intros _. destruct argv as [|a0 [|a1 [|a2 rest]]]; try reflexivity;
      repeat match goal with
             | |- context [match ?x with _ => _ end] => destruct x
             end; reflexivity.
Qed.

(** Up to the dry run, the operation resolves the name, reads the
    application document and asks for the source: it answers under the
    resolved name, whose login command is stored, and only reads. *)
Lemma resolve_target_reads (host : Host) (cluster app : string)
    (repo : option string) (source_index : option Z) (w w1 : World)
    (name : string) (status : json) (idx : option Z) :
  resolve_target host cluster app repo source_index w
    = (Ret (Some (name, status, idx)), w1) ->
  exists login_cmd,
    Dict.get name (config w) = Some login_cmd
    /\ reads_only host login_cmd app w w1.
Proof.
  unfold resolve_target. unfold bind at 1.
  destruct (validate_cluster_frame host cluster w) as [Hframe Hkey].
  destruct (validate_cluster host cluster w) as [[n|e] w0];
    [|discriminate].
  cbn [fst snd] in *.
  destruct (dict_get_in_keys n (config w) (Hkey n eq_refl))
    as [login_cmd Hget].
  assert (H0 : reads_only host login_cmd app w w0).
  { destruct Hframe as [->|[text ->]];
      [apply reads_refl | apply reads_quiet; reflexivity]. }
  assert (Hget0 : Dict.get n (config w0) = Some login_cmd).
  { destruct H0 as [C _]. rewrite C. exact Hget. }
  unfold bind at 1.
  pose proof (reads_status host login_cmd app n false (seq 0 2) w0 Hget0)
    as Hst.
  change (_get_application_status_loop host n app false (seq 0 2) w0)
    with (get_application_status host n app w0) in Hst.
  destruct (get_application_status host n app w0) as [[st|e] w2];
    [|discriminate].
  cbn [snd] in Hst.
  set (R := reads_only host login_cmd app).
  assert (Rrefl : forall a, R a a) by (intros; apply reads_refl).
  assert (Rtrans : forall a b c, R a b -> R b c -> R a c)
    by (intros a b c; apply reads_trans).
  assert (Remit : forall a e, no_launch e = true -> R a (after e a))
    by (intros; now apply reads_quiet).
  assert (Rstdin : forall a i, R a (set_stdin i a))
    by (intros; apply reads_stdin).
  match goal with
  | |- ?k w2 = _ -> _ =>
      assert (HR : stable R k);
      [| assert (HQ : yields (fun t : option (string * json * option Z) =>
                                match t with
                                | Some (a, _, _) => a = n
                                | None => True
                                end) k) ]
  end.
  - destruct (negb (PyVal.truthy st)).
    { apply (stable_bind R Rtrans);
        [apply (stable_print R no_launch Remit (fun _ => eq_refl))|].
      intros _. apply (stable_ret R Rrefl). }
    apply (stable_bind R Rtrans); [apply (stable_lift R Rrefl)|]. intros spec.
    apply (stable_bind R Rtrans); [apply (stable_sources_of R Rrefl Rtrans)|].
    intros sources.
    apply (stable_bind R Rtrans).
    { destruct repo as [r|]; [|apply (stable_ret R Rrefl)].
      destruct source_index; [apply (stable_ret R Rrefl)|].
      destruct (PyStr.truthy r && (1 <? length sources));
        [apply (stable_match_repo R Rrefl Rtrans)
        | apply (stable_ret R Rrefl)]. }
    intros resolved. destruct resolved; [apply (stable_ret R Rrefl)|].
    destruct (1 <? length sources); [|apply (stable_ret R Rrefl)].
    apply (stable_bind R Rtrans);
      [apply (stable_print R no_launch Remit (fun _ => eq_refl))|].
    intros _.
    apply (stable_bind R Rtrans);
      [apply (stable_print_sources host R no_launch Rrefl Rtrans Remit
                (fun _ => eq_refl))|].
    intros _.
    apply (stable_bind R Rtrans); [apply (stable_gets R Rrefl)|].
    intros pending.
    apply (stable_bind R Rtrans);
      [apply (stable_choose_source R no_launch Rrefl Rtrans Remit Rstdin
                (fun _ => eq_refl) (fun _ => eq_refl))|].
    intros choice. destruct choice; apply (stable_ret R Rrefl).
  - destruct (negb (PyVal.truthy st)).
    { apply yields_bind. intros _. apply yields_ret. exact I. }
    apply yields_bind. intros spec.
    apply yields_bind. intros sources.
    apply yields_bind. intros resolved.
    destruct resolved; [apply yields_ret; reflexivity|].
    destruct (1 <? length sources); [|apply yields_ret; reflexivity].
    do 4 (apply yields_bind; intros ?).
    match goal with
    | |- yields _ (match ?c with _ => _ end) => destruct c
    end; apply yields_ret; [reflexivity | exact I].
  - intros H. specialize (HR w2). rewrite H in HR. cbn [snd] in HR.
    specialize (HQ w2 (Some (name, status, idx))).
    rewrite H in HQ. specialize (HQ eq_refl). cbn in HQ. subst n.
    exists login_cmd. split; [exact Hget|].
    eapply reads_trans; [exact H0|]. eapply reads_trans; [exact Hst|].
    exact HR.
Qed.

(** C8.  When the application document is fetched and the source index
    resolved, an invocation with [dry_run] set prints the command it would
    run -- [app set], the application, the revision, the repository when
    one is given, the source position when one is resolved -- and returns
    true; the print is the last thing it does; and from its start to its
    end it issues no call that changes anything: every event it adds
    before the print is a read event of the resolved cluster, so that the
    executor is called only for the application document and for the poll
    of the login-recovery cycle, a process with a timeout is launched only
    for those two calls, and a process without a timeout, as the patch of
    the fallback would be, only for the stored login command of the
    recovery cycle; in particular the executor is never called for
    [app set] and no [argocd app set] process is launched. *)
Theorem dry_run_only_prints (host : Host) (cluster app revision : string)
    (repo : option string) (source_index : option Z) (w w1 : World)
    (name : string) (status : json) (idx : option Z) :
  resolve_target host cluster app repo source_index w
    = (Ret (Some (name, status, idx)), w1) ->
  let r := set_application_target_revision host cluster app revision repo
             source_index true w in
  let cmd := ["app"; "set"; app; "--revision"; revision]
             ++ match repo with
                | Some url => if PyStr.truthy url then ["--repo"; url] else []
                | None => []
                end
             ++ match idx with
                | Some i => ["--source-position"; PyStr.of_Z (i + 1)]
                | None => []
                end in
  let notice := EvPrint ("DRY RUN: argocd " +++ PyStr.join " " cmd
                         +++ " --server <server-from-config>") in
  r = (Ret true, after notice w1)
  /\ (exists login_cmd delta,
        Dict.get name (config w) = Some login_cmd
        /\ trace (snd r) = trace w ++ delta ++ [notice]
        /\ Forall (read_event host login_cmd app) delta)
  /\ count is_set_call (trace w1) = count is_set_call (trace w)
  /\ count is_set_call (trace (snd r)) = count is_set_call (trace w)
  /\ count is_set_launch (trace (snd r)) = count is_set_launch (trace w).
Proof.
  intros Hres. cbv zeta.
  assert (Heq : set_application_target_revision host cluster app revision repo
                  source_index true w
                = (Ret true,
                   after (EvPrint
                            ("DRY RUN: argocd "
                             +++ PyStr.join " "
                                   (["app"; "set"; app; "--revision"; revision]
                                    ++ match repo with
                                       | Some url =>
                                           if PyStr.truthy url
                                           then ["--repo"; url] else []
                                       | None => []
                                       end
                                    ++ match idx with
                                       | Some i =>
                                           ["--source-position";
                                            PyStr.of_Z (i + 1)]
                                       | None => []
                                       end)
                             +++ " --server <server-from-config>")) w1)).
  { unfold set_application_target_revision, bind. rewrite Hres.
    reflexivity. }
  rewrite Heq. cbn [snd after trace set_trace].
  destruct (resolve_target_reads host cluster app repo source_index w w1
              name status idx Hres) as [login_cmd [Hget [_ [delta [E F]]]]].
  split; [reflexivity|].
  split.
  { exists login_cmd, delta. split; [exact Hget|].
    split; [|exact F]. rewrite E, <- app_assoc. reflexivity. }
  rewrite E, !count_app.
  rewrite (count_read_events host login_cmd app is_set_call delta
             (read_event_no_set_call host login_cmd app) F).
  rewrite (count_read_events host login_cmd app is_set_launch delta
             (read_event_no_set_launch host login_cmd app) F).
  unfold count. simpl. repeat split; lia.
Qed.

(** A dry run whose fetch needs the login-recovery cycle. *)
Lemma dry_run_only_prints_witness :
  let host := Demo.host_of
                [("doc",
                  JDict [("spec",
                          JDict [("source",
                                  JDict [("repoURL",
                                          JStr "https://git.example.com/web")])])])]
                (fun tr => if count is_run tr <=? 1
                           then Completed 1 "" "rpc error: code = Unauthenticated"
                           else Completed 0 "doc" "") in
  let w := Demo.world_of [("c1", "argocd login svc.example.com --sso")] [] in
  let r := set_application_target_revision host "c1" "web" "v2" None None
             true w in
  fst r = Ret true
  /\ In (EvRun ["argocd"; "login"; "svc.example.com"; "--sso"] None)
        (trace (snd r))
  /\ count is_set_call (trace (snd r)) = 0
  /\ count is_set_launch (trace (snd r)) = 0
  /\ last (trace (snd r)) (EvSleep 0)
     = EvPrint "DRY RUN: argocd app set web --revision v2 --server <server-from-config>".
Proof.
  intros host w r.
  pose proof (dry_run_only_prints host "c1" "web" "v2" None None w
                (snd (resolve_target host "c1" "web" None None w))
                "c1"
                (JDict [("spec",
                         JDict [("source",
                                 JDict [("repoURL",
                                         JStr "https://git.example.com/web")])])])
                None ltac:(vm_compute; reflexivity)) as [H1 [_ [_ [H4 H5]]]].
  split; [exact (f_equal fst H1)|].
  split; [vm_compute; do 6 right; now left|].
  split; [exact H4|]. split; [exact H5|].
  vm_compute. reflexivity.
Defined.
